(** * djes: the search queryset (SQS) and its query builder (Query)

    A shallow embedding of [djes/query.py] and [djes/models.py].

    Python objects are modelled by the type [value]; a method that can
    raise returns a [result]; a method that mutates [self] threads the
    object explicitly.  Query objects live in a store and are referenced by
    location, because a clone of a queryset shares the query of its parent. *)

From stdpp Require Import base option list gmap.
From Stdlib Require Import ZArith Lia String Ascii.
Import ListNotations.
Local Open Scope Z_scope.
Local Open Scope string_scope.
Local Open Scope list_scope.

(** ** Python values *)

(** JSON-like data, tuples, and instances (an instance is its class name
    and its [__dict__]).  Dictionaries keep insertion order. *)
#[warnings="-register-all"]
Inductive value : Type :=
| VNone
| VBool (b : bool)
| VInt (z : Z)
| VStr (s : string)
| VList (l : list value)
| VTuple (l : list value)
| VDict (d : list (string * value))
| VObj (cls : string) (d : list (string * value)).

Definition dict : Type := list (string * value).

(** The exceptions that the modelled code can raise or catch. *)
Inductive exn : Type :=
| KeyError (k : value)
| IndexError
| ValueError
| TypeError
| AttributeError
| AssertionError (msg : string)
| PlainException
| StopIteration
| RuntimeError
| BackendError (msg : string).

Inductive result (A : Type) : Type :=
| Ok (a : A)
| Raise (e : exn).
Arguments Ok {A} a.
Arguments Raise {A} e.

Definition rbind {A B : Type} (m : result A) (f : A -> result B) : result B :=
  match m with
  | Ok a => f a
  | Raise e => Raise e
  end.

Notation "'let*' x ':=' m 'in' k" := (rbind m (fun x => k))
  (at level 10, x pattern, m at level 200, k at level 200, only parsing).

Definition is_none (v : value) : bool :=
  match v with VNone => true | _ => false end.

(** [bool(v)] *)
Definition truthy (v : value) : bool :=
  match v with
  | VNone => false
  | VBool b => b
  | VInt z => negb (z =? 0)%Z
  | VStr s => negb (String.eqb s "")
  | VList l | VTuple l => match l with [] => false | _ => true end
  | VDict d => match d with [] => false | _ => true end
  | VObj _ _ => true
  end.

(** [type(v) == list] *)
Definition is_list (v : value) : bool :=
  match v with VList _ => true | _ => false end.

Module Dict.

Fixpoint lookup (k : string) (d : dict) : option value :=
  match d with
  | [] => None
  | (k', v) :: d' => if String.eqb k k' then Some v else lookup k d'
  end.

Definition mem (k : string) (d : dict) : bool :=
  match lookup k d with Some _ => true | None => false end.

(** [d[k] = v]: an existing key keeps its position. *)
Fixpoint set (k : string) (v : value) (d : dict) : dict :=
  match d with
  | [] => [(k, v)]
  | (k', v') :: d' =>
      if String.eqb k k' then (k, v) :: d' else (k', v') :: set k v d'
  end.

(** [d.update(other)] *)
Definition update (d other : dict) : dict :=
  fold_left (fun acc kv => set (fst kv) (snd kv) acc) other d.

End Dict.

(** [v[k]] for a string key. *)
Definition py_getitem (v : value) (k : string) : result value :=
  match v with
  | VDict d => match Dict.lookup k d with
               | Some x => Ok x
               | None => Raise (KeyError (VStr k))
               end
  | _ => Raise TypeError
  end.

(** [v[k] = x] for a string key. *)
Definition py_setitem (v : value) (k : string) (x : value) : result value :=
  match v with
  | VDict d => Ok (VDict (Dict.set k x d))
  | _ => Raise TypeError
  end.

(** [v.get(k)] and [v.get(k, default)] *)
Definition py_get_default (v : value) (k : string) (default : value) : result value :=
  match v with
  | VDict d => Ok (match Dict.lookup k d with Some x => x | None => default end)
  | _ => Raise AttributeError
  end.

Definition py_get (v : value) (k : string) : result value := py_get_default v k VNone.

(** [v.update(other)]; [other] is a mapping. *)
Definition py_update (v other : value) : result value :=
  match v with
  | VDict d => match other with
               | VDict o => Ok (VDict (Dict.update d o))
               | _ => Raise TypeError
               end
  | _ => Raise AttributeError
  end.

(** [v.setdefault(k, default)]: the dictionary after the call and the
    value returned. *)
Definition py_setdefault (v : value) (k : string) (default : value)
  : result (value * value) :=
  match v with
  | VDict d => match Dict.lookup k d with
               | Some x => Ok (v, x)
               | None => Ok (VDict (Dict.set k default d), default)
               end
  | _ => Raise AttributeError
  end.

(** [v.append(x)] *)
Definition py_append (v x : value) : result value :=
  match v with
  | VList l => Ok (VList (l ++ [x]))
  | _ => Raise AttributeError
  end.

(** [v.items()] *)
Definition py_items (v : value) : result dict :=
  match v with
  | VDict d => Ok d
  | _ => Raise AttributeError
  end.

(** The elements that [for x in v] goes through. *)
Definition py_iter (v : value) : result (list value) :=
  match v with
  | VList l | VTuple l => Ok l
  | VDict d => Ok (map (fun kv => VStr (fst kv)) d)
  | VStr s => Ok (map (fun c => VStr (String c EmptyString)) (list_ascii_of_string s))
  | _ => Raise TypeError
  end.

(** [len(v)] *)
Definition py_len (v : value) : result nat :=
  match v with
  | VList l | VTuple l => Ok (List.length l)
  | VDict d => Ok (List.length d)
  | VStr s => Ok (String.length s)
  | _ => Raise TypeError
  end.

(** [l[i]] for an integer [i]; a negative [i] counts from the end. *)
Definition list_index (l : list value) (i : Z) : result value :=
  let j := if (i <? 0)%Z then (i + Z.of_nat (List.length l))%Z else i in
  if (j <? 0)%Z then Raise IndexError
  else match l !! Z.to_nat j with
       | Some x => Ok x
       | None => Raise IndexError
       end.

(** [v[k]] for a key that is a value.  The dictionaries of the model have
    string keys: another key is not found in them. *)
Definition py_subscript (v k : value) : result value :=
  match v, k with
  | VDict _, VStr s => py_getitem v s
  | VDict _, (VList _ | VDict _) => Raise TypeError
  | VDict _, _ => Raise (KeyError k)
  | (VList l | VTuple l), VInt i => list_index l i
  | _, _ => Raise TypeError
  end.

(** [range(v)] as the list of its elements. *)
Definition py_range (v : value) : result (list Z) :=
  match v with
  | VInt n => Ok (map Z.of_nat (seq 0 (Z.to_nat n)))
  | _ => Raise TypeError
  end.

(** ** Methods: a state and the result or the exception

    A method of an object runs on a state [S], returns or raises, and leaves
    a state: what it changed before it raised stays changed. *)

Definition M (S A : Type) : Type := S -> result A * S.

Definition ret {S A : Type} (a : A) : M S A := fun s => (Ok a, s).

Definition bind {S A B : Type} (m : M S A) (f : A -> M S B) : M S B :=
  fun s => match m s with
           | (Ok a, s') => f a s'
           | (Raise e, s') => (Raise e, s')
           end.

Definition raise {S A : Type} (e : exn) : M S A := fun s => (Raise e, s).

Definition lift {S A : Type} (r : result A) : M S A := fun s => (r, s).

Definition gets {S A : Type} (f : S -> A) : M S A := fun s => (Ok (f s), s).

Definition modify {S : Type} (f : S -> S) : M S unit := fun s => (Ok tt, f s).

(** [try: m  except: h] with a bare [except]. *)
Definition try_except {S A : Type} (m : M S A) (h : exn -> M S A) : M S A :=
  fun s => match m s with
           | (Ok a, s') => (Ok a, s')
           | (Raise e, s') => h e s'
           end.

Notation "'let!' x ':=' m 'in' k" := (bind m (fun x => k))
  (at level 10, x pattern, m at level 200, k at level 200, only parsing).

(** ** Strings *)

Definition underscore : ascii := "_"%char.

(** [s.split("__")] *)
Fixpoint split_dunder (s : string) : list string :=
  match s with
  | EmptyString => [EmptyString]
  | String c rest =>
      match rest with
      | String c' rest' =>
          if Ascii.eqb c underscore && Ascii.eqb c' underscore
          then EmptyString :: split_dunder rest'
          else match split_dunder rest with
               | [] => [String c EmptyString]
               | w :: ws => String c w :: ws
               end
      | EmptyString => [String c EmptyString]
      end
  end.

(** A field name with no [__] inside and no [_] at its end: the names after
    which the separator of [field__operator] is found where it was put. *)
Fixpoint plain_field (s : string) : bool :=
  match s with
  | EmptyString => true
  | String c rest =>
      if Ascii.eqb c underscore
      then match rest with
           | EmptyString => false
           | String c' _ => negb (Ascii.eqb c' underscore) && plain_field rest
           end
      else plain_field rest
  end.

(** ** The query builder: [class Query] of [query.py] *)

(** Calls made on the backend connection, in the order of their arguments
  in the source. *)
Inductive call : Type :=
| BSearch (index doc_type body : value) (params : dict)
| BMlt (index doc_type id mlt_fields body : value) (options : dict)
| BGet (index id doc_type : value) (fields : option value)
| BIndex (index doc_type body id : value)
| BDelete (index doc_type id : value)
| BSuggest (body : value).

(** The backend answers a call, knowing the calls made before it. *)
Definition backend : Type := list call -> call -> result value.

Module Query.

(** The attributes of a [Query] other than [backend], which is the same
    connection for all objects. *)
Record t : Type := mk {
  index : value;
  doc_type : value;
  search_terms : value;
  filter_and_terms : value;
  filter_or_terms : value;
  params : dict;
  function_score : value;
  facets : value;
  sort : value;
  raw_query : value;
  raw_params : value;
  offset : Z;
  size : Z;
  mlt_query : bool;
  mlt_doc : value;
  mlt_fields : value;
  mlt_options : dict;
  _results : value;
  _hit_count : value;
  _facet_counts : value;
  _suggestions : value
}.

Definition set_search_terms (x : value) (self : t) : t :=
  {| index := index self; doc_type := doc_type self; search_terms := x;
     filter_and_terms := filter_and_terms self;
     filter_or_terms := filter_or_terms self; params := params self;
     function_score := function_score self; facets := facets self;
     sort := sort self; raw_query := raw_query self;
     raw_params := raw_params self; offset := offset self;
     size := size self; mlt_query := mlt_query self;
     mlt_doc := mlt_doc self; mlt_fields := mlt_fields self;
     mlt_options := mlt_options self; _results := _results self;
     _hit_count := _hit_count self; _facet_counts := _facet_counts self;
     _suggestions := _suggestions self |}.

Definition set_filter_and_terms (x : value) (self : t) : t :=
  {| index := index self; doc_type := doc_type self;
     search_terms := search_terms self; filter_and_terms := x;
     filter_or_terms := filter_or_terms self; params := params self;
     function_score := function_score self; facets := facets self;
     sort := sort self; raw_query := raw_query self;
     raw_params := raw_params self; offset := offset self;
     size := size self; mlt_query := mlt_query self;
     mlt_doc := mlt_doc self; mlt_fields := mlt_fields self;
     mlt_options := mlt_options self; _results := _results self;
     _hit_count := _hit_count self; _facet_counts := _facet_counts self;
     _suggestions := _suggestions self |}.

Definition set_filter_or_terms (x : value) (self : t) : t :=
  {| index := index self; doc_type := doc_type self;
     search_terms := search_terms self;
     filter_and_terms := filter_and_terms self; filter_or_terms := x;
     params := params self; function_score := function_score self;
     facets := facets self; sort := sort self; raw_query := raw_query self;
     raw_params := raw_params self; offset := offset self;
     size := size self; mlt_query := mlt_query self;
     mlt_doc := mlt_doc self; mlt_fields := mlt_fields self;
     mlt_options := mlt_options self; _results := _results self;
     _hit_count := _hit_count self; _facet_counts := _facet_counts self;
     _suggestions := _suggestions self |}.

Definition set_params (x : dict) (self : t) : t :=
  {| index := index self; doc_type := doc_type self;
     search_terms := search_terms self;
     filter_and_terms := filter_and_terms self;
     filter_or_terms := filter_or_terms self; params := x;
     function_score := function_score self; facets := facets self;
     sort := sort self; raw_query := raw_query self;
     raw_params := raw_params self; offset := offset self;
     size := size self; mlt_query := mlt_query self;
     mlt_doc := mlt_doc self; mlt_fields := mlt_fields self;
     mlt_options := mlt_options self; _results := _results self;
     _hit_count := _hit_count self; _facet_counts := _facet_counts self;
     _suggestions := _suggestions self |}.

Definition set_function_score (x : value) (self : t) : t :=
  {| index := index self; doc_type := doc_type self;
     search_terms := search_terms self;
     filter_and_terms := filter_and_terms self;
     filter_or_terms := filter_or_terms self; params := params self;
     function_score := x; facets := facets self; sort := sort self;
     raw_query := raw_query self; raw_params := raw_params self;
     offset := offset self; size := size self; mlt_query := mlt_query self;
     mlt_doc := mlt_doc self; mlt_fields := mlt_fields self;
     mlt_options := mlt_options self; _results := _results self;
     _hit_count := _hit_count self; _facet_counts := _facet_counts self;
     _suggestions := _suggestions self |}.

Definition set_facets (x : value) (self : t) : t :=
  {| index := index self; doc_type := doc_type self;
     search_terms := search_terms self;
     filter_and_terms := filter_and_terms self;
     filter_or_terms := filter_or_terms self; params := params self;
     function_score := function_score self; facets := x; sort := sort self;
     raw_query := raw_query self; raw_params := raw_params self;
     offset := offset self; size := size self; mlt_query := mlt_query self;
     mlt_doc := mlt_doc self; mlt_fields := mlt_fields self;
     mlt_options := mlt_options self; _results := _results self;
     _hit_count := _hit_count self; _facet_counts := _facet_counts self;
     _suggestions := _suggestions self |}.

Definition set_sort (x : value) (self : t) : t :=
  {| index := index self; doc_type := doc_type self;
     search_terms := search_terms self;
     filter_and_terms := filter_and_terms self;
     filter_or_terms := filter_or_terms self; params := params self;
     function_score := function_score self; facets := facets self;
     sort := x; raw_query := raw_query self; raw_params := raw_params self;
     offset := offset self; size := size self; mlt_query := mlt_query self;
     mlt_doc := mlt_doc self; mlt_fields := mlt_fields self;
     mlt_options := mlt_options self; _results := _results self;
     _hit_count := _hit_count self; _facet_counts := _facet_counts self;
     _suggestions := _suggestions self |}.

Definition set_raw_query (x : value) (self : t) : t :=
  {| index := index self; doc_type := doc_type self;
     search_terms := search_terms self;
     filter_and_terms := filter_and_terms self;
     filter_or_terms := filter_or_terms self; params := params self;
     function_score := function_score self; facets := facets self;
     sort := sort self; raw_query := x; raw_params := raw_params self;
     offset := offset self; size := size self; mlt_query := mlt_query self;
     mlt_doc := mlt_doc self; mlt_fields := mlt_fields self;
     mlt_options := mlt_options self; _results := _results self;
     _hit_count := _hit_count self; _facet_counts := _facet_counts self;
     _suggestions := _suggestions self |}.

Definition set_raw_params (x : value) (self : t) : t :=
  {| index := index self; doc_type := doc_type self;
     search_terms := search_terms self;
     filter_and_terms := filter_and_terms self;
     filter_or_terms := filter_or_terms self; params := params self;
     function_score := function_score self; facets := facets self;
     sort := sort self; raw_query := raw_query self; raw_params := x;
     offset := offset self; size := size self; mlt_query := mlt_query self;
     mlt_doc := mlt_doc self; mlt_fields := mlt_fields self;
     mlt_options := mlt_options self; _results := _results self;
     _hit_count := _hit_count self; _facet_counts := _facet_counts self;
     _suggestions := _suggestions self |}.

Definition set_offset (x : Z) (self : t) : t :=
  {| index := index self; doc_type := doc_type self;
     search_terms := search_terms self;
     filter_and_terms := filter_and_terms self;
     filter_or_terms := filter_or_terms self; params := params self;
     function_score := function_score self; facets := facets self;
     sort := sort self; raw_query := raw_query self;
     raw_params := raw_params self; offset := x; size := size self;
     mlt_query := mlt_query self; mlt_doc := mlt_doc self;
     mlt_fields := mlt_fields self; mlt_options := mlt_options self;
     _results := _results self; _hit_count := _hit_count self;
     _facet_counts := _facet_counts self;
     _suggestions := _suggestions self |}.

Definition set_size (x : Z) (self : t) : t :=
  {| index := index self; doc_type := doc_type self;
     search_terms := search_terms self;
     filter_and_terms := filter_and_terms self;
     filter_or_terms := filter_or_terms self; params := params self;
     function_score := function_score self; facets := facets self;
     sort := sort self; raw_query := raw_query self;
     raw_params := raw_params self; offset := offset self; size := x;
     mlt_query := mlt_query self; mlt_doc := mlt_doc self;
     mlt_fields := mlt_fields self; mlt_options := mlt_options self;
     _results := _results self; _hit_count := _hit_count self;
     _facet_counts := _facet_counts self;
     _suggestions := _suggestions self |}.

Definition set_mlt_query (x : bool) (self : t) : t :=
  {| index := index self; doc_type := doc_type self;
     search_terms := search_terms self;
     filter_and_terms := filter_and_terms self;
     filter_or_terms := filter_or_terms self; params := params self;
     function_score := function_score self; facets := facets self;
     sort := sort self; raw_query := raw_query self;
     raw_params := raw_params self; offset := offset self;
     size := size self; mlt_query := x; mlt_doc := mlt_doc self;
     mlt_fields := mlt_fields self; mlt_options := mlt_options self;
     _results := _results self; _hit_count := _hit_count self;
     _facet_counts := _facet_counts self;
     _suggestions := _suggestions self |}.

Definition set_mlt_doc (x : value) (self : t) : t :=
  {| index := index self; doc_type := doc_type self;
     search_terms := search_terms self;
     filter_and_terms := filter_and_terms self;
     filter_or_terms := filter_or_terms self; params := params self;
     function_score := function_score self; facets := facets self;
     sort := sort self; raw_query := raw_query self;
     raw_params := raw_params self; offset := offset self;
     size := size self; mlt_query := mlt_query self; mlt_doc := x;
     mlt_fields := mlt_fields self; mlt_options := mlt_options self;
     _results := _results self; _hit_count := _hit_count self;
     _facet_counts := _facet_counts self;
     _suggestions := _suggestions self |}.

Definition set_mlt_fields (x : value) (self : t) : t :=
  {| index := index self; doc_type := doc_type self;
     search_terms := search_terms self;
     filter_and_terms := filter_and_terms self;
     filter_or_terms := filter_or_terms self; params := params self;
     function_score := function_score self; facets := facets self;
     sort := sort self; raw_query := raw_query self;
     raw_params := raw_params self; offset := offset self;
     size := size self; mlt_query := mlt_query self;
     mlt_doc := mlt_doc self; mlt_fields := x;
     mlt_options := mlt_options self; _results := _results self;
     _hit_count := _hit_count self; _facet_counts := _facet_counts self;
     _suggestions := _suggestions self |}.

Definition set_mlt_options (x : dict) (self : t) : t :=
  {| index := index self; doc_type := doc_type self;
     search_terms := search_terms self;
     filter_and_terms := filter_and_terms self;
     filter_or_terms := filter_or_terms self; params := params self;
     function_score := function_score self; facets := facets self;
     sort := sort self; raw_query := raw_query self;
     raw_params := raw_params self; offset := offset self;
     size := size self; mlt_query := mlt_query self;
     mlt_doc := mlt_doc self; mlt_fields := mlt_fields self;
     mlt_options := x; _results := _results self;
     _hit_count := _hit_count self; _facet_counts := _facet_counts self;
     _suggestions := _suggestions self |}.

Definition set__results (x : value) (self : t) : t :=
  {| index := index self; doc_type := doc_type self;
     search_terms := search_terms self;
     filter_and_terms := filter_and_terms self;
     filter_or_terms := filter_or_terms self; params := params self;
     function_score := function_score self; facets := facets self;
     sort := sort self; raw_query := raw_query self;
     raw_params := raw_params self; offset := offset self;
     size := size self; mlt_query := mlt_query self;
     mlt_doc := mlt_doc self; mlt_fields := mlt_fields self;
     mlt_options := mlt_options self; _results := x;
     _hit_count := _hit_count self; _facet_counts := _facet_counts self;
     _suggestions := _suggestions self |}.

Definition set__hit_count (x : value) (self : t) : t :=
  {| index := index self; doc_type := doc_type self;
     search_terms := search_terms self;
     filter_and_terms := filter_and_terms self;
     filter_or_terms := filter_or_terms self; params := params self;
     function_score := function_score self; facets := facets self;
     sort := sort self; raw_query := raw_query self;
     raw_params := raw_params self; offset := offset self;
     size := size self; mlt_query := mlt_query self;
     mlt_doc := mlt_doc self; mlt_fields := mlt_fields self;
     mlt_options := mlt_options self; _results := _results self;
     _hit_count := x; _facet_counts := _facet_counts self;
     _suggestions := _suggestions self |}.

Definition set__facet_counts (x : value) (self : t) : t :=
  {| index := index self; doc_type := doc_type self;
     search_terms := search_terms self;
     filter_and_terms := filter_and_terms self;
     filter_or_terms := filter_or_terms self; params := params self;
     function_score := function_score self; facets := facets self;
     sort := sort self; raw_query := raw_query self;
     raw_params := raw_params self; offset := offset self;
     size := size self; mlt_query := mlt_query self;
     mlt_doc := mlt_doc self; mlt_fields := mlt_fields self;
     mlt_options := mlt_options self; _results := _results self;
     _hit_count := _hit_count self; _facet_counts := x;
     _suggestions := _suggestions self |}.

Definition set__suggestions (x : value) (self : t) : t :=
  {| index := index self; doc_type := doc_type self;
     search_terms := search_terms self;
     filter_and_terms := filter_and_terms self;
     filter_or_terms := filter_or_terms self; params := params self;
     function_score := function_score self; facets := facets self;
     sort := sort self; raw_query := raw_query self;
     raw_params := raw_params self; offset := offset self;
     size := size self; mlt_query := mlt_query self;
     mlt_doc := mlt_doc self; mlt_fields := mlt_fields self;
     mlt_options := mlt_options self; _results := _results self;
     _hit_count := _hit_count self; _facet_counts := _facet_counts self;
     _suggestions := x |}.

(** [Query.__init__] *)
Definition init (index doc_type : value) : t :=
  {| index := index; doc_type := doc_type;
     search_terms := VNone; filter_and_terms := VNone;
     filter_or_terms := VNone; params := []; function_score := VNone;
     facets := VNone; sort := VNone; raw_query := VNone; raw_params := VNone;
     offset := 0; size := 20;
     mlt_query := false; mlt_doc := VNone; mlt_fields := VList [];
     mlt_options := [];
     _results := VNone; _hit_count := VNone; _facet_counts := VNone;
     _suggestions := VNone |}.

(** [key, operator = key.split("__") if len(key.split("__")) > 1 else [key, None]]:
    unpacking into two names raises [ValueError] unless there are exactly
    two parts.  The operator [None] is [None]. *)
Definition split_key (key : string) : result (string * option string) :=
  let parts := split_dunder key in
  if (1 <? List.length parts)%nat
  then match parts with
       | [k; op] => Ok (k, Some op)
       | _ => Raise ValueError
       end
  else Ok (key, None).

(** [operator in ["gt", "gte", "lt", "lte"]] for an operator that is a string. *)
Definition is_range_operator (op : string) : bool :=
  String.eqb op "gt" || String.eqb op "gte"
  || String.eqb op "lt" || String.eqb op "lte".

(** ["terms" if operator == "in" or type(val) == list else "term"] *)
Definition filter_type (operator : option string) (val : value) : string :=
  if match operator with Some op => String.eqb op "in" | None => false end
     || is_list val
  then "terms" else "term".

(** The body of the loop of [add_filter_and] and [add_filter_or], up to the
    [append]: the filter built for one item of [kwargs]. *)
Definition filter_query (key : string) (val : value) : result value :=
  if String.eqb key "ids"
  then Ok (VDict [("ids", VDict [("values", val)])])
  else
    let* (key, operator) := split_key key in
    match operator with
    | Some op =>
        if is_range_operator op
        then Ok (VDict [("range", VDict [(key, VDict [(op, val)])])])
        else Ok (VDict [(filter_type operator val, VDict [(key, val)])])
    | None => Ok (VDict [(filter_type operator val, VDict [(key, val)])])
    end.

(** The loop [for key, val in kwargs.items(): ...;
    terms[combinator].append(filter_query)].  An exception leaves the filters
    appended so far in place. *)
Fixpoint add_filter_items (combinator : string) (items : dict) (terms : value)
  : result unit * value :=
  match items with
  | [] => (Ok tt, terms)
  | (key, val) :: rest =>
      match (let* fq := filter_query key val in
             let* l := py_getitem terms combinator in
             let* l' := py_append l fq in
             py_setitem terms combinator l') with
      | Ok terms' => add_filter_items combinator rest terms'
      | Raise e => (Raise e, terms)
      end
  end.

Definition add_filter_and (kwargs : dict) (self : t) : result unit * t :=
  let self :=
    if is_none (filter_and_terms self)
    then set_filter_and_terms (VDict [("must", VList [])]) self
    else self in
  let '(r, terms) := add_filter_items "must" kwargs (filter_and_terms self) in
  (r, set_filter_and_terms terms self).

Definition add_filter_or (kwargs : dict) (self : t) : result unit * t :=
  let self :=
    if is_none (filter_or_terms self)
    then set_filter_or_terms (VDict [("should", VList [])]) self
    else self in
  let '(r, terms) := add_filter_items "should" kwargs (filter_or_terms self) in
  (r, set_filter_or_terms terms self).

Definition add_search_query (content search_fields : value) (self : t) : t :=
  let search_query :=
    if negb (is_none search_fields)
    then VDict [("multi_match",
                 VDict [("query", content); ("fields", search_fields);
                        ("lenient", VBool true)])]
    else VDict [("match", VDict [("_all", content)])] in
  set_search_terms search_query self.

Definition add_fields (fields : value) (self : t) : t :=
  set_params (Dict.set "fields" fields (params self)) self.

Definition add_suggestion (suggest_text suggest_field suggest_mode suggest_size : value)
  (self : t) : t :=
  set_params
    (Dict.set "suggest_size" suggest_size
       (Dict.set "suggest_mode" suggest_mode
          (Dict.set "suggest_field" suggest_field
             (Dict.set "suggest_text" suggest_text (params self))))) self.

Definition add_term_facet (field : string) (kwargs : dict) (self : t)
  : result unit * t :=
  let terms := Dict.update [("field", VStr field)] kwargs in
  let new_facets := VDict [(field, VDict [("terms", VDict terms)])] in
  if is_none (facets self)
  then (Ok tt, set_facets new_facets self)
  else match py_update (facets self) new_facets with
       | Ok f => (Ok tt, set_facets f self)
       | Raise e => (Raise e, self)
       end.

(** One turn of the loop of [add_term_facet_filter]:
    [facet.setdefault("facet_filter", {"and":[]})['and'].append(...)]. *)
Definition add_facet_filter_item (key : string) (val : value) (facet : value)
  : result value :=
  let* (field, operator) := split_key key in
  let* (facet, ff) :=
    py_setdefault facet "facet_filter" (VDict [("and", VList [])]) in
  let* l := py_getitem ff "and" in
  let* l' := py_append l (VDict [(filter_type operator val, VDict [(field, val)])]) in
  let* ff' := py_setitem ff "and" l' in
  py_setitem facet "facet_filter" ff'.

Fixpoint add_facet_filter_items (items : dict) (facet : value)
  : result unit * value :=
  match items with
  | [] => (Ok tt, facet)
  | (key, val) :: rest =>
      match add_facet_filter_item key val facet with
      | Ok facet' => add_facet_filter_items rest facet'
      | Raise e => (Raise e, facet)
      end
  end.

Definition add_term_facet_filter (field : string) (filter_query : dict) (self : t)
  : result unit * t :=
  let '(r0, self) :=
    if is_none (facets self)
    then add_term_facet field [] self
    else match py_get (facets self) field with
         | Ok v => if negb (truthy v) then add_term_facet field [] self
                   else (Ok tt, self)
         | Raise e => (Raise e, self)
         end in
  match r0 with
  | Raise e => (Raise e, self)
  | Ok _ =>
      match py_getitem (facets self) field with
      | Raise e => (Raise e, self)
      | Ok facet =>
          let '(r, facet') := add_facet_filter_items filter_query facet in
          match py_setitem (facets self) field facet' with
          | Ok f => (r, set_facets f self)
          | Raise e => (Raise e, self)
          end
      end
  end.

Definition add_function_score (query : value) (self : t) : t :=
  set_function_score query self.

(** One element of the list built by [add_sort]. *)
Definition sort_item (field : value) : result value :=
  match field with
  | VStr s =>
      match s with
      | String "-"%char rest => Ok (VDict [(rest, VStr "desc")])
      | _ => Ok (VStr s)
      end
  | _ => Raise AttributeError
  end.

Fixpoint sort_items (args : list value) : result (list value) :=
  match args with
  | [] => Ok []
  | field :: rest =>
      let* x := sort_item field in
      let* xs := sort_items rest in
      Ok (x :: xs)
  end.

Definition add_sort (args : list value) (self : t) : result unit * t :=
  match sort_items args with
  | Ok l => (Ok tt, set_sort (VList l) self)
  | Raise e => (Raise e, self)
  end.

Definition add_raw_query (query : value) (self : t) : t :=
  set_raw_query query self.

Definition add_raw_params (params : value) (self : t) : t :=
  set_raw_params params self.

Definition mlt (docid fields : value) (kwargs : dict) (self : t) : t :=
  set_mlt_options kwargs
    (set_mlt_fields fields (set_mlt_doc docid (set_mlt_query true self))).

(** [build_query]: the dictionaries it builds are local, the attributes of
    [self] are only read. *)
Definition build_query (self : t) : result value :=
  if negb (is_none (raw_query self)) then Ok (raw_query self)
  else
    let* query :=
      (if negb (is_none (function_score self))
       then
         let query :=
           VDict [("function_score",
                   VDict [("query", VDict [("match_all", VDict [])])])] in
         let* q1 := py_getitem query "query" in
         let* fs := py_getitem q1 "function_score" in
         let* fs := py_update fs (function_score self) in
         let* q2 := py_getitem fs "query" in
         py_getitem q2 "filtered"
       else Ok (VDict [("query", VDict [("match_all", VDict [])])])) in
    let bool_ := VDict [] in
    let* query := (if negb (is_none (search_terms self))
              then py_setitem query "query" (search_terms self)
              else Ok query) in
    let* bool_ := (if negb (is_none (filter_and_terms self))
              then py_update bool_ (filter_and_terms self)
              else Ok bool_) in
    let* bool_ := (if negb (is_none (filter_or_terms self))
              then py_update bool_ (filter_or_terms self)
              else Ok bool_) in
    let filter_query := VDict [("filter", VDict [("bool", bool_)])] in
    let* query := (if truthy (filter_and_terms self) || truthy (filter_or_terms self)
              then py_update query filter_query
              else Ok query) in
    let* query := (if negb (is_none (facets self))
              then
                let* f := py_update (VDict []) (facets self) in
                py_update query (VDict [("facets", f)])
              else Ok query) in
    let* query := (if negb (is_none (sort self))
              then py_setitem query "sort" (sort self)
              else Ok query) in
    if negb (is_none (raw_params self))
    then py_update query (raw_params self)
    else Ok query.

(** [_reset] *)
Definition _reset (self : t) : t :=
  set__suggestions VNone
    (set__facet_counts VNone (set__hit_count VNone (set__results VNone self))).

(** [set_limits(start=None, bound=None)]; [int(None)] raises [TypeError]. *)
Definition set_limits (start bound : option Z) (self : t) : result unit * t :=
  let self := match start with
              | Some s => set_offset s self
              | None => self
              end in
  match bound with
  | Some b => match start with
              | Some s => (Ok tt, set_size (b - s) self)
              | None => (Raise TypeError, self)
              end
  | None => (Ok tt, self)
  end.

(** [has_run]: [None not in (self._results, self._hit_count)] *)
Definition has_run (self : t) : bool :=
  negb (is_none (_results self) || is_none (_hit_count self)).


(** *** Running a query

    Query objects are shared between querysets, so they live in a store and
    a method receives the location of [self].  The store also keeps the
    calls made on the backend, oldest first. *)

Definition loc : Type := nat.

Record world : Type := { queries : list t; calls : list call }.

(** Reading [self]; a location outside the store names no object. *)
Definition load (self : loc) : M world t :=
  fun w => match queries w !! self with
           | Some q => (Ok q, w)
           | None => (Raise AttributeError, w)
           end.

(** The store after an assignment to an attribute of [self]. *)
Definition put (self : loc) (q : t) (w : world) : world :=
  {| queries := <[self := q]> (queries w); calls := calls w |}.

Definition save (self : loc) (q : t) : M world unit := modify (put self q).

(** A method that only changes [self]. *)
Definition method (f : t -> t) (self : loc) : M world unit :=
  let! q := load self in save self (f q).

(** A method that changes [self] and may raise. *)
Definition method_r {A : Type} (f : t -> result A * t) (self : loc) : M world A :=
  let! q := load self in
  let '(r, q') := f q in
  let! _ := save self q' in
  lift r.

(** The new object of [Query(index, doc_type, backend)]. *)
Definition new (index doc_type : value) : M world loc :=
  fun w => (Ok (List.length (queries w)),
            {| queries := queries w ++ [init index doc_type]; calls := calls w |}).

Fixpoint facet_terms (terms : list value) : result (list value) :=
  match terms with
  | [] => Ok []
  | term :: rest =>
      let* t := py_getitem term "term" in
      let* c := py_getitem term "count" in
      let* tmplist := facet_terms rest in
      Ok (VTuple [t; c] :: tmplist)
  end.

Fixpoint process_facet_items (items : dict) (facet_counts : dict) : result dict :=
  match items with
  | [] => Ok facet_counts
  | (facet_field, facet_details) :: rest =>
      let* terms := py_get facet_details "terms" in
      let* l := py_iter terms in
      let* tmplist := facet_terms l in
      process_facet_items rest (Dict.set facet_field (VList tmplist) facet_counts)
  end.

Definition process_facets (facet_result : value) : result value :=
  let* items := py_items facet_result in
  let* facet_counts := process_facet_items items [] in
  Ok (VDict facet_counts).

(** The loop of [process_suggestions]; the keys of [suggestions] are the
    texts of the terms, which are strings. *)
Fixpoint suggestion_terms (raw_suggestions : list value) (suggestions : dict)
  : result dict :=
  match raw_suggestions with
  | [] => Ok suggestions
  | term :: rest =>
      let* options := py_getitem term "options" in
      let* v := (if truthy options
                 then let* o := py_subscript options (VInt 0) in
                      py_getitem o "text"
                 else Ok VNone) in
      let* text := py_getitem term "text" in
      match text with
      | VStr k => suggestion_terms rest (Dict.set k v suggestions)
      | _ => Raise TypeError
      end
  end.

Definition process_suggestions (self : t) (suggestion_result : value)
  : result value :=
  if is_none suggestion_result then Ok VNone
  else
    let* field := py_getitem (VDict (params self)) "suggest_field" in
    let* raw_suggestions := py_subscript suggestion_result field in
    let* l := py_iter raw_suggestions in
    let* suggestions := suggestion_terms l [] in
    Ok (VDict suggestions).

(** The store after a call on the backend. *)
Definition logged (c : call) (w : world) : world :=
  {| queries := queries w; calls := calls w ++ [c] |}.

Section Backend.

Variable b : backend.

(** A call on the backend: it is logged, then answered. *)
Definition backend_call (c : call) : M world value :=
  fun w => (b (calls w) c, logged c w).

(** The four assignments that end [run] and [run_mlt]. *)
Definition keep_results (self : loc) (results : value) : M world unit :=
  let! hits := lift (let* h := py_getitem results "hits" in
                     py_getitem h "hits") in
  let! _ := method (set__results hits) self in
  let! total := lift (let* h := py_getitem results "hits" in
                      py_getitem h "total") in
  let! _ := method (set__hit_count total) self in
  let! fc := lift (let* f := py_get_default results "facets" (VDict []) in
                   process_facets f) in
  let! _ := method (set__facet_counts fc) self in
  let! q := load self in
  let! sg := lift (let* s := py_get_default results "suggest" VNone in
                   process_suggestions q s) in
  method (set__suggestions sg) self.

Definition run (self : loc) : M world unit :=
  let! q := load self in
  let! final_query := lift (build_query q) in
  let! _ := method (fun q => set_params (Dict.set "from_" (VInt (offset q)) (params q)) q) self in
  let! _ := method (fun q => set_params (Dict.set "size" (VInt (size q)) (params q)) q) self in
  let! q := load self in
  let! results := backend_call (BSearch (index q) (doc_type q) final_query (params q)) in
  keep_results self results.

Definition run_mlt (self : loc) : M world unit :=
  let! _ := method (fun q => set_mlt_options (Dict.set "search_from" (VInt (offset q)) (mlt_options q)) q) self in
  let! _ := method (fun q => set_mlt_options (Dict.set "search_size" (VInt (size q)) (mlt_options q)) q) self in
  let! q := load self in
  let! body := lift (build_query q) in
  let! results := backend_call (BMlt (index q) (doc_type q) (mlt_doc q) (mlt_fields q) body (mlt_options q)) in
  keep_results self results.

Definition get_results (self : loc) : M world value :=
  let! q := load self in
  let! _ := (if is_none (_results q)
             then if mlt_query q then run_mlt self else run self
             else ret tt) in
  let! q := load self in
  ret (_results q).

Definition get_count (self : loc) : M world value :=
  let! q := load self in
  let! _ := (if is_none (_hit_count q)
             then if mlt_query q then run_mlt self else run self
             else ret tt) in
  let! q := load self in
  ret (_hit_count q).

Definition get_facet_counts (self : loc) : M world value :=
  let! q := load self in
  let! _ := (if is_none (_facet_counts q) then run self else ret tt) in
  let! q := load self in
  ret (_facet_counts q).

Definition get_suggestions (self : loc) : M world value :=
  let! q := load self in
  let! _ := (if is_none (_suggestions q) then run self else ret tt) in
  let! q := load self in
  ret (_suggestions q).

End Backend.

End Query.

(** ** The search results: [class SearchResult] of [models.py] *)

(** [SearchResult(index_name, doc_type, pk, score, body)]: a key of [body]
    that is already an attribute is skipped. *)
Definition SearchResult (index_name doc_type pk score body : value)
  : result value :=
  let* items := py_items body in
  Ok (VObj "SearchResult"
        (fold_left
           (fun d kv => if Dict.mem (fst kv) d then d
                        else Dict.set (fst kv) (snd kv) d)
           items
           [("index_name", index_name); ("doc_type", doc_type);
            ("pk", pk); ("score", score)])).

(** [v.copy()] of a dictionary. *)
Definition py_copy (v : value) : result value :=
  match v with
  | VDict d => Ok (VDict d)
  | _ => Raise AttributeError
  end.

(** ** Slices of a Python list *)

(** The position that a bound of a slice stands for in a list of length
    [len]. *)
Definition slice_bound (len : nat) (i : Z) : nat :=
  if (i <? 0)%Z then Z.to_nat (Z.max 0 (Z.of_nat len + i))
  else Nat.min (Z.to_nat i) len.

(** [l[start:bound]] *)
Definition py_slice (l : list value) (start bound : Z) : list value :=
  let a := slice_bound (List.length l) start in
  let b := slice_bound (List.length l) bound in
  firstn (b - a) (skipn a l).

(** [l[start:bound] = xs] *)
Definition py_slice_assign (l : list value) (start bound : Z) (xs : list value)
  : list value :=
  let a := slice_bound (List.length l) start in
  let b := Nat.max a (slice_bound (List.length l) bound) in
  firstn a l ++ xs ++ skipn b l.

(** [l.index(None)], when there is one. *)
Fixpoint index_of_none (l : list value) : option nat :=
  match l with
  | [] => None
  | x :: l' => if is_none x then Some 0%nat
               else option_map S (index_of_none l')
  end.

(** ** The queryset: [class SQS] of [models.py] *)

(** A subscript: an integer, a slice (its step is never read), or an object
    of another type. *)
Inductive key : Type :=
| KInt (k : Z)
| KSlice (start stop : option Z)
| KOther (k : value).

(** How a traversal ended: the iterator is exhausted, an exception came out
    of it, or the bound set on the number of fetches was reached. *)
Inductive outcome : Type :=
| Exhausted
| Failed (e : exn)
| OutOfFuel.

(** An exception that leaves the frame of a generator: it comes out of the
    iterator, a [StopIteration] as [RuntimeError] (PEP 479). *)
Definition generator_raise (e : exn) : outcome :=
  Failed (match e with
          | StopIteration => RuntimeError
          | _ => e
          end).

Module SQS.

(** The attributes of an [SQS] other than [backend]; [query] is a
    reference. *)
Record t : Type := mk {
  index_name : value;
  doc_type : value;
  process_results : bool;
  query : Query.loc;
  _result_cache : list value;
  _result_count : value
}.

Definition set__result_cache (x : list value) (self : t) : t :=
  {| index_name := index_name self; doc_type := doc_type self;
     process_results := process_results self; query := query self;
     _result_cache := x; _result_count := _result_count self |}.

Definition set__result_count (x : value) (self : t) : t :=
  {| index_name := index_name self; doc_type := doc_type self;
     process_results := process_results self; query := query self;
     _result_cache := _result_cache self; _result_count := x |}.

(** A queryset at work: the object and the store that holds its query. *)
Record state : Type := { self : t; store : Query.world }.

(** A method of the query, run from a method of the queryset. *)
Definition on_store {A : Type} (m : M Query.world A) : M state A :=
  fun st => let '(r, w) := m (store st) in (r, {| self := self st; store := w |}).

Definition update_self (f : t -> t) : M state unit :=
  modify (fun st => {| self := f (self st); store := store st |}).

(** [SQS.__init__]; without a query, a new one is made. *)
Definition init (index_name doc_type : value) (query : option Query.loc)
  (process_results : bool) : M Query.world t :=
  let! q := (match query with
             | Some q => ret q
             | None => Query.new index_name doc_type
             end) in
  ret {| index_name := index_name; doc_type := doc_type;
         process_results := process_results; query := q;
         _result_cache := []; _result_count := VNone |}.

(** One turn of the loop of [post_process_results]. *)
Definition post_process_result (self : t) (result_ : value) : result value :=
  let* f := py_get result_ "fields" in
  if truthy f
  then
    if process_results self
    then
      let* ty := py_getitem result_ "_type" in
      let* id := py_getitem result_ "_id" in
      let* score := py_getitem result_ "_score" in
      let* body := py_get result_ "fields" in
      SearchResult (index_name self) ty id score body
    else
      let* f := py_get result_ "fields" in
      let* data := py_copy f in
      let* ty := py_getitem result_ "_type" in
      py_setitem data "doc_type" ty
  else
    if process_results self
    then
      let* ty := py_getitem result_ "_type" in
      let* id := py_getitem result_ "_id" in
      let* score := py_getitem result_ "_score" in
      let* body := py_get result_ "_source" in
      SearchResult (index_name self) ty id score body
    else
      let* f := py_get result_ "_source" in
      let* data := py_copy f in
      let* ty := py_getitem result_ "_type" in
      py_setitem data "doc_type" ty.

Fixpoint post_process_list (self : t) (results : list value)
  : result (list value) :=
  match results with
  | [] => Ok []
  | r :: rest =>
      let* x := post_process_result self r in
      let* xs := post_process_list self rest in
      Ok (x :: xs)
  end.

Definition post_process_results (self : t) (results : value)
  : result (list value) :=
  let* l := py_iter results in
  post_process_list self l.

(** The elements yielded by
    [while current_position < current_cache_max: yield cache[current_position]],
    [count] of them, and the exception that stopped it, if any. *)
Fixpoint yield_cached (cache : list value) (current_position : Z) (count : nat)
  : list value * option exn :=
  match count with
  | O => ([], None)
  | S n =>
      match list_index cache current_position with
      | Ok x => let '(ys, e) := yield_cached cache (current_position + 1) n in
                (x :: ys, e)
      | Raise e => ([], Some e)
      end
  end.

Section Conf.

Variable b : backend.

(** [conf.SIZE_PER_QUERY] and [conf.DEFAULT_FILTER] *)
Variable SIZE_PER_QUERY : Z.
Variable DEFAULT_FILTER : string.

(** [len(self)]: what [__len__] returns has to be an integer that is not
    negative. *)
Definition __len__ : M state Z :=
  let! s := gets self in
  let! _ := (if is_none (_result_count s)
             then let! c := on_store (Query.get_count b (query s)) in
                  update_self (set__result_count c)
             else ret tt) in
  let! s := gets self in
  match _result_count s with
  | VInt n => if (n <? 0)%Z then raise ValueError else ret n
  | _ => raise TypeError
  end.

Definition _cache_is_full : M state bool :=
  let! s := gets self in
  let! q := on_store (Query.load (query s)) in
  if negb (Query.has_run q) then ret false
  else
    let! n := __len__ in
    if (n <=? 0)%Z then ret true
    else
      let! s := gets self in
      match index_of_none (_result_cache s) with
      | Some _ => ret false
      | None => ret (0 <? List.length (_result_cache s))%nat
      end.

(** [_fill_cache(start, end)], called with integers. *)
Definition _fill_cache (start end_ : Z) : M state bool :=
  let! s := gets self in
  let! _ := on_store (Query.method Query._reset (query s)) in
  let! _ := on_store (Query.method_r (Query.set_limits (Some start) (Some end_))
                        (query s)) in
  let! results := on_store (Query.get_results b (query s)) in
  let! none := (if is_none results then ret true
                else let! n := lift (py_len results) in ret (n =? 0)%nat) in
  if (none : bool) then ret false
  else
    let! s := gets self in
    let! _ := (if (List.length (_result_cache s) =? 0)%nat
               then let! c := on_store (Query.get_count b (query s)) in
                    let! r := lift (py_range c) in
                    update_self (set__result_cache (map (fun _ => VNone) r))
               else ret tt) in
    let! s := gets self in
    let! to_cache := lift (post_process_results s results) in
    let! _ := update_self
                (set__result_cache
                   (py_slice_assign (_result_cache s) start
                      (start + Z.of_nat (List.length to_cache)) to_cache)) in
    ret true.

(** [__getitem__] *)
Definition __getitem__ (k : key) : M state value :=
  let! _ := (match k with
             | KOther _ => raise PlainException
             | _ => ret tt
             end) in
  let! _ := (if match k with
                | KInt i => (0 <=? i)%Z
                | KSlice start stop =>
                    match start with None => true | Some s => (0 <=? s)%Z end
                    && match stop with None => true | Some s => (0 <=? s)%Z end
                | KOther _ => false
                end
             then ret tt
             else raise (AssertionError "Negative indexing is not supported.")) in
  let is_slice := match k with KSlice _ _ => true | _ => false end in
  let start := match k with
               | KSlice (Some s) _ => s
               | KSlice None _ => 0%Z
               | KInt i => i
               | KOther _ => 0%Z
               end in
  let bound := match k with
               | KSlice _ (Some s) => s
               | KSlice _ None => (start + SIZE_PER_QUERY)%Z
               | KInt i => (i + 1)%Z
               | KOther _ => 0%Z
               end in
  let! s := gets self in
  let! more :=
    (if (List.length (_result_cache s) <=? 0)%nat then ret true
     else if existsb is_none (py_slice (_result_cache s) start bound)
          then let! full := _cache_is_full in ret (negb full)
          else ret false) in
  let! _ := (if (more : bool)
             then try_except
                    (let! _ := _fill_cache start bound in ret tt)
                    (fun e => match e with
                              | StopIteration => ret tt
                              | _ => raise e
                              end)
             else ret tt) in
  let! s := gets self in
  if is_slice then ret (VList (py_slice (_result_cache s) start bound))
  else lift (list_index (_result_cache s) start).

(** [_manual_iter], run to its end: what it yields, how it ends, and the
    state it leaves.  [fuel] bounds the turns of [while True].  The loop is
    left by [raise StopIteration] only, in the frame of the generator: the
    iterator is never exhausted, it raises [RuntimeError]. *)
Fixpoint _manual_iter (fuel : nat) (current_position current_cache_max : Z)
  (st : state) : list value * outcome * state :=
  match fuel with
  | O => ([], OutOfFuel, st)
  | S fuel' =>
      let cache := _result_cache (self st) in
      let current_cache_max :=
        if (0 <? List.length cache)%nat
        then match index_of_none cache with
             | Some i => Z.of_nat i
             | None => Z.of_nat (List.length cache)
             end
        else current_cache_max in
      let '(ys, e) := yield_cached cache current_position
                        (Z.to_nat (current_cache_max - current_position)) in
      match e with
      | Some e => (ys, generator_raise e, st)
      | None =>
          let current_position := Z.max current_position current_cache_max in
          match _cache_is_full st with
          | (Raise e, st') => (ys, generator_raise e, st')
          | (Ok true, st') => (ys, generator_raise StopIteration, st')
          | (Ok false, st') =>
              match _fill_cache current_position
                      (current_position + SIZE_PER_QUERY) st' with
              | (Raise e, st'') => (ys, generator_raise e, st'')
              | (Ok false, st'') => (ys, generator_raise StopIteration, st'')
              | (Ok true, st'') =>
                  let '(zs, o, st3) :=
                    _manual_iter fuel' current_position current_cache_max st'' in
                  (ys ++ zs, o, st3)
              end
          end
      end
  end.

(** [__iter__], and the iterator it returns run to its end. *)
Definition __iter__ (fuel : nat) (st : state) : list value * outcome * state :=
  match _cache_is_full st with
  | (Raise e, st') => ([], Failed e, st')
  | (Ok true, st') => (_result_cache (self st'), Exhausted, st')
  | (Ok false, st') => _manual_iter fuel 0 0 st'
  end.

Definition _clone : M state t :=
  let! s := gets self in
  on_store (init (index_name s) (doc_type s) (Some (query s)) (process_results s)).

Definition show_query : M state value :=
  let! s := gets self in
  let! q := on_store (Query.load (query s)) in
  lift (Query.build_query q).

Definition reset : M state unit :=
  let! s := gets self in
  on_store (Query.method Query._reset (query s)).

Definition index (doc_id doc_body : value) : M state value :=
  let! s := gets self in
  on_store (Query.backend_call b
              (BIndex (index_name s) (doc_type s) doc_body doc_id)).

Definition remove (doc_id : value) : M state value :=
  let! s := gets self in
  try_except
    (on_store (Query.backend_call b
                 (BDelete (index_name s) (doc_type s) doc_id)))
    (fun _ => ret VNone).

Definition get (doc_id : value) (fields : value) : M state value :=
  let! s := gets self in
  try_except
    (if truthy fields
     then
       let! result_ := on_store (Query.backend_call b
                        (BGet (index_name s) doc_id (doc_type s) (Some fields))) in
       if process_results s
       then lift (let* id := py_getitem result_ "_id" in
                  let* body := py_get result_ "fields" in
                  SearchResult (index_name s) (doc_type s) id (VInt 0) body)
       else lift (py_get result_ "fields")
     else
       let! result_ := on_store (Query.backend_call b
                        (BGet (index_name s) doc_id (doc_type s) None)) in
       if process_results s
       then lift (let* id := py_getitem result_ "_id" in
                  let* body := py_get result_ "_source" in
                  SearchResult (index_name s) (doc_type s) id (VInt 0) body)
       else lift (py_get result_ "_source"))
    (fun _ => ret VNone).

(** The methods that chain: each returns the clone. *)

Definition search (content search_fields : value) : M state t :=
  let! clone := _clone in
  let! _ := on_store (Query.method (Query.add_search_query content search_fields)
                        (query clone)) in
  ret clone.

Definition filter (kwargs : dict) : M state t :=
  let! clone := _clone in
  let! _ := (if String.eqb DEFAULT_FILTER "AND"
             then on_store (Query.method_r (Query.add_filter_and kwargs) (query clone))
             else on_store (Query.method_r (Query.add_filter_or kwargs) (query clone))) in
  ret clone.

Definition filter_and (kwargs : dict) : M state t :=
  let! clone := _clone in
  let! _ := on_store (Query.method_r (Query.add_filter_and kwargs) (query clone)) in
  ret clone.

Definition filter_or (kwargs : dict) : M state t :=
  let! clone := _clone in
  let! _ := on_store (Query.method_r (Query.add_filter_or kwargs) (query clone)) in
  ret clone.

Definition only (fields : list value) : M state t :=
  let! clone := _clone in
  let! _ := on_store (Query.method (Query.add_fields (VTuple fields)) (query clone)) in
  ret clone.

Definition sort (args : list value) : M state t :=
  let! clone := _clone in
  let! _ := on_store (Query.method_r (Query.add_sort args) (query clone)) in
  ret clone.

Definition raw_query (query_ : value) : M state t :=
  let! clone := _clone in
  let! _ := on_store (Query.method (Query.add_raw_query query_) (query clone)) in
  ret clone.

Definition raw_params (params : value) : M state t :=
  let! clone := _clone in
  let! _ := on_store (Query.method (Query.add_raw_params params) (query clone)) in
  ret clone.

Definition function_score (query_ : value) : M state t :=
  let! clone := _clone in
  let! _ := on_store (Query.method (Query.add_function_score query_) (query clone)) in
  ret clone.

Definition facet (field : string) (kwargs : dict) : M state t :=
  let! clone := _clone in
  let! _ := on_store (Query.method_r (Query.add_term_facet field kwargs) (query clone)) in
  ret clone.

Definition facet_filter (field : string) (filter_query : dict) : M state t :=
  let! clone := _clone in
  let! _ := on_store (Query.method_r (Query.add_term_facet_filter field filter_query)
                        (query clone)) in
  ret clone.

Definition count : M state Z := __len__.

Definition facet_counts : M state value :=
  let! s := gets self in
  on_store (Query.get_facet_counts b (query s)).

Definition suggest (suggest_text suggest_field suggest_mode suggest_size : value)
  : M state t :=
  let! clone := _clone in
  let! _ := on_store (Query.method
                        (Query.add_suggestion suggest_text suggest_field
                           suggest_mode suggest_size) (query clone)) in
  ret clone.

Definition get_suggestions : M state value :=
  let! s := gets self in
  on_store (Query.get_suggestions b (query s)).

Definition mlt (docid fields : value) (kwargs : dict) : M state t :=
  let! clone := _clone in
  let! _ := on_store (Query.method (Query.mlt docid fields kwargs) (query clone)) in
  ret clone.

End Conf.

End SQS.

(** ** Vocabulary of the properties *)

(** The filters of the query DSL. *)
Definition range_filter (field op : string) (val : value) : value :=
  VDict [("range", VDict [(field, VDict [(op, val)])])].

Definition terms_filter (field : string) (val : value) : value :=
  VDict [("terms", VDict [(field, val)])].

Definition term_filter (field : string) (val : value) : value :=
  VDict [("term", VDict [(field, val)])].

Definition ids_filter (val : value) : value :=
  VDict [("ids", VDict [("values", val)])].

(** What one criterion [key = val] stands for: the key is the literal [ids],
    a plain field name, or a plain field name, [__] and an operator.  A
    range operator decides before the type of the value is looked at. *)
Inductive renders : string -> value -> value -> Prop :=
| renders_ids val :
    renders "ids" val (ids_filter val)
| renders_range field op val :
    plain_field field = true ->
    Query.is_range_operator op = true ->
    renders (field ++ "__" ++ op)%string val (range_filter field op val)
| renders_in field val :
    plain_field field = true ->
    renders (field ++ "__in")%string val (terms_filter field val)
| renders_list field val :
    plain_field field = true -> field <> "ids" -> is_list val = true ->
    renders field val (terms_filter field val)
| renders_term field val :
    plain_field field = true -> field <> "ids" -> is_list val = false ->
    renders field val (term_filter field val).

(** The subscripts that [__getitem__] refuses: a negative integer, a slice
    with a negative start or stop, an object of another type. *)
Definition refused (k : key) : bool :=
  match k with
  | KInt i => (i <? 0)%Z
  | KSlice start stop =>
      match start with Some s => (s <? 0)%Z | None => false end
      || match stop with Some s => (s <? 0)%Z | None => false end
  | KOther _ => true
  end.

(** The calls that [remove] and [get] make on the backend, and the key
    under which the answer to [get] carries the document. *)
Definition delete_call (s : SQS.t) (doc_id : value) : call :=
  BDelete (SQS.index_name s) (SQS.doc_type s) doc_id.

Definition get_call (s : SQS.t) (doc_id fields : value) : call :=
  BGet (SQS.index_name s) doc_id (SQS.doc_type s)
    (if truthy fields then Some fields else None).

Definition payload_key (fields : value) : string :=
  if truthy fields then "fields" else "_source".

(** An answer of the backend to a search that can be kept: it has its hits
    and their total, and its facets, if any, can be read. *)
Definition answer (r hits total facet_counts : value) : Prop :=
  exists h,
    py_getitem r "hits" = Ok h /\
    py_getitem h "hits" = Ok hits /\
    py_getitem h "total" = Ok total /\
    (let* f := py_get_default r "facets" (VDict []) in
     Query.process_facets f) = Ok facet_counts.

(** Such an answer without a [suggest] section. *)
Definition answer_without_suggest (r : value) : Prop :=
  (exists hits total facet_counts, answer r hits total facet_counts) /\
  py_get_default r "suggest" VNone = Ok VNone.

(** A method called [n] times in a row: what the calls returned. *)
Fixpoint times {S A : Type} (n : nat) (m : M S A) : M S (list A) :=
  match n with
  | O => ret []
  | S n' =>
      let! x := m in
      let! xs := times n' m in
      ret (x :: xs)
  end.

(** The attributes of a query after [run] has kept an answer. *)
Definition ran (hits total facet_counts suggestions : value) (q : Query.t)
  : Query.t :=
  Query.set__suggestions suggestions
    (Query.set__facet_counts facet_counts
       (Query.set__hit_count total
          (Query.set__results hits
             (Query.set_params
                (Dict.set "size" (VInt (Query.size q))
                   (Dict.set "from_" (VInt (Query.offset q)) (Query.params q)))
                q)))).

(** The call that [run] makes for a query that renders as [body]. *)
Definition search_call (q : Query.t) (body : value) : call :=
  BSearch (Query.index q) (Query.doc_type q) body
    (Dict.set "size" (VInt (Query.size q))
       (Dict.set "from_" (VInt (Query.offset q)) (Query.params q))).

(** The methods of a queryset that chain, with their arguments. *)
Inductive chain : Type :=
| Search (content search_fields : value)
| Filter (kwargs : dict)
| FilterAnd (kwargs : dict)
| FilterOr (kwargs : dict)
| Only (fields : list value)
| Sort (args : list value)
| RawQuery (query : value)
| RawParams (params : value)
| FunctionScore (query : value)
| Facet (field : string) (kwargs : dict)
| FacetFilter (field : string) (filter_query : dict)
| Suggest (suggest_text suggest_field suggest_mode suggest_size : value)
| Mlt (docid fields : value) (kwargs : dict).

(** The call of a chaining method on a queryset. *)
Definition chain_call (DEFAULT_FILTER : string) (op : chain) : M SQS.state SQS.t :=
  match op with
  | Search content search_fields => SQS.search content search_fields
  | Filter kwargs => SQS.filter DEFAULT_FILTER kwargs
  | FilterAnd kwargs => SQS.filter_and kwargs
  | FilterOr kwargs => SQS.filter_or kwargs
  | Only fields => SQS.only fields
  | Sort args => SQS.sort args
  | RawQuery query => SQS.raw_query query
  | RawParams params => SQS.raw_params params
  | FunctionScore query => SQS.function_score query
  | Facet field kwargs => SQS.facet field kwargs
  | FacetFilter field filter_query => SQS.facet_filter field filter_query
  | Suggest suggest_text suggest_field suggest_mode suggest_size =>
      SQS.suggest suggest_text suggest_field suggest_mode suggest_size
  | Mlt docid fields kwargs => SQS.mlt docid fields kwargs
  end.

(** The method of [Query] behind each of them. *)
Definition chain_query (DEFAULT_FILTER : string) (op : chain) (q : Query.t)
  : result unit * Query.t :=
  match op with
  | Search content search_fields =>
      (Ok tt, Query.add_search_query content search_fields q)
  | Filter kwargs =>
      if String.eqb DEFAULT_FILTER "AND" then Query.add_filter_and kwargs q
      else Query.add_filter_or kwargs q
  | FilterAnd kwargs => Query.add_filter_and kwargs q
  | FilterOr kwargs => Query.add_filter_or kwargs q
  | Only fields => (Ok tt, Query.add_fields (VTuple fields) q)
  | Sort args => Query.add_sort args q
  | RawQuery query => (Ok tt, Query.add_raw_query query q)
  | RawParams params => (Ok tt, Query.add_raw_params params q)
  | FunctionScore query => (Ok tt, Query.add_function_score query q)
  | Facet field kwargs => Query.add_term_facet field kwargs q
  | FacetFilter field filter_query =>
      Query.add_term_facet_filter field filter_query q
  | Suggest suggest_text suggest_field suggest_mode suggest_size =>
      (Ok tt, Query.add_suggestion suggest_text suggest_field suggest_mode
                suggest_size q)
  | Mlt docid fields kwargs => (Ok tt, Query.mlt docid fields kwargs q)
  end.

(** The queryset that [_clone] makes: the same query, nothing cached. *)
Definition clone_of (s : SQS.t) : SQS.t :=
  SQS.mk (SQS.index_name s) (SQS.doc_type s) (SQS.process_results s)
    (SQS.query s) [] VNone.

(** What [show_query] returns for the queryset [s] in the store [w]. *)
Definition rendered (s : SQS.t) (w : Query.world) : result value :=
  fst (SQS.show_query {| SQS.self := s; SQS.store := w |}).

(** The call that [run_mlt] makes, the attributes it leaves, and the two
    together for the call and the attributes of [get_results]. *)
Definition mlt_call (q : Query.t) (body : value) : call :=
  BMlt (Query.index q) (Query.doc_type q) (Query.mlt_doc q)
    (Query.mlt_fields q) body
    (Dict.set "search_size" (VInt (Query.size q))
       (Dict.set "search_from" (VInt (Query.offset q)) (Query.mlt_options q))).

Definition ran_mlt (hits total facet_counts suggestions : value) (q : Query.t)
  : Query.t :=
  Query.set__suggestions suggestions
    (Query.set__facet_counts facet_counts
       (Query.set__hit_count total
          (Query.set__results hits
             (Query.set_mlt_options
                (Dict.set "search_size" (VInt (Query.size q))
                   (Dict.set "search_from" (VInt (Query.offset q))
                      (Query.mlt_options q)))
                q)))).

Definition fetch_call (q : Query.t) (body : value) : call :=
  if Query.mlt_query q then mlt_call q body else search_call q body.

Definition fetched (hits total facet_counts : value) (q : Query.t) : Query.t :=
  if Query.mlt_query q then ran_mlt hits total facet_counts VNone q
  else ran hits total facet_counts VNone q.

(** The query as [_fill_cache(start, end)] sets it before it fetches. *)
Definition limited (start end_ : Z) (q : Query.t) : Query.t :=
  Query.set_size (end_ - start) (Query.set_offset start (Query._reset q)).

(** The window of results that a call asks for: offset and size. *)
Definition window (c : call) : option (Z * Z) :=
  match c with
  | BSearch _ _ _ params =>
      match Dict.lookup "from_" params, Dict.lookup "size" params with
      | Some (VInt o), Some (VInt s) => Some (o, s)
      | _, _ => None
      end
  | BMlt _ _ _ _ _ options =>
      match Dict.lookup "search_from" options,
            Dict.lookup "search_size" options with
      | Some (VInt o), Some (VInt s) => Some (o, s)
      | _, _ => None
      end
  | _ => None
  end.

(** A backend that holds the hits [hits], in rank order, and answers each
    window with its page and the total. *)
Definition page (hits : list value) (o s : Z) : list value :=
  take (Z.to_nat s) (drop (Z.to_nat o) hits).

Definition answer_page (hits : list value) (o s : Z) : value :=
  VDict [("hits", VDict [("hits", VList (page hits o s));
                         ("total", VInt (Z.of_nat (List.length hits)))])].

Definition paged (hits : list value) (b : backend) : Prop :=
  forall (log : list call) (c : call) (o s : Z),
    window c = Some (o, s) -> (0 <= o)%Z -> (0 < s)%Z ->
    b log c = Ok (answer_page hits o s).

(** The cache when a fetch has told the total: a cache that is still empty
    is made of [n] placeholders. *)
Definition allocated (n : nat) (cache : list value) : list value :=
  if (List.length cache =? 0)%nat then repeat VNone n else cache.

(** A cache over the records [recs]: each slot is a placeholder or holds
    the record of its rank. *)
Definition filled_from (recs cache : list value) : Prop :=
  Forall2 (fun x r => x = VNone \/ x = r) cache recs.

(** The first placeholder of a cache, or its length. *)
Definition first_none (cache : list value) : nat :=
  match index_of_none cache with
  | Some i => i
  | None => List.length cache
  end.

(** A queryset in a store, before a backend that holds [hits]: its query
    renders as [body], the hits are turned into the records [recs], and what
    the queryset and the query remember of earlier fetches agrees with the
    backend. *)
Definition consistent (hits recs : list value) (body : value)
  (st : SQS.state) : Prop :=
  SQS.post_process_list (SQS.self st) hits = Ok recs /\
  (exists q : Query.t,
      Query.queries (SQS.store st) !! SQS.query (SQS.self st) = Some q /\
      Query.build_query q = Ok body /\
      (Query._hit_count q = VNone \/
       Query._hit_count q = VInt (Z.of_nat (List.length hits)))) /\
  (SQS._result_cache (SQS.self st) = [] \/
   filled_from recs (SQS._result_cache (SQS.self st))) /\
  (SQS._result_count (SQS.self st) = VNone \/
   SQS._result_count (SQS.self st) = VInt (Z.of_nat (List.length hits))).

(** Such a queryset after a full traversal: the query has run and the cache
    holds every record. *)
Definition complete (hits recs : list value) (body : value)
  (st : SQS.state) : Prop :=
  consistent hits recs body st /\
  (exists q : Query.t,
      Query.queries (SQS.store st) !! SQS.query (SQS.self st) = Some q /\
      Query.has_run q = true) /\
  SQS._result_cache (SQS.self st) = recs.

(** The backend that holds [hits] and nothing else. *)
Definition paging (hits : list value) : backend :=
  fun _ c =>
    match window c with
    | Some (o, s) => Ok (answer_page hits o s)
    | None => Raise (BackendError "not a search")
    end.

(** Hits to try the queryset on, and a new queryset on a new query. *)
Definition example_hit (n : nat) : value :=
  VDict [("_type", VStr "item"); ("_id", VInt (Z.of_nat n));
         ("_score", VInt 1);
         ("_source", VDict [("rank", VInt (Z.of_nat n))])].

Definition example_hits (n : nat) : list value := map example_hit (seq 0 n).

Definition example_state : SQS.state :=
  {| SQS.self := SQS.mk (VStr "content") (VStr "item") false 0%nat [] VNone;
     SQS.store := {| Query.queries := [Query.init (VStr "content") (VStr "item")];
                     Query.calls := [] |} |}.

(** What one field of [sort] stands for: a leading [-] asks for the
    descending order of the rest of the name. *)
Inductive sort_renders : string -> value -> Prop :=
| sort_renders_desc field :
    sort_renders (String "-"%char field) (VDict [(field, VStr "desc")])
| sort_renders_asc field :
    (forall rest, field <> String "-"%char rest) ->
    sort_renders field (VStr field).

(** A method keeps a property of the state, whether it returns or raises. *)
Definition preserves {S A : Type} (P : S -> Prop) (m : M S A) : Prop :=
  forall s : S, P s -> P (snd (m s)).

(** The query at [l] renders as [r]. *)
Definition renders_as (l : Query.loc) (r : result value) (w : Query.world)
  : Prop :=
  exists q : Query.t,
    Query.queries w !! l = Some q /\ Query.build_query q = r.

(** The queryset references [l], and the query there renders as [r]. *)
Definition shows (l : Query.loc) (r : result value) (st : SQS.state) : Prop :=
  SQS.query (SQS.self st) = l /\ renders_as l r (SQS.store st).

(** What one criterion of a facet filter stands for: the operator [in] or
    a list asks for a terms filter, anything else for a term filter; the
    other operators are read and not used, and [ids] is a field like
    another. *)
Inductive facet_renders : string -> value -> value -> Prop :=
| facet_renders_field field val :
    plain_field field = true ->
    facet_renders field val
      (if is_list val then terms_filter field val else term_filter field val)
| facet_renders_in field val :
    plain_field field = true ->
    facet_renders (field ++ "__in")%string val (terms_filter field val)
| facet_renders_operator field op val :
    plain_field field = true -> plain_field op = true -> op <> "in" ->
    facet_renders (field ++ "__" ++ op)%string val
      (if is_list val then terms_filter field val else term_filter field val).

(** A terms facet on [field] with the options [terms], and with the filters
    [filters] when there are some. *)
Definition terms_facet (terms : dict) (filters : list value) : value :=
  match filters with
  | [] => VDict [("terms", VDict terms)]
  | _ => VDict [("terms", VDict terms);
                ("facet_filter", VDict [("and", VList filters)])]
  end.

(** A bucket of a terms facet, as the backend returns it, and the pair made
    of it. *)
Definition bucket_tuple (bucket tuple : value) : Prop :=
  exists (d : dict) (term count : value),
    bucket = VDict d /\
    Dict.lookup "term" d = Some term /\
    Dict.lookup "count" d = Some count /\
    tuple = VTuple [term; count].

(** The answer for one facet, and the list of pairs made of it. *)
Definition facet_tuples (details : value) (tuples : list value) : Prop :=
  exists (d : dict) (buckets : list value),
    details = VDict d /\
    Dict.lookup "terms" d = Some (VList buckets) /\
    Forall2 bucket_tuple buckets tuples.

(** One term of a suggestion, as the backend returns it, with its text and
    what is suggested for it: the text of the first option, or [None] when
    there is no option. *)
Definition suggests (term : value) (text : string) (suggestion : value)
  : Prop :=
  exists (d : dict) (options : value),
    term = VDict d /\
    Dict.lookup "text" d = Some (VStr text) /\
    Dict.lookup "options" d = Some options /\
    ((truthy options = false /\ suggestion = VNone) \/
     (exists o rest, options = VList (o :: rest) /\
                     py_getitem o "text" = Ok suggestion)).

(** The window [start, bound) that a subscript stands for, as
    [__getitem__] works it out. *)
Definition key_bounds (SIZE_PER_QUERY : Z) (k : key) : option (Z * Z) :=
  match k with
  | KInt i => Some (i, (i + 1)%Z)
  | KSlice start stop =>
      let s := match start with Some s => s | None => 0%Z end in
      Some (s, match stop with Some b => b | None => (s + SIZE_PER_QUERY)%Z end)
  | KOther _ => None
  end.

(** The cache [cache'] has kept every record of the cache [cache]. *)
Definition keeps_records (cache cache' : list value) : Prop :=
  forall (i : nat) (x : value),
    cache !! i = Some x -> is_none x = false -> cache' !! i = Some x.

(** A queryset that agrees with the backend and has lost no record of
    [cache]. *)
Definition grown (hits recs : list value) (body : value)
  (cache : list value) (st : SQS.state) : Prop :=
  consistent hits recs body st /\
  keeps_records cache (SQS._result_cache (SQS.self st)).

(** The part of a hit that its record is made of: [fields] when the hit has
    some, [_source] otherwise, [None] when it has neither. *)
Definition payload (hit : dict) : value :=
  let fields := match Dict.lookup "fields" hit with
                | Some f => f
                | None => VNone
                end in
  if truthy fields then fields
  else match Dict.lookup "_source" hit with
       | Some s => s
       | None => VNone
       end.

(** [SQS.autocomplete] of [models.py], with its [size] given. *)
Definition autocomplete (b : backend) (querystring autocomplete_field size : value)
  : M SQS.state value :=
  let body := VDict [("suggest",
                      VDict [("text", querystring);
                             ("completion",
                              VDict [("field", autocomplete_field);
                                     ("fuzzy", VBool true);
                                     ("size", size)])])] in
  SQS.on_store (Query.backend_call b (BSuggest body)).

(** The call that [autocomplete] makes. *)
Definition suggest_call (querystring autocomplete_field size : value) : call :=
  BSuggest
    (VDict [("suggest",
             VDict [("text", querystring);
                    ("completion",
                     VDict [("field", autocomplete_field);
                            ("fuzzy", VBool true);
                            ("size", size)])])]).

(** ** The command [update_index] of [management/commands/update_index.py] *)

(** [getattr(v, name)] on an object. *)
Definition py_getattr (v : value) (name : string) : result value :=
  match v with
  | VObj _ d => match Dict.lookup name d with
                | Some x => Ok x
                | None => Raise AttributeError
                end
  | _ => Raise AttributeError
  end.

(** [range(start, stop, step)] as the list of its elements. *)
Definition py_range3 (start stop step : Z) : result (list Z) :=
  if (step =? 0)%Z then Raise ValueError
  else
    let n := if (0 <? step)%Z
             then ((stop - start + step - 1) / step)%Z
             else ((start - stop - step - 1) / (- step))%Z in
    Ok (map (fun i : nat => (start + Z.of_nat i * step)%Z)
          (seq 0 (Z.to_nat n))).

Module update_index.

(** What the command reads of an index class. *)
Record index_class : Type := {
  index_name : value;
  active_field : string
}.

Section Command.

Variable b : backend.

(** [item.get_search_dict()], the method of the model of the items. *)
Variable get_search_dict : value -> result value.

(** A method of the queryset [sqs], made in [do_update] and used there
    only. *)
Definition on_sqs {A : Type} (sqs : SQS.t) (m : M SQS.state A)
  : M Query.world A :=
  fun w => let '(r, st) := m {| SQS.self := sqs; SQS.store := w |} in
           (r, SQS.store st).

(** The loop [for item in current_qs] of [do_update]. *)
Fixpoint update_items (index : index_class) (remove : bool) (sqs : SQS.t)
  (items : list value) : M Query.world unit :=
  match items with
  | [] => ret tt
  | item :: rest =>
      let! active := lift (py_getattr item (active_field index)) in
      let! _ := (if truthy active
                 then
                   let! pk := lift (py_getattr item "pk") in
                   let! doc := lift (get_search_dict item) in
                   let! _ := on_sqs sqs (SQS.index b pk doc) in
                   ret tt
                 else if remove
                 then
                   let! pk := lift (py_getattr item "pk") in
                   let! _ := on_sqs sqs (SQS.remove b pk) in
                   ret tt
                 else ret tt) in
      update_items index remove sqs rest
  end.

(** [do_update], on a queryset of the database given as the list of its
    items; [start] and [end] are not negative.  What it prints is left
    out. *)
Definition do_update (index : index_class) (doctype : value)
  (qs : list value) (start end_ : Z) (remove : bool) : M Query.world unit :=
  let current_qs := py_slice qs start end_ in
  let! sqs := SQS.init (index_name index) doctype None true in
  update_items index remove sqs current_qs.

(** The loop [for start in range(0, total, batch_size)] of
    [update_backend], without workers. *)
Fixpoint update_batches (index : index_class) (doctype : value)
  (qs : list value) (total batch_size : Z) (remove : bool)
  (starts : list Z) : M Query.world unit :=
  match starts with
  | [] => ret tt
  | start :: rest =>
      let end_ := Z.min (start + batch_size) total in
      let! _ := do_update index doctype qs start end_ remove in
      update_batches index doctype qs total batch_size remove rest
  end.

(** The body of the loop [for doctype in doc_types] of [update_backend],
    without workers, for the queryset [qs] of the doc type. *)
Definition update_doctype (index : index_class) (doctype : value)
  (qs : list value) (batch_size : Z) (remove : bool) : M Query.world unit :=
  let total := Z.of_nat (List.length qs) in
  let! starts := lift (py_range3 0 total batch_size) in
  update_batches index doctype qs total batch_size remove starts.

End Command.

End update_index.

(** What [do_update] sends for one item: the document of an item that is
    active, the removal of one that is not when [remove] is set. *)
Definition item_calls (get_search_dict : value -> result value)
  (index : update_index.index_class) (doctype : value) (remove : bool)
  (item : value) : list call :=
  match py_getattr item (update_index.active_field index),
        py_getattr item "pk" with
  | Ok active, Ok pk =>
      if truthy active
      then match get_search_dict item with
           | Ok doc => [BIndex (update_index.index_name index) doctype doc pk]
           | Raise _ => []
           end
      else if remove
           then [BDelete (update_index.index_name index) doctype pk]
           else []
  | _, _ => []
  end.

(** An item that [do_update] can read: it has the field that tells whether
    it is active and a key, and a document can be made of it. *)
Definition readable (get_search_dict : value -> result value)
  (index : update_index.index_class) (item : value) : Prop :=
  (exists active, py_getattr item (update_index.active_field index) = Ok active) /\
  (exists pk, py_getattr item "pk" = Ok pk) /\
  (exists doc, get_search_dict item = Ok doc).

(** A backend that stores every document it is sent. *)
Definition indexes (b : backend) : Prop :=
  forall (log : list call) (index doc_type body id : value),
    exists r : value, b log (BIndex index doc_type body id) = Ok r.

(** The filters that a query holds under [combinator]: none before the
    first call, then those of the list. *)
Definition filters_under (combinator : string) (terms : value)
  (old : list value) : Prop :=
  (terms = VNone /\ old = []) \/ terms = VDict [(combinator, VList old)].

(** The facets that a query holds: none before the first one, then those of
    the dictionary. *)
Definition facets_of (facets : value) (others : dict) : Prop :=
  (facets = VNone /\ others = []) \/ facets = VDict others.

(** The facets of a query, among which [field] has none: it is not a key, or
    its value is empty. *)
Definition without_facet (field : string) (facets : value) (others : dict)
  : Prop :=
  facets_of facets others /\
  match Dict.lookup field others with
  | Some v => truthy v = false
  | None => True
  end.

(** What each chaining method does to the query that the receiver and the
    clone share: the query before the call, and after it. *)
Inductive mutates (DEFAULT_FILTER : string) : chain -> Query.t -> Query.t -> Prop :=
| mutates_search content search_fields q :
    mutates DEFAULT_FILTER (Search content search_fields) q
      (Query.set_search_terms
         (if is_none search_fields
          then VDict [("match", VDict [("_all", content)])]
          else VDict [("multi_match",
                       VDict [("query", content); ("fields", search_fields);
                              ("lenient", VBool true)])])
         q)
| mutates_filter_default_and kwargs filters old q :
    DEFAULT_FILTER = "AND" ->
    filters_under "must" (Query.filter_and_terms q) old ->
    Forall2 (fun kv f => renders (fst kv) (snd kv) f) kwargs filters ->
    mutates DEFAULT_FILTER (Filter kwargs) q
      (Query.set_filter_and_terms (VDict [("must", VList (old ++ filters))]) q)
| mutates_filter_default_or kwargs filters old q :
    DEFAULT_FILTER <> "AND" ->
    filters_under "should" (Query.filter_or_terms q) old ->
    Forall2 (fun kv f => renders (fst kv) (snd kv) f) kwargs filters ->
    mutates DEFAULT_FILTER (Filter kwargs) q
      (Query.set_filter_or_terms (VDict [("should", VList (old ++ filters))]) q)
| mutates_filter_and kwargs filters old q :
    filters_under "must" (Query.filter_and_terms q) old ->
    Forall2 (fun kv f => renders (fst kv) (snd kv) f) kwargs filters ->
    mutates DEFAULT_FILTER (FilterAnd kwargs) q
      (Query.set_filter_and_terms (VDict [("must", VList (old ++ filters))]) q)
| mutates_filter_or kwargs filters old q :
    filters_under "should" (Query.filter_or_terms q) old ->
    Forall2 (fun kv f => renders (fst kv) (snd kv) f) kwargs filters ->
    mutates DEFAULT_FILTER (FilterOr kwargs) q
      (Query.set_filter_or_terms (VDict [("should", VList (old ++ filters))]) q)
| mutates_only fields q :
    mutates DEFAULT_FILTER (Only fields) q
      (Query.set_params (Dict.set "fields" (VTuple fields) (Query.params q)) q)
| mutates_sort fields rendered_ q :
    Forall2 sort_renders fields rendered_ ->
    mutates DEFAULT_FILTER (Sort (map VStr fields)) q
      (Query.set_sort (VList rendered_) q)
| mutates_raw_query query q :
    mutates DEFAULT_FILTER (RawQuery query) q (Query.set_raw_query query q)
| mutates_raw_params params q :
    mutates DEFAULT_FILTER (RawParams params) q (Query.set_raw_params params q)
| mutates_function_score query q :
    mutates DEFAULT_FILTER (FunctionScore query) q
      (Query.set_function_score query q)
| mutates_facet field kwargs others q :
    facets_of (Query.facets q) others ->
    mutates DEFAULT_FILTER (Facet field kwargs) q
      (Query.set_facets
         (VDict (Dict.set field
                   (terms_facet (Dict.update [("field", VStr field)] kwargs) [])
                   others))
         q)
| mutates_facet_filter_new field filter_query filters others q :
    without_facet field (Query.facets q) others ->
    Forall2 (fun kv f => facet_renders (fst kv) (snd kv) f)
      filter_query filters ->
    mutates DEFAULT_FILTER (FacetFilter field filter_query) q
      (Query.set_facets
         (VDict (Dict.set field
                   (terms_facet [("field", VStr field)] filters) others))
         q)
| mutates_facet_filter_more field filter_query filters terms old others q :
    Query.facets q = VDict others ->
    Dict.lookup field others = Some (terms_facet terms old) ->
    Forall2 (fun kv f => facet_renders (fst kv) (snd kv) f)
      filter_query filters ->
    mutates DEFAULT_FILTER (FacetFilter field filter_query) q
      (Query.set_facets
         (VDict (Dict.set field (terms_facet terms (old ++ filters)) others))
         q)
| mutates_suggest suggest_text suggest_field suggest_mode suggest_size q :
    mutates DEFAULT_FILTER
      (Suggest suggest_text suggest_field suggest_mode suggest_size) q
      (Query.set_params
         (Dict.set "suggest_size" suggest_size
            (Dict.set "suggest_mode" suggest_mode
               (Dict.set "suggest_field" suggest_field
                  (Dict.set "suggest_text" suggest_text (Query.params q)))))
         q)
| mutates_mlt docid fields kwargs q :
    mutates DEFAULT_FILTER (Mlt docid fields kwargs) q
      (Query.set_mlt_options kwargs
         (Query.set_mlt_fields fields
            (Query.set_mlt_doc docid (Query.set_mlt_query true q)))).

(** * Properties *)

(** ** Splitting a key *)

Lemma split_dunder_step (c c' : ascii) (rest : string) :
  split_dunder (String c (String c' rest)) =
  if Ascii.eqb c underscore && Ascii.eqb c' underscore
  then EmptyString :: split_dunder rest
  else match split_dunder (String c' rest) with
       | [] => [String c EmptyString]
       | w :: ws => String c w :: ws
       end.
Proof. reflexivity. Qed.

Lemma split_dunder_plain (field rest : string) :
  plain_field field = true ->
  split_dunder (field ++ "__" ++ rest)%string = field :: split_dunder rest.
Proof.
  induction field as [|c f IH]; intros Hp.
  - reflexivity.
  - cbn [plain_field] in Hp.
    destruct (Ascii.eqb c underscore) eqn:Hc.
    + destruct f as [|c' f']; [discriminate|].
      apply andb_prop in Hp as [Hc' Hp].
      apply negb_true_iff in Hc'.
      specialize (IH Hp).
      change (String c (String c' f') ++ "__" ++ rest)%string
        with (String c (String c' (f' ++ "__" ++ rest)%string)).
      rewrite split_dunder_step, Hc, Hc'. cbn [andb].
      change (String c' (f' ++ "__" ++ rest)%string)
        with (String c' f' ++ "__" ++ rest)%string.
      rewrite IH. reflexivity.
    + specialize (IH Hp).
      destruct f as [|c' f'].
      * change (String c "" ++ "__" ++ rest)%string
          with (String c (String underscore (String underscore rest))).
        rewrite split_dunder_step, Hc. cbn [andb].
        rewrite split_dunder_step. reflexivity.
      * change (String c (String c' f') ++ "__" ++ rest)%string
          with (String c (String c' (f' ++ "__" ++ rest)%string)).
        rewrite split_dunder_step, Hc. cbn [andb].
        change (String c' (f' ++ "__" ++ rest)%string)
          with (String c' f' ++ "__" ++ rest)%string.
        rewrite IH. reflexivity.
Qed.

Lemma split_dunder_field (field : string) :
  plain_field field = true -> split_dunder field = [field].
Proof.
  induction field as [|c f IH]; intros Hp; [reflexivity|].
  cbn [plain_field] in Hp.
  destruct (Ascii.eqb c underscore) eqn:Hc.
  - destruct f as [|c' f']; [discriminate|].
    apply andb_prop in Hp as [Hc' Hp]. apply negb_true_iff in Hc'.
    rewrite split_dunder_step, Hc, Hc'. cbn [andb].
    rewrite (IH Hp). reflexivity.
  - destruct f as [|c' f']; [reflexivity|].
    rewrite split_dunder_step, Hc. cbn [andb].
    rewrite (IH Hp). reflexivity.
Qed.

Lemma range_operator_cases (op : string) :
  Query.is_range_operator op = true ->
  op = "gt" \/ op = "gte" \/ op = "lt" \/ op = "lte".
Proof.
  unfold Query.is_range_operator. intros H.
  repeat (apply orb_prop in H as [H|H]);
    apply String.eqb_eq in H; auto.
Qed.

Lemma split_key_operator (field op : string) :
  plain_field field = true -> plain_field op = true ->
  Query.split_key (field ++ "__" ++ op)%string = Ok (field, Some op).
Proof.
  intros Hf Ho. unfold Query.split_key.
  rewrite (split_dunder_plain _ _ Hf), (split_dunder_field _ Ho).
  reflexivity.
Qed.

Lemma split_key_field (field : string) :
  plain_field field = true -> Query.split_key field = Ok (field, None).
Proof.
  intros Hf. unfold Query.split_key.
  rewrite (split_dunder_field _ Hf). reflexivity.
Qed.

Lemma split_dunder_not_nil (s : string) : split_dunder s <> [].
Proof.
  enough (H : split_dunder s <> [] /\
              forall c, split_dunder (String c s) <> []) by apply H.
  induction s as [|c' r [IH1 IH2]].
  - split; [discriminate|intros c; discriminate].
  - split; [apply IH2|]. intros c. rewrite split_dunder_step.
    destruct (Ascii.eqb c underscore && Ascii.eqb c' underscore);
      [discriminate|].
    destruct (split_dunder (String c' r)); discriminate.
Qed.

Lemma operator_key_not_ids (field op : string) :
  plain_field field = true ->
  String.eqb (field ++ "__" ++ op)%string "ids" = false.
Proof.
  intros Hf. apply String.eqb_neq. intros E.
  pose proof (split_dunder_plain field op Hf) as Hs.
  pose proof (split_dunder_not_nil op) as Hn.
  rewrite E in Hs. cbn in Hs.
  destruct (split_dunder op); [congruence|discriminate].
Qed.

Lemma filter_query_renders (key : string) (val f : value) :
  renders key val f -> Query.filter_query key val = Ok f.
Proof.
  intros H. destruct H as [val|field op val Hf Hop|field val Hf
                          |field val Hf Hn Hl|field val Hf Hn Hl];
    unfold Query.filter_query.
  - reflexivity.
  - rewrite (operator_key_not_ids _ _ Hf).
    assert (Ho : plain_field op = true)
      by (destruct (range_operator_cases _ Hop) as [->|[->|[->| ->]]];
          reflexivity).
    rewrite (split_key_operator _ _ Hf Ho). cbn [rbind].
    rewrite Hop. reflexivity.
  - change (field ++ "__in")%string with (field ++ "__" ++ "in")%string.
    rewrite (operator_key_not_ids _ _ Hf).
    rewrite (split_key_operator field "in" Hf eq_refl). reflexivity.
  - apply String.eqb_neq in Hn. rewrite Hn.
    rewrite (split_key_field _ Hf). cbn [rbind].
    unfold Query.filter_type. rewrite Hl. reflexivity.
  - apply String.eqb_neq in Hn. rewrite Hn.
    rewrite (split_key_field _ Hf). cbn [rbind].
    unfold Query.filter_type. rewrite Hl. reflexivity.
Qed.

(** ** Rendering *)

Lemma is_none_false (v : value) : v <> VNone -> is_none v = false.
Proof. destruct v; intros H; [congruence|reflexivity..]. Qed.

Lemma is_none_true (v : value) : is_none v = true -> v = VNone.
Proof. destruct v; intros H; [reflexivity|discriminate..]. Qed.

(** C4. When a raw query is set, [build_query] returns it and nothing else:
    two builders with the same raw query render the same, whatever their
    search terms, filters, facets, sort, function score and raw params. *)
Theorem build_query_raw_query (q : Query.t) :
  Query.raw_query q <> VNone ->
  Query.build_query q = Ok (Query.raw_query q) /\
  forall q' : Query.t,
    Query.raw_query q' = Query.raw_query q ->
    Query.build_query q' = Query.build_query q.
Proof.
  intros Hraw.
  assert (H : forall p, Query.raw_query p = Query.raw_query q ->
                        Query.build_query p = Ok (Query.raw_query q)).
  { intros p Hp. unfold Query.build_query.
    rewrite Hp, (is_none_false _ Hraw). reflexivity. }
  split; [apply H; reflexivity|].
  intros q' Hq'. rewrite (H q' Hq'), (H q eq_refl). reflexivity.
Qed.

Lemma build_query_raw_query_witness :
  let q := Query.add_raw_query (VDict [("match_all", VDict [])])
             (Query.add_function_score (VDict [("boost", VInt 2)])
                (Query.add_search_query (VStr "shoes") VNone
                   (Query.init (VStr "content") (VStr "item")))) in
  Query.raw_query q <> VNone /\
  Query.build_query q = Ok (VDict [("match_all", VDict [])]).
Proof.
  intros q.
  assert (H : Query.raw_query q <> VNone) by discriminate.
  split; [exact H|].
  exact (proj1 (build_query_raw_query q H)).
Defined.

(** C6. With a function score and no raw query, [build_query] does not
    return: the dictionary it has just built has the one key
    [function_score], and it is subscripted with [query]. *)
Theorem build_query_function_score (q : Query.t) :
  Query.raw_query q = VNone ->
  Query.function_score q <> VNone ->
  Query.build_query q = Raise (KeyError (VStr "query")).
Proof.
  intros Hraw Hfs. unfold Query.build_query.
  rewrite Hraw, (is_none_false _ Hfs). reflexivity.
Qed.

Lemma build_query_function_score_witness :
  let q := Query.add_function_score (VDict [("boost", VInt 2)])
             (Query.init (VStr "content") (VStr "item")) in
  Query.raw_query q = VNone /\
  Query.function_score q <> VNone /\
  Query.build_query q = Raise (KeyError (VStr "query")).
Proof.
  intros q.
  assert (H1 : Query.raw_query q = VNone) by reflexivity.
  assert (H2 : Query.function_score q <> VNone) by discriminate.
  split; [exact H1|]. split; [exact H2|].
  exact (build_query_function_score q H1 H2).
Defined.

(** ** Filters *)

Lemma add_filter_items_renders (combinator : string) (kwargs : dict)
  (filters l0 : list value) :
  Forall2 (fun kv f => renders (fst kv) (snd kv) f) kwargs filters ->
  Query.add_filter_items combinator kwargs (VDict [(combinator, VList l0)]) =
  (Ok tt, VDict [(combinator, VList (l0 ++ filters))]).
Proof.
  intros H. revert l0.
  induction H as [|[key val] f kwargs filters Hr _ IH]; intros l0.
  - cbn. rewrite app_nil_r. reflexivity.
  - cbn [Query.add_filter_items].
    cbn [fst snd] in Hr. rewrite (filter_query_renders _ _ _ Hr).
    cbn. rewrite String.eqb_refl. cbn.
    rewrite IH, <- app_assoc. reflexivity.
Qed.

(** C5, as the code has it.  Under AND, each criterion whose key is [ids], a
    plain field name, or a plain field name with an operator, is rendered as
    [renders] says: a range filter for [__gt], [__gte], [__lt] and [__lte],
    a terms filter for [__in] and for a list held by a key without operator,
    a term filter for another value held by a key without operator, and the
    ids filter for the key [ids].  The filters are put under [must] in the
    order of the criteria, and a new query renders them under
    [filter.bool.must]. *)
Theorem add_filter_and_renders (kwargs : dict) (filters : list value) :
  Forall2 (fun kv f => renders (fst kv) (snd kv) f) kwargs filters ->
  (forall q : Query.t,
      Query.filter_and_terms q = VNone ->
      Query.add_filter_and kwargs q =
      (Ok tt, Query.set_filter_and_terms (VDict [("must", VList filters)]) q))
  /\
  (forall index doc_type : value,
      Query.build_query (snd (Query.add_filter_and kwargs
                                (Query.init index doc_type))) =
      Ok (VDict [("query", VDict [("match_all", VDict [])]);
                 ("filter", VDict [("bool", VDict [("must", VList filters)])])])).
Proof.
  intros H.
  assert (Hq : forall q : Query.t,
             Query.filter_and_terms q = VNone ->
             Query.add_filter_and kwargs q =
             (Ok tt, Query.set_filter_and_terms
                       (VDict [("must", VList filters)]) q)).
  { intros q Hnone. unfold Query.add_filter_and.
    rewrite Hnone. cbn [is_none Query.set_filter_and_terms Query.filter_and_terms].
    rewrite (add_filter_items_renders "must" kwargs filters [] H).
    reflexivity. }
  split; [exact Hq|].
  intros index doc_type.
  rewrite (Hq (Query.init index doc_type) eq_refl). reflexivity.
Qed.

Lemma add_filter_and_renders_witness :
  let kwargs := [("price__gte", VInt 10);
                 ("category__in", VList [VStr "a"; VStr "b"]);
                 ("category", VStr "a")] in
  let filters := [range_filter "price" "gte" (VInt 10);
                  terms_filter "category" (VList [VStr "a"; VStr "b"]);
                  term_filter "category" (VStr "a")] in
  Forall2 (fun kv f => renders (fst kv) (snd kv) f) kwargs filters /\
  Query.build_query (snd (Query.add_filter_and kwargs
                            (Query.init (VStr "content") (VStr "item")))) =
  Ok (VDict [("query", VDict [("match_all", VDict [])]);
             ("filter", VDict [("bool", VDict [("must", VList filters)])])]).
Proof.
  intros kwargs filters.
  assert (H : Forall2 (fun kv f => renders (fst kv) (snd kv) f) kwargs filters).
  { constructor; [|constructor; [|constructor; [|constructor]]].
    - exact (renders_range "price" "gte" (VInt 10) eq_refl eq_refl).
    - exact (renders_in "category" (VList [VStr "a"; VStr "b"]) eq_refl).
    - apply (renders_term "category" (VStr "a") eq_refl);
        [discriminate|reflexivity]. }
  split; [exact H|].
  exact (proj2 (add_filter_and_renders kwargs filters H)
           (VStr "content") (VStr "item")).
Defined.

(** C5, as it is worded, fails on the key [ids]: it has no operator and its
    value is not a list, and the filter is not a term filter. *)
Lemma filter_query_ids_is_not_term :
  plain_field "ids" = true /\
  is_list (VStr "7") = false /\
  Query.filter_query "ids" (VStr "7") = Ok (ids_filter (VStr "7")) /\
  Query.filter_query "ids" (VStr "7") <> Ok (term_filter "ids" (VStr "7")).
Proof.
  repeat split; discriminate.
Qed.

(** ** Subscripts *)

(** C8. A refused subscript makes [__getitem__] raise at once, [Exception]
    for an object that is neither an integer nor a slice and
    [AssertionError] for a negative integer or bound.  The state it leaves
    is the state it found: the cache, the query and the list of backend
    calls are untouched. *)
Theorem getitem_refused (b : backend) (SIZE_PER_QUERY : Z) (k : key)
  (st : SQS.state) :
  refused k = true ->
  exists e : exn,
    SQS.__getitem__ b SIZE_PER_QUERY k st = (Raise e, st) /\
    (e = PlainException \/
     e = AssertionError "Negative indexing is not supported.").
Proof.
  intros H. destruct k as [i|start stop|v]; cbn [refused] in H.
  - exists (AssertionError "Negative indexing is not supported.").
    split; [|right; reflexivity].
    apply Z.ltb_lt in H.
    unfold SQS.__getitem__, bind, ret, raise.
    destruct (0 <=? i)%Z eqn:E; [apply Z.leb_le in E; lia|reflexivity].
  - exists (AssertionError "Negative indexing is not supported.").
    split; [|right; reflexivity].
    unfold SQS.__getitem__, bind, ret, raise.
    destruct start as [s|], stop as [s'|]; cbn [orb] in H |- *.
    + destruct (0 <=? s)%Z eqn:E, (0 <=? s')%Z eqn:E'; try reflexivity.
      apply Z.leb_le in E, E'. apply orb_prop in H as [H|H];
        apply Z.ltb_lt in H; lia.
    + rewrite orb_false_r in H. apply Z.ltb_lt in H.
      destruct (0 <=? s)%Z eqn:E; [apply Z.leb_le in E; lia|reflexivity].
    + apply Z.ltb_lt in H.
      destruct (0 <=? s')%Z eqn:E; [apply Z.leb_le in E; lia|reflexivity].
    + discriminate.
  - exists PlainException. split; [reflexivity|left; reflexivity].
Qed.

Lemma getitem_refused_witness :
  let st := {| SQS.self := SQS.mk (VStr "content") (VStr "item") true 0%nat [] VNone;
               SQS.store := {| Query.queries := [Query.init (VStr "content") (VStr "item")];
                               Query.calls := [] |} |} in
  refused (KSlice (Some 2%Z) (Some (-1)%Z)) = true /\
  exists e : exn,
    SQS.__getitem__ (fun _ _ => Raise (BackendError "unreachable")) 20
      (KSlice (Some 2%Z) (Some (-1)%Z)) st = (Raise e, st) /\
    (e = PlainException \/
     e = AssertionError "Negative indexing is not supported.").
Proof.
  intros st. split; [reflexivity|].
  exact (getitem_refused _ 20 (KSlice (Some 2%Z) (Some (-1)%Z)) st eq_refl).
Defined.

(** ** Reads that do not fail *)

Lemma SearchResult_of_none (index_name doc_type pk score : value) :
  SearchResult index_name doc_type pk score VNone = Raise AttributeError.
Proof. reflexivity. Qed.

Lemma try_except_total {S A : Type} (m : M S A) (v : A) (s : S) :
  exists a s', try_except m (fun _ => ret v) s = (Ok a, s').
Proof.
  unfold try_except, ret. destruct (m s) as [[a|e] s']; eauto.
Qed.

(** C9. [remove] never raises, and returns [None] when the backend raises.
    [get] never raises either; it returns [None] when the backend raises,
    whatever the exception (the document is not found, the backend is not
    reachable), and also when the answer carries no document. *)
Theorem remove_get_soft_fail (b : backend) (st : SQS.state)
  (doc_id fields : value) :
  let s := SQS.self st in
  let log := Query.calls (SQS.store st) in
  (exists v st', SQS.remove b doc_id st = (Ok v, st')) /\
  (forall e, b log (delete_call s doc_id) = Raise e ->
             fst (SQS.remove b doc_id st) = Ok VNone) /\
  (exists v st', SQS.get b doc_id fields st = (Ok v, st')) /\
  (forall e, b log (get_call s doc_id fields) = Raise e ->
             fst (SQS.get b doc_id fields st) = Ok VNone) /\
  (forall r, b log (get_call s doc_id fields) = Ok r ->
             py_get r (payload_key fields) = Ok VNone ->
             fst (SQS.get b doc_id fields st) = Ok VNone).
Proof.
  intros s log. subst s log.
  assert (Hrem : forall r,
            b (Query.calls (SQS.store st))
              (delete_call (SQS.self st) doc_id) = r ->
            exists st', SQS.remove b doc_id st =
                        (Ok match r with Ok v => v | Raise _ => VNone end, st')).
  { intros r Hr. unfold SQS.remove, try_except, bind, gets, SQS.on_store,
      Query.backend_call, ret.
    fold (delete_call (SQS.self st) doc_id). rewrite Hr.
    destruct r; eexists; reflexivity. }
  assert (Hget : exists v st', SQS.get b doc_id fields st = (Ok v, st')).
  { unfold SQS.get, bind, gets. apply try_except_total. }
  split; [|split; [|split; [exact Hget|split]]].
  - destruct (Hrem _ eq_refl) as [st' H]. eauto.
  - intros e He. destruct (Hrem _ He) as [st' H]. rewrite H. reflexivity.
  - intros e. unfold get_call, SQS.get, try_except, bind, gets, SQS.on_store,
      Query.backend_call, ret, lift.
    destruct (truthy fields); intros He; rewrite He; reflexivity.
  - intros r. unfold get_call, payload_key, SQS.get, try_except, bind, gets,
      SQS.on_store, Query.backend_call, ret, lift.
    destruct (truthy fields); intros Hr Hp; rewrite Hr;
      destruct (SQS.process_results (SQS.self st)); cbn [fst];
      rewrite ?Hp; try reflexivity;
      destruct (py_getitem r "_id"); reflexivity.
Qed.

(** ** The store *)

Lemma lookup_put (l : Query.loc) (q q' : Query.t) (w : Query.world) :
  Query.queries w !! l = Some q ->
  Query.queries (Query.put l q' w) !! l = Some q'.
Proof.
  intros H. unfold Query.put. cbn.
  apply list_lookup_insert_eq. eapply lookup_lt_Some, H.
Qed.

Lemma put_put (l : Query.loc) (q q' : Query.t) (w : Query.world) :
  Query.put l q' (Query.put l q w) = Query.put l q' w.
Proof.
  unfold Query.put. cbn. rewrite list_insert_insert_eq. reflexivity.
Qed.

Lemma put_same (l : Query.loc) (q : Query.t) (w : Query.world) :
  Query.queries w !! l = Some q -> Query.put l q w = w.
Proof.
  intros H. unfold Query.put. rewrite list_insert_id by exact H.
  destruct w; reflexivity.
Qed.

Lemma load_ok (l : Query.loc) (q : Query.t) (w : Query.world) :
  Query.queries w !! l = Some q -> Query.load l w = (Ok q, w).
Proof. intros H. unfold Query.load. rewrite H. reflexivity. Qed.

Lemma method_ok (f : Query.t -> Query.t) (l : Query.loc) (q : Query.t)
  (w : Query.world) :
  Query.queries w !! l = Some q ->
  Query.method f l w = (Ok tt, Query.put l (f q) w).
Proof.
  intros H. unfold Query.method, bind. rewrite (load_ok _ _ _ H).
  reflexivity.
Qed.

Lemma method_r_ok {A : Type} (f : Query.t -> result A * Query.t)
  (l : Query.loc) (q : Query.t) (w : Query.world) :
  Query.queries w !! l = Some q ->
  Query.method_r f l w = (fst (f q), Query.put l (snd (f q)) w).
Proof.
  intros H. unfold Query.method_r, bind. rewrite (load_ok _ _ _ H).
  destruct (f q) as [r q']. reflexivity.
Qed.

Lemma bind_ok {S A B : Type} (m : M S A) (f : A -> M S B) (s s' : S) (a : A) :
  m s = (Ok a, s') -> bind m f s = f a s'.
Proof. intros H. unfold bind. rewrite H. reflexivity. Qed.

Lemma bind_raise {S A B : Type} (m : M S A) (f : A -> M S B) (s s' : S)
  (e : exn) :
  m s = (Raise e, s') -> bind m f s = (Raise e, s').
Proof. intros H. unfold bind. rewrite H. reflexivity. Qed.

Lemma bind_ret {S A B : Type} (a : A) (f : A -> M S B) (s : S) :
  bind (ret a) f s = f a s.
Proof. reflexivity. Qed.

Lemma bind_lift_Ok {S A B : Type} (a : A) (f : A -> M S B) (s : S) :
  bind (lift (Ok a)) f s = f a s.
Proof. reflexivity. Qed.

Lemma bind_lift_Raise {S A B : Type} (e : exn) (f : A -> M S B) (s : S) :
  bind (lift (Raise e)) f s = (Raise e, s).
Proof. reflexivity. Qed.

Lemma bind_gets {S A B : Type} (g : S -> A) (f : A -> M S B) (s : S) :
  bind (gets g) f s = f (g s) s.
Proof. reflexivity. Qed.

Lemma keep_results_ok (l : Query.loc) (q : Query.t) (w : Query.world)
  (r hits total fc : value) :
  Query.queries w !! l = Some q ->
  answer r hits total fc ->
  Query.keep_results l r w =
  match (let* s := py_get_default r "suggest" VNone in
         Query.process_suggestions q s) with
  | Ok sg =>
      (Ok tt,
       Query.put l
         (Query.set__suggestions sg
            (Query.set__facet_counts fc
               (Query.set__hit_count total (Query.set__results hits q)))) w)
  | Raise e =>
      (Raise e,
       Query.put l
         (Query.set__facet_counts fc
            (Query.set__hit_count total (Query.set__results hits q))) w)
  end.
Proof.
  intros Hq (h & Hh & Hhits & Htotal & Hfc).
  unfold Query.keep_results.
  rewrite Hh. cbn [rbind]. rewrite Hhits, Htotal, Hfc.
  rewrite bind_lift_Ok.
  rewrite (bind_ok _ _ _ _ _ (method_ok _ _ _ _ Hq)).
  pose proof (lookup_put l q (Query.set__results hits q) w Hq) as Hq1.
  rewrite bind_lift_Ok.
  rewrite (bind_ok _ _ _ _ _ (method_ok _ _ _ _ Hq1)), put_put.
  pose proof (lookup_put l q
                (Query.set__hit_count total (Query.set__results hits q))
                w Hq) as Hq2.
  rewrite bind_lift_Ok.
  rewrite (bind_ok _ _ _ _ _ (method_ok _ _ _ _ Hq2)), put_put.
  pose proof (lookup_put l q
                (Query.set__facet_counts fc
                   (Query.set__hit_count total (Query.set__results hits q)))
                w Hq) as Hq3.
  rewrite (bind_ok _ _ _ _ _ (load_ok _ _ _ Hq3)).
  change (Query.process_suggestions
            (Query.set__facet_counts fc
               (Query.set__hit_count total (Query.set__results hits q))))
    with (Query.process_suggestions q).
  destruct (let* s := py_get_default r "suggest" VNone in
            Query.process_suggestions q s) as [sg|e] eqn:E.
  - rewrite bind_lift_Ok, (method_ok _ _ _ _ Hq3), put_put. reflexivity.
  - reflexivity.
Qed.

Lemma put_logged (l : Query.loc) (q : Query.t) (c : call) (w : Query.world) :
  Query.put l q (Query.logged c w) = Query.logged c (Query.put l q w).
Proof. reflexivity. Qed.

Lemma run_ok (b : backend) (l : Query.loc) (q : Query.t) (w : Query.world)
  (body r hits total fc : value) :
  Query.queries w !! l = Some q ->
  Query.build_query q = Ok body ->
  b (Query.calls w) (search_call q body) = Ok r ->
  answer r hits total fc ->
  py_get_default r "suggest" VNone = Ok VNone ->
  Query.run b l w =
  (Ok tt, Query.put l (ran hits total fc VNone q)
            (Query.logged (search_call q body) w)).
Proof.
  intros Hq Hbody Hb Hr Hs. unfold Query.run.
  rewrite (bind_ok _ _ _ _ _ (load_ok _ _ _ Hq)), Hbody, bind_lift_Ok.
  rewrite (bind_ok _ _ _ _ _ (method_ok _ _ _ _ Hq)).
  match goal with
  | |- context [Query.put l ?x w] =>
      pose proof (lookup_put l q x w Hq) as Hq1
  end.
  rewrite (bind_ok _ _ _ _ _ (method_ok _ _ _ _ Hq1)), put_put.
  match goal with
  | |- context [Query.put l ?x w] =>
      pose proof (lookup_put l q x w Hq) as Hq2
  end.
  rewrite (bind_ok _ _ _ _ _ (load_ok _ _ _ Hq2)).
  unfold bind at 1, Query.backend_call.
  cbn [Query.calls Query.put Query.index Query.doc_type Query.params
       Query.set_params Query.offset Query.size].
  fold (search_call q body). rewrite Hb.
  match goal with
  | |- Query.keep_results l r ?w' = _ =>
      assert (Hq3 : Query.queries w' !! l = Some
                (Query.set_params
                   (Dict.set "size" (VInt (Query.size q))
                      (Dict.set "from_" (VInt (Query.offset q))
                         (Query.params q))) q))
        by exact Hq2
  end.
  rewrite (keep_results_ok _ _ _ _ _ _ _ Hq3 Hr), Hs.
  cbn [rbind Query.process_suggestions is_none].
  rewrite put_logged, put_put. reflexivity.
Qed.

(** ** Suggestions *)

Lemma get_suggestions_ok (b : backend) (l : Query.loc) (q : Query.t)
  (w : Query.world) (body r hits total fc : value) :
  Query.queries w !! l = Some q ->
  Query._suggestions q = VNone ->
  Query.build_query q = Ok body ->
  b (Query.calls w) (search_call q body) = Ok r ->
  answer r hits total fc ->
  py_get_default r "suggest" VNone = Ok VNone ->
  Query.get_suggestions b l w =
  (Ok VNone, Query.put l (ran hits total fc VNone q)
               (Query.logged (search_call q body) w)).
Proof.
  intros Hq Hnone Hbody Hb Hr Hs. unfold Query.get_suggestions.
  rewrite (bind_ok _ _ _ _ _ (load_ok _ _ _ Hq)), Hnone. cbn [is_none].
  rewrite (bind_ok _ _ _ _ _ (run_ok _ _ _ _ _ _ _ _ _ Hq Hbody Hb Hr Hs)).
  assert (Hq' : Query.queries
                  (Query.put l (ran hits total fc VNone q)
                     (Query.logged (search_call q body) w)) !! l =
                Some (ran hits total fc VNone q))
    by (apply (lookup_put l q); exact Hq).
  rewrite (bind_ok _ _ _ _ _ (load_ok _ _ _ Hq')). reflexivity.
Qed.

Lemma on_store_eq {A : Type} (m : M Query.world A) (st : SQS.state)
  (r : result A) (w : Query.world) :
  m (SQS.store st) = (r, w) ->
  SQS.on_store m st = (r, {| SQS.self := SQS.self st; SQS.store := w |}).
Proof. intros H. unfold SQS.on_store. rewrite H. reflexivity. Qed.

(** C10. When the answers of the backend carry no [suggest] section,
    [get_suggestions] returns [None] and leaves [_suggestions] at [None]; so
    each of [n] calls in a row runs the query again: [n] searches reach the
    backend, all with the rendered query as their body. *)
Theorem get_suggestions_runs_again (b : backend) (body : value) (n : nat) :
  (forall log c, exists r, b log c = Ok r /\ answer_without_suggest r) ->
  forall (st : SQS.state) (q : Query.t),
    Query.queries (SQS.store st) !! SQS.query (SQS.self st) = Some q ->
    Query._suggestions q = VNone ->
    Query.build_query q = Ok body ->
    exists (st' : SQS.state) (q' : Query.t) (cs : list call),
      times n (SQS.get_suggestions b) st = (Ok (repeat VNone n), st') /\
      SQS.self st' = SQS.self st /\
      Query.queries (SQS.store st') !! SQS.query (SQS.self st) = Some q' /\
      Query._suggestions q' = VNone /\
      Query.calls (SQS.store st') = Query.calls (SQS.store st) ++ cs /\
      List.length cs = n /\
      Forall (fun c => exists index doc_type params,
                  c = BSearch index doc_type body params) cs.
Proof.
  intros Hb. induction n as [|n IH]; intros st q Hq Hnone Hbody.
  - exists st, q, []. cbn. rewrite app_nil_r. auto 10.
  - destruct (Hb (Query.calls (SQS.store st)) (search_call q body))
      as (r & Hr & (hits & total & fc & Ha) & Hs).
    pose proof (get_suggestions_ok b _ q _ body r hits total fc
                  Hq Hnone Hbody Hr Ha Hs) as Hg.
    set (w1 := Query.put (SQS.query (SQS.self st)) (ran hits total fc VNone q)
                 (Query.logged (search_call q body) (SQS.store st))) in *.
    set (st1 := {| SQS.self := SQS.self st; SQS.store := w1 |}).
    assert (Hq1 : Query.queries (SQS.store st1) !! SQS.query (SQS.self st1) =
                  Some (ran hits total fc VNone q))
      by (apply (lookup_put _ q); exact Hq).
    destruct (IH st1 _ Hq1 eq_refl Hbody)
      as (st' & q' & cs & Ht & Hself & Hq' & Hn' & Hcs & Hlen & Hall).
    exists st', q', (search_call q body :: cs).
    split; [|split; [exact Hself|split; [exact Hq'|split; [exact Hn'|split; [|split]]]]].
    + cbn [times].
      assert (H1 : SQS.get_suggestions b st = (Ok VNone, st1)).
      { unfold SQS.get_suggestions. rewrite bind_gets.
        apply on_store_eq. exact Hg. }
      rewrite (bind_ok _ _ _ _ _ H1), (bind_ok _ _ _ _ _ Ht). reflexivity.
    + rewrite Hcs. cbn. rewrite <- app_assoc. reflexivity.
    + cbn. rewrite Hlen. reflexivity.
    + constructor; [|exact Hall]. unfold search_call. eauto.
Qed.

Lemma get_suggestions_runs_again_witness :
  let b : backend :=
    fun _ _ => Ok (VDict [("hits", VDict [("hits", VList []);
                                          ("total", VInt 0)])]) in
  let q := Query.init (VStr "content") (VStr "item") in
  let st := {| SQS.self := SQS.mk (VStr "content") (VStr "item") true 0%nat [] VNone;
               SQS.store := {| Query.queries := [q]; Query.calls := [] |} |} in
  (forall log c, exists r, b log c = Ok r /\ answer_without_suggest r) /\
  exists (st' : SQS.state) (q' : Query.t) (cs : list call),
    times 2 (SQS.get_suggestions b) st = (Ok [VNone; VNone], st') /\
    SQS.self st' = SQS.self st /\
    Query.queries (SQS.store st') !! 0%nat = Some q' /\
    Query._suggestions q' = VNone /\
    Query.calls (SQS.store st') = cs /\
    List.length cs = 2%nat /\
    Forall (fun c => exists index doc_type params,
                c = BSearch index doc_type
                      (VDict [("query", VDict [("match_all", VDict [])])])
                      params) cs.
Proof.
  intros b q st.
  assert (Hb : forall log c, exists r, b log c = Ok r /\ answer_without_suggest r).
  { intros log c. eexists. split; [reflexivity|].
    split; [|reflexivity].
    exists (VList []), (VInt 0), (VDict []), (VDict [("hits", VList []); ("total", VInt 0)]).
    repeat split; reflexivity. }
  split; [exact Hb|].
  exact (get_suggestions_runs_again b
           (VDict [("query", VDict [("match_all", VDict [])])]) 2 Hb st q
           eq_refl eq_refl eq_refl).
Defined.

(** ** Reset *)

Lemma list_index_lookup (l : list value) (i : nat) (x : value) :
  l !! i = Some x -> list_index l (Z.of_nat i) = Ok x.
Proof.
  intros H. unfold list_index.
  destruct (Z.of_nat i <? 0)%Z eqn:E; [apply Z.ltb_lt in E; lia|].
  rewrite E, Nat2Z.id, H. reflexivity.
Qed.

Lemma slice_bound_nat (len i : nat) :
  slice_bound len (Z.of_nat i) = Nat.min i len.
Proof.
  unfold slice_bound.
  destruct (Z.of_nat i <? 0)%Z eqn:E; [apply Z.ltb_lt in E; lia|].
  rewrite Nat2Z.id. reflexivity.
Qed.

Lemma py_slice_nat (l : list value) (i j : nat) :
  py_slice l (Z.of_nat i) (Z.of_nat j) = take (j - i) (drop i l).
Proof.
  unfold py_slice. rewrite !slice_bound_nat.
  destruct (Nat.le_gt_cases (List.length l) i) as [Hi|Hi].
  - rewrite !drop_ge by lia. rewrite !take_nil. reflexivity.
  - rewrite (Nat.min_l i) by lia.
    destruct (Nat.le_gt_cases j (List.length l)) as [Hj|Hj].
    + rewrite (Nat.min_l j) by lia. reflexivity.
    + rewrite (Nat.min_r j) by lia.
      rewrite !take_ge; [reflexivity|rewrite length_drop; lia..].
Qed.

Lemma py_slice_one (l : list value) (i : nat) (x : value) :
  l !! i = Some x -> py_slice l (Z.of_nat i) (Z.of_nat i + 1) = [x].
Proof.
  intros H. replace (Z.of_nat i + 1)%Z with (Z.of_nat (S i)) by lia.
  rewrite py_slice_nat. replace (S i - i)%nat with 1%nat by lia.
  rewrite (drop_S _ _ _ H). reflexivity.
Qed.

(** C3, on the side of the code.  [reset] clears the results that the query
    keeps ([_results], [_hit_count], [_facet_counts], [_suggestions]) and
    leaves what renders the query as it is.  It does not touch the queryset:
    [_result_cache] and [_result_count] stay, and a subscript that is
    already in the cache is answered from it, without a call on the
    backend. *)
Theorem reset_keeps_result_cache (b : backend) (SIZE_PER_QUERY : Z)
  (st : SQS.state) (q : Query.t) :
  Query.queries (SQS.store st) !! SQS.query (SQS.self st) = Some q ->
  let st' := {| SQS.self := SQS.self st;
                SQS.store := Query.put (SQS.query (SQS.self st))
                               (Query._reset q) (SQS.store st) |} in
  SQS.reset st = (Ok tt, st') /\
  (Query._results (Query._reset q) = VNone /\
   Query._hit_count (Query._reset q) = VNone /\
   Query._facet_counts (Query._reset q) = VNone /\
   Query._suggestions (Query._reset q) = VNone) /\
  Query.build_query (Query._reset q) = Query.build_query q /\
  forall (i : nat) (x : value),
    SQS._result_cache (SQS.self st) !! i = Some x ->
    is_none x = false ->
    SQS.__getitem__ b SIZE_PER_QUERY (KInt (Z.of_nat i)) st' = (Ok x, st').
Proof.
  intros Hq st'.
  split; [|split; [repeat split|split; [reflexivity|]]].
  - unfold SQS.reset. rewrite bind_gets.
    apply on_store_eq, method_ok, Hq.
  - intros i x Hi Hx. unfold SQS.__getitem__.
    rewrite bind_ret.
    destruct (0 <=? Z.of_nat i)%Z eqn:E; [|apply Z.leb_gt in E; lia].
    rewrite bind_ret, bind_gets. cbn [SQS.self st'].
    destruct (List.length (SQS._result_cache (SQS.self st)) <=? 0)%nat eqn:El.
    { apply Nat.leb_le in El. apply lookup_lt_Some in Hi. lia. }
    rewrite (py_slice_one _ _ _ Hi). cbn [existsb]. rewrite Hx. cbn [orb].
    rewrite bind_ret, bind_ret, bind_gets. cbn [SQS.self].
    unfold lift. subst st'. cbn [SQS.self].
    rewrite (list_index_lookup _ _ _ Hi). reflexivity.
Qed.

Lemma reset_keeps_result_cache_witness :
  let r0 := VDict [("title", VStr "boots"); ("doc_type", VStr "item")] in
  let q := Query.set__hit_count (VInt 1)
             (Query.set__results (VList [])
                (Query.init (VStr "content") (VStr "item"))) in
  let st := {| SQS.self := SQS.mk (VStr "content") (VStr "item") false 0%nat
                             [r0] (VInt 1);
               SQS.store := {| Query.queries := [q]; Query.calls := [] |} |} in
  let b : backend := fun _ _ => Raise (BackendError "unreachable") in
  exists st',
    SQS.reset st = (Ok tt, st') /\
    SQS._result_cache (SQS.self st') = [r0] /\
    SQS.__getitem__ b 20 (KInt 0) st' = (Ok r0, st') /\
    Query.calls (SQS.store st') = [].
Proof.
  intros r0 q st b.
  destruct (reset_keeps_result_cache b 20 st q eq_refl)
    as (Hreset & _ & _ & Hget).
  eexists. split; [exact Hreset|]. split; [reflexivity|].
  split; [exact (Hget 0%nat r0 eq_refl eq_refl)|reflexivity].
Defined.

(** ** Chaining *)

Lemma chain_method (f : Query.t -> Query.t) (s : SQS.t) (w : Query.world)
  (q : Query.t) :
  Query.queries w !! SQS.query s = Some q ->
  bind SQS._clone
    (fun clone =>
       bind (SQS.on_store (Query.method f (SQS.query clone)))
         (fun _ => ret clone))
    {| SQS.self := s; SQS.store := w |} =
  (Ok (clone_of s),
   {| SQS.self := s; SQS.store := Query.put (SQS.query s) (f q) w |}).
Proof.
  intros Hq.
  assert (Hc : SQS._clone {| SQS.self := s; SQS.store := w |} =
               (Ok (clone_of s), {| SQS.self := s; SQS.store := w |}))
    by reflexivity.
  rewrite (bind_ok _ _ _ _ _ Hc).
  rewrite (bind_ok _ _ _ _ _
             (on_store_eq _ {| SQS.self := s; SQS.store := w |} _ _
                (method_ok f (SQS.query s) q w Hq))).
  reflexivity.
Qed.

Lemma chain_method_r (f : Query.t -> result unit * Query.t) (s : SQS.t)
  (w : Query.world) (q : Query.t) :
  Query.queries w !! SQS.query s = Some q ->
  bind SQS._clone
    (fun clone =>
       bind (SQS.on_store (Query.method_r f (SQS.query clone)))
         (fun _ => ret clone))
    {| SQS.self := s; SQS.store := w |} =
  (match fst (f q) with Ok _ => Ok (clone_of s) | Raise e => Raise e end,
   {| SQS.self := s; SQS.store := Query.put (SQS.query s) (snd (f q)) w |}).
Proof.
  intros Hq.
  assert (Hc : SQS._clone {| SQS.self := s; SQS.store := w |} =
               (Ok (clone_of s), {| SQS.self := s; SQS.store := w |}))
    by reflexivity.
  rewrite (bind_ok _ _ _ _ _ Hc).
  pose proof (on_store_eq _ {| SQS.self := s; SQS.store := w |} _ _
                (method_r_ok f (SQS.query s) q w Hq)) as Hm.
  cbn [SQS.self SQS.query clone_of] in Hm |- *.
  unfold bind at 1. rewrite Hm.
  destruct (fst (f q)); reflexivity.
Qed.

Lemma chain_call_eq (DEFAULT_FILTER : string) (op : chain) (s : SQS.t)
  (w : Query.world) (q : Query.t) :
  Query.queries w !! SQS.query s = Some q ->
  chain_call DEFAULT_FILTER op {| SQS.self := s; SQS.store := w |} =
  (match fst (chain_query DEFAULT_FILTER op q) with
   | Ok _ => Ok (clone_of s)
   | Raise e => Raise e
   end,
   {| SQS.self := s;
      SQS.store := Query.put (SQS.query s)
                     (snd (chain_query DEFAULT_FILTER op q)) w |}).
Proof.
  intros Hq.
  destruct op; cbn [chain_call chain_query fst snd];
    try (apply (chain_method _ s w q Hq));
    try (apply (chain_method_r _ s w q Hq)).
  unfold SQS.filter.
  pose proof (chain_method_r (Query.add_filter_and kwargs) s w q Hq) as Ha.
  pose proof (chain_method_r (Query.add_filter_or kwargs) s w q Hq) as Ho.
  unfold bind in Ha, Ho |- *.
  destruct (String.eqb DEFAULT_FILTER "AND"); [exact Ha|exact Ho].
Qed.

Lemma rendered_eq (s : SQS.t) (w : Query.world) (q : Query.t) :
  Query.queries w !! SQS.query s = Some q ->
  rendered s w = Query.build_query q.
Proof.
  intros Hq. unfold rendered, SQS.show_query.
  rewrite bind_gets. cbn [SQS.self].
  rewrite (bind_ok _ _ _ _ _
             (on_store_eq _ {| SQS.self := s; SQS.store := w |} _ _
                (load_ok _ _ _ Hq))).
  reflexivity.
Qed.

(** ** Fetching a window *)

Lemma dict_lookup_set_eq (k : string) (v : value) (d : dict) :
  Dict.lookup k (Dict.set k v d) = Some v.
Proof.
  induction d as [|[k' v'] d IH]; cbn.
  - rewrite String.eqb_refl. reflexivity.
  - destruct (String.eqb k k') eqn:E; cbn.
    + rewrite String.eqb_refl. reflexivity.
    + rewrite E. exact IH.
Qed.

Lemma dict_lookup_set_ne (k k' : string) (v : value) (d : dict) :
  k <> k' -> Dict.lookup k (Dict.set k' v d) = Dict.lookup k d.
Proof.
  intros Hne. induction d as [|[k0 v0] d IH]; cbn.
  - apply String.eqb_neq in Hne. rewrite Hne. reflexivity.
  - destruct (String.eqb k' k0) eqn:E; cbn.
    + apply String.eqb_eq in E. subst k0.
      apply String.eqb_neq in Hne. rewrite Hne. reflexivity.
    + destruct (String.eqb k k0); [reflexivity|exact IH].
Qed.

Lemma window_fetch_call (q : Query.t) (body : value) :
  window (fetch_call q body) = Some (Query.offset q, Query.size q).
Proof.
  unfold fetch_call, mlt_call, search_call, window.
  destruct (Query.mlt_query q);
    rewrite dict_lookup_set_eq, dict_lookup_set_ne, dict_lookup_set_eq;
    try discriminate; reflexivity.
Qed.

Lemma run_mlt_ok (b : backend) (l : Query.loc) (q : Query.t) (w : Query.world)
  (body r hits total fc : value) :
  Query.queries w !! l = Some q ->
  Query.build_query q = Ok body ->
  b (Query.calls w) (mlt_call q body) = Ok r ->
  answer r hits total fc ->
  py_get_default r "suggest" VNone = Ok VNone ->
  Query.run_mlt b l w =
  (Ok tt, Query.put l (ran_mlt hits total fc VNone q)
            (Query.logged (mlt_call q body) w)).
Proof.
  intros Hq Hbody Hb Hr Hs. unfold Query.run_mlt.
  rewrite (bind_ok _ _ _ _ _ (method_ok _ _ _ _ Hq)).
  match goal with
  | |- context [Query.put l ?x w] =>
      pose proof (lookup_put l q x w Hq) as Hq1
  end.
  rewrite (bind_ok _ _ _ _ _ (method_ok _ _ _ _ Hq1)), put_put.
  match goal with
  | |- context [Query.put l ?x w] =>
      pose proof (lookup_put l q x w Hq) as Hq2
  end.
  rewrite (bind_ok _ _ _ _ _ (load_ok _ _ _ Hq2)).
  match goal with
  | |- context [lift (Query.build_query ?x)] =>
      change (Query.build_query x) with (Query.build_query q)
  end.
  rewrite Hbody, bind_lift_Ok.
  unfold bind at 1, Query.backend_call.
  cbn [Query.calls Query.put Query.index Query.doc_type Query.mlt_options
       Query.set_mlt_options Query.offset Query.size Query.mlt_doc
       Query.mlt_fields].
  fold (mlt_call q body). rewrite Hb.
  match goal with
  | |- Query.keep_results l r ?w' = _ =>
      assert (Hq3 : Query.queries w' !! l = Some
                (Query.set_mlt_options
                   (Dict.set "search_size" (VInt (Query.size q))
                      (Dict.set "search_from" (VInt (Query.offset q))
                         (Query.mlt_options q))) q))
        by exact Hq2
  end.
  rewrite (keep_results_ok _ _ _ _ _ _ _ Hq3 Hr), Hs.
  cbn [rbind Query.process_suggestions is_none].
  rewrite put_logged, put_put. reflexivity.
Qed.

Lemma get_results_ok (b : backend) (l : Query.loc) (q : Query.t)
  (w : Query.world) (body r hits total fc : value) :
  Query.queries w !! l = Some q ->
  Query._results q = VNone ->
  Query.build_query q = Ok body ->
  b (Query.calls w) (fetch_call q body) = Ok r ->
  answer r hits total fc ->
  py_get_default r "suggest" VNone = Ok VNone ->
  Query.get_results b l w =
  (Ok hits, Query.put l (fetched hits total fc q)
              (Query.logged (fetch_call q body) w)).
Proof.
  intros Hq Hnone Hbody Hb Hr Hs. unfold Query.get_results.
  rewrite (bind_ok _ _ _ _ _ (load_ok _ _ _ Hq)), Hnone. cbn [is_none].
  unfold fetch_call, fetched in *.
  destruct (Query.mlt_query q).
  - rewrite (bind_ok _ _ _ _ _ (run_mlt_ok _ _ _ _ _ _ _ _ _ Hq Hbody Hb Hr Hs)).
    assert (Hq' : Query.queries
                    (Query.put l (ran_mlt hits total fc VNone q)
                       (Query.logged (mlt_call q body) w)) !! l =
                  Some (ran_mlt hits total fc VNone q))
      by (apply (lookup_put l q); exact Hq).
    rewrite (bind_ok _ _ _ _ _ (load_ok _ _ _ Hq')). reflexivity.
  - rewrite (bind_ok _ _ _ _ _ (run_ok _ _ _ _ _ _ _ _ _ Hq Hbody Hb Hr Hs)).
    assert (Hq' : Query.queries
                    (Query.put l (ran hits total fc VNone q)
                       (Query.logged (search_call q body) w)) !! l =
                  Some (ran hits total fc VNone q))
      by (apply (lookup_put l q); exact Hq).
    rewrite (bind_ok _ _ _ _ _ (load_ok _ _ _ Hq')). reflexivity.
Qed.

(** ** Filling the cache *)

Lemma bind_bind {S A B C : Type} (m : M S A) (f : A -> M S B)
  (g : B -> M S C) (s : S) :
  bind (bind m f) g s = bind m (fun a => bind (f a) g) s.
Proof. unfold bind. destruct (m s) as [[a|e] s']; reflexivity. Qed.

Lemma post_process_result_not_none (s : SQS.t) (h r : value) :
  SQS.post_process_result s h = Ok r -> is_none r = false.
Proof.
  unfold SQS.post_process_result, SearchResult, py_copy, py_setitem.
  destruct (py_get h "fields") as [f|]; cbn [rbind]; [|discriminate].
  destruct (truthy f), (SQS.process_results s);
    repeat match goal with
      | |- rbind ?x _ = Ok _ -> _ => destruct x; cbn [rbind]; [|discriminate]
      | |- match ?x with _ => _ end = Ok _ -> _ => destruct x; try discriminate
      end;
    intros E; inversion E; reflexivity.
Qed.

Lemma post_process_list_Forall2 (s : SQS.t) (hits recs : list value) :
  SQS.post_process_list s hits = Ok recs <->
  Forall2 (fun h r => SQS.post_process_result s h = Ok r) hits recs.
Proof.
  revert recs. induction hits as [|h hits IH]; intros recs; cbn.
  - split; [intros E; inversion E; constructor|].
    intros H; inversion H; reflexivity.
  - split.
    + destruct (SQS.post_process_result s h) as [x|] eqn:Ex; [|discriminate].
      cbn [rbind].
      destruct (SQS.post_process_list s hits) as [xs|] eqn:Exs; [|discriminate].
      cbn [rbind]. intros E; inversion E; subst.
      constructor; [exact Ex|]. apply IH. reflexivity.
    + intros H. inversion H as [|? r ? recs' Hr Hrest]; subst.
      rewrite Hr. cbn [rbind].
      apply IH in Hrest. rewrite Hrest. reflexivity.
Qed.

Lemma post_process_list_page (s : SQS.t) (hits recs : list value) (o n : Z) :
  SQS.post_process_list s hits = Ok recs ->
  SQS.post_process_list s (page hits o n) = Ok (page recs o n).
Proof.
  rewrite !post_process_list_Forall2. intros H.
  unfold page. apply Forall2_take, Forall2_drop, H.
Qed.

Lemma post_process_list_cache (x : list value) (s : SQS.t) (l : list value) :
  SQS.post_process_list (SQS.set__result_cache x s) l =
  SQS.post_process_list s l.
Proof.
  induction l as [|h l IH]; [reflexivity|].
  cbn [SQS.post_process_list]. rewrite IH. reflexivity.
Qed.

Lemma post_process_list_length (s : SQS.t) (hits recs : list value) :
  SQS.post_process_list s hits = Ok recs ->
  List.length recs = List.length hits.
Proof.
  rewrite post_process_list_Forall2. intros H.
  symmetry. eapply Forall2_length, H.
Qed.

Lemma placeholders (n : nat) :
  map (fun _ : Z => VNone) (map Z.of_nat (seq 0 n)) = repeat VNone n.
Proof.
  rewrite map_map.
  generalize 0%nat. induction n as [|n IH]; intros k; [reflexivity|].
  cbn. rewrite IH. reflexivity.
Qed.

Lemma answer_page_answer (hits : list value) (o s : Z) :
  answer (answer_page hits o s) (VList (page hits o s))
    (VInt (Z.of_nat (List.length hits))) (VDict []).
Proof.
  exists (VDict [("hits", VList (page hits o s));
                 ("total", VInt (Z.of_nat (List.length hits)))]).
  repeat split; reflexivity.
Qed.

Lemma fill_cache_ok (b : backend) (hits recs : list value) (st : SQS.state)
  (q : Query.t) (body : value) (pos : nat) (size : Z) :
  paged hits b ->
  Query.queries (SQS.store st) !! SQS.query (SQS.self st) = Some q ->
  Query.build_query q = Ok body ->
  SQS.post_process_list (SQS.self st) hits = Ok recs ->
  (0 < size)%Z ->
  let n := List.length hits in
  let start := Z.of_nat pos in
  let q0 := limited start (start + size) q in
  let q' := fetched (VList (page hits start size)) (VInt (Z.of_nat n))
              (VDict []) q0 in
  let w' := Query.put (SQS.query (SQS.self st)) q'
              (Query.logged (fetch_call q0 body) (SQS.store st)) in
  let to_cache := page recs start size in
  SQS._fill_cache b start (start + size) st =
  if (List.length to_cache =? 0)%nat
  then (Ok false, {| SQS.self := SQS.self st; SQS.store := w' |})
  else (Ok true,
        {| SQS.self :=
             SQS.set__result_cache
               (py_slice_assign
                  (allocated n (SQS._result_cache (SQS.self st))) start
                  (start + Z.of_nat (List.length to_cache)) to_cache)
               (SQS.self st);
           SQS.store := w' |}).
Proof.
  intros Hb Hq Hbody Hrecs Hsize n start q0 q' w' to_cache.
  destruct st as [s w]. cbn [SQS.self SQS.store] in *.
  unfold SQS._fill_cache.
  rewrite bind_gets. cbn [SQS.self].
  rewrite (bind_ok _ _ _ _ _
             (on_store_eq _ {| SQS.self := s; SQS.store := w |} _ _
                (method_ok Query._reset _ _ _ Hq))).
  cbn [SQS.self].
  assert (Hq1 : Query.queries (Query.put (SQS.query s) (Query._reset q) w)
                !! SQS.query s = Some (Query._reset q))
    by (apply (lookup_put _ q); exact Hq).
  rewrite (bind_ok _ _ _ _ _
             (on_store_eq _ {| SQS.self := s;
                               SQS.store := Query.put (SQS.query s)
                                              (Query._reset q) w |} _ _
                (method_r_ok (Query.set_limits (Some start) (Some (start + size)%Z))
                   _ _ _ Hq1))).
  cbn [SQS.self fst snd Query.set_limits]. rewrite put_put.
  fold (limited start (start + size) q). fold q0.
  assert (Hq2 : Query.queries (Query.put (SQS.query s) q0 w)
                !! SQS.query s = Some q0)
    by (apply (lookup_put _ q); exact Hq).
  assert (Hw : window (fetch_call q0 body) = Some (start, size)).
  { rewrite window_fetch_call. unfold q0, limited. cbn.
    f_equal. f_equal. lia. }
  pose proof (Hb (Query.calls (Query.put (SQS.query s) q0 w)) _ _ _ Hw
                ltac:(lia) Hsize) as Hans.
  pose proof (get_results_ok b _ q0 _ body _ _ _ _ Hq2 eq_refl Hbody Hans
                (answer_page_answer hits start size) eq_refl) as Hget.
  rewrite put_logged, put_put in Hget. fold n q' in Hget.
  change (Query.logged (fetch_call q0 body) (Query.put (SQS.query s) q' w))
    with w' in Hget.
  rewrite (bind_ok _ _ _ _ _
             (on_store_eq _ {| SQS.self := s;
                               SQS.store := Query.put (SQS.query s) q0 w |}
                _ _ Hget)).
  cbn [is_none SQS.self py_len]. rewrite bind_bind, bind_lift_Ok, bind_ret.
  assert (Hlen : List.length (page hits start size) = List.length to_cache).
  { unfold to_cache, page. rewrite !length_take, !length_drop.
    rewrite (post_process_list_length _ _ _ Hrecs). reflexivity. }
  rewrite Hlen.
  destruct (List.length to_cache =? 0)%nat eqn:E; [reflexivity|].
  rewrite bind_gets. cbn [SQS.self].
  assert (Hpp : forall x,
             SQS.post_process_results (SQS.set__result_cache x s)
               (VList (page hits start size)) = Ok to_cache).
  { intros x. unfold SQS.post_process_results. cbn [py_iter rbind].
    rewrite post_process_list_cache.
    apply post_process_list_page, Hrecs. }
  assert (Hpp0 : SQS.post_process_results s (VList (page hits start size)) =
                 Ok to_cache).
  { unfold SQS.post_process_results. cbn [py_iter rbind].
    apply post_process_list_page, Hrecs. }
  unfold allocated.
  destruct (List.length (SQS._result_cache s) =? 0)%nat eqn:Ec.
  - assert (Hq3 : Query.queries w' !! SQS.query s = Some q')
      by (apply (lookup_put _ q); exact Hq).
    assert (Hcount : Query.get_count b (SQS.query s) w' =
                     (Ok (VInt (Z.of_nat n)), w')).
    { unfold Query.get_count.
      rewrite (bind_ok _ _ _ _ _ (load_ok _ _ _ Hq3)).
      assert (Hh : Query._hit_count q' = VInt (Z.of_nat n))
        by (unfold q', fetched; destruct (Query.mlt_query q0); reflexivity).
      rewrite Hh. cbn [is_none]. rewrite bind_ret.
      rewrite (bind_ok _ _ _ _ _ (load_ok _ _ _ Hq3)), Hh. reflexivity. }
    rewrite bind_bind.
    rewrite (bind_ok _ _ _ _ _
               (on_store_eq _ {| SQS.self := s; SQS.store := w' |} _ _
                  Hcount)).
    cbn [py_range]. rewrite bind_bind, bind_lift_Ok.
    rewrite Nat2Z.id, placeholders.
    unfold SQS.update_self, modify. unfold bind at 1.
    cbn [SQS.self SQS.store].
    rewrite bind_gets. cbn [SQS.self].
    rewrite Hpp, bind_lift_Ok. unfold bind, ret. reflexivity.
  - rewrite bind_ret, bind_gets. cbn [SQS.self].
    rewrite Hpp0, bind_lift_Ok.
    unfold SQS.update_self, modify, bind, ret. reflexivity.
Qed.

(** ** Caches *)

Lemma index_of_none_None (l : list value) :
  index_of_none l = None <-> Forall (fun x => is_none x = false) l.
Proof.
  induction l as [|x l IH]; cbn.
  - split; [constructor|reflexivity].
  - destruct (is_none x) eqn:E.
    + split; [discriminate|]. intros H. inversion H; congruence.
    + destruct (index_of_none l); cbn.
      * split; [discriminate|]. intros H. inversion H as [|? ? _ Hl]; subst.
        apply IH in Hl. discriminate.
      * split; [|reflexivity]. intros _. constructor; [exact E|].
        apply IH. reflexivity.
Qed.

Lemma first_none_le (l : list value) : (first_none l <= List.length l)%nat.
Proof.
  unfold first_none. induction l as [|x l IH]; cbn; [lia|].
  destruct (is_none x); [lia|].
  destruct (index_of_none l); cbn in *; lia.
Qed.

Lemma first_none_cons (x : value) (l : list value) :
  first_none (x :: l) = if is_none x then 0%nat else S (first_none l).
Proof.
  unfold first_none. cbn. destruct (is_none x); [reflexivity|].
  destruct (index_of_none l); reflexivity.
Qed.

Lemma first_none_app (l1 l2 : list value) :
  Forall (fun x => is_none x = false) l1 ->
  first_none (l1 ++ l2) = (List.length l1 + first_none l2)%nat.
Proof.
  induction 1 as [|x l1 Hx _ IH]; [reflexivity|].
  cbn [app List.length]. rewrite first_none_cons, Hx, IH. reflexivity.
Qed.

Lemma first_none_length (l : list value) :
  first_none l = List.length l <-> index_of_none l = None.
Proof.
  induction l as [|x l IH]; [split; reflexivity|].
  rewrite first_none_cons. cbn [index_of_none List.length].
  destruct (is_none x); [split; discriminate|].
  destruct (index_of_none l) eqn:E; cbn.
  - split; [|discriminate]. intros H.
    assert (H' : first_none l = List.length l) by lia.
    apply IH in H'. discriminate.
  - split; [reflexivity|]. intros _. f_equal. apply IH. reflexivity.
Qed.

Lemma first_none_take (recs cache : list value) :
  filled_from recs cache ->
  take (first_none cache) cache = take (first_none cache) recs.
Proof.
  induction 1 as [|x r cache recs Hx _ IH]; [reflexivity|].
  rewrite first_none_cons. destruct (is_none x) eqn:E; [reflexivity|].
  destruct Hx as [->| ->]; [discriminate|].
  cbn [take]. rewrite IH. reflexivity.
Qed.

Lemma take_first_none_filled (cache : list value) :
  Forall (fun x => is_none x = false) (take (first_none cache) cache).
Proof.
  induction cache as [|x cache IH]; [constructor|].
  rewrite first_none_cons. destruct (is_none x) eqn:E; [constructor|].
  cbn [take]. constructor; [exact E|exact IH].
Qed.

Lemma filled_from_full (recs cache : list value) :
  filled_from recs cache -> index_of_none cache = None -> cache = recs.
Proof.
  intros H Hn. apply index_of_none_None in Hn.
  induction H as [|x r cache recs Hx _ IH]; [reflexivity|].
  inversion Hn as [|? ? Hx' Hn']; subst.
  destruct Hx as [->| ->]; [discriminate|].
  rewrite (IH Hn'). reflexivity.
Qed.

Lemma filled_from_length (recs cache : list value) :
  filled_from recs cache -> List.length cache = List.length recs.
Proof. apply Forall2_length. Qed.

Lemma filled_from_placeholders (recs : list value) :
  filled_from recs (repeat VNone (List.length recs)).
Proof.
  induction recs as [|r recs IH]; [constructor|].
  cbn. constructor; [left; reflexivity|exact IH].
Qed.

Lemma filled_from_refl (recs : list value) : filled_from recs recs.
Proof.
  induction recs as [|r recs IH]; constructor; [right; reflexivity|exact IH].
Qed.

Lemma records_not_none (s : SQS.t) (hits recs : list value) :
  SQS.post_process_list s hits = Ok recs ->
  Forall (fun x => is_none x = false) recs.
Proof.
  rewrite post_process_list_Forall2.
  induction 1 as [|h r hits recs Hr _ IH]; constructor; [|exact IH].
  eapply post_process_result_not_none, Hr.
Qed.

Lemma py_slice_assign_nat (cache xs : list value) (k : nat) :
  (k <= List.length cache)%nat ->
  py_slice_assign cache (Z.of_nat k) (Z.of_nat k + Z.of_nat (List.length xs)) xs =
  take k cache ++ xs ++ drop (k + List.length xs) cache.
Proof.
  intros Hk. unfold py_slice_assign.
  replace (Z.of_nat k + Z.of_nat (List.length xs))%Z
    with (Z.of_nat (k + List.length xs)) by lia.
  rewrite !slice_bound_nat. rewrite (Nat.min_l k) by lia.
  destruct (Nat.le_gt_cases (k + List.length xs) (List.length cache)) as [H|H].
  - rewrite (Nat.min_l (k + _)) by lia. rewrite Nat.max_r by lia. reflexivity.
  - rewrite (Nat.min_r (k + _)) by lia. rewrite Nat.max_r by lia.
    rewrite !drop_ge by lia. reflexivity.
Qed.

Lemma filled_from_assign (recs cache : list value) (k n : nat) :
  filled_from recs cache ->
  filled_from recs
    (take k cache ++ take n (drop k recs) ++
     drop (k + List.length (take n (drop k recs))) cache).
Proof.
  intros H. pose proof (filled_from_length _ _ H) as Hlen.
  unfold filled_from in *.
  assert (E : recs = take k recs ++ take n (drop k recs) ++
                     drop n (drop k recs))
    by (rewrite !take_drop; reflexivity).
  set (c := take k cache ++ take n (drop k recs) ++
            drop (k + List.length (take n (drop k recs))) cache).
  rewrite E. subst c.
  apply Forall2_app; [apply Forall2_take, H|].
  apply Forall2_app; [apply filled_from_refl|].
  rewrite drop_drop.
  rewrite length_take, length_drop.
  destruct (Nat.le_gt_cases n (List.length recs - k)) as [Hn|Hn].
  - rewrite Nat.min_l by lia. apply Forall2_drop, H.
  - rewrite Nat.min_r by lia.
    rewrite !drop_ge by lia. constructor.
Qed.

Lemma yield_cached_ok (cache : list value) (pos n : nat) :
  (pos + n <= List.length cache)%nat ->
  SQS.yield_cached cache (Z.of_nat pos) n = (take n (drop pos cache), None).
Proof.
  revert pos. induction n as [|n IH]; intros pos Hn; [reflexivity|].
  cbn [SQS.yield_cached].
  destruct (lookup_lt_is_Some_2 cache pos ltac:(lia)) as [x Hx].
  rewrite (list_index_lookup _ _ _ Hx).
  replace (Z.of_nat pos + 1)%Z with (Z.of_nat (S pos)) by lia.
  rewrite IH by lia.
  rewrite (drop_S _ _ _ Hx). reflexivity.
Qed.

(** ** Is the cache full? *)

Lemma has_run_hit_count (q : Query.t) :
  Query.has_run q = true -> is_none (Query._hit_count q) = false.
Proof.
  unfold Query.has_run. intros H. apply negb_true_iff in H.
  apply orb_false_iff in H. apply H.
Qed.

Lemma cache_is_full_ok (b : backend) (hits recs : list value) (body : value)
  (st : SQS.state) :
  consistent hits recs body st ->
  exists (q : Query.t) (s1 : SQS.t),
    Query.queries (SQS.store st) !! SQS.query (SQS.self st) = Some q /\
    SQS._cache_is_full b st =
    (Ok (Query.has_run q &&
         ((List.length hits =? 0)%nat ||
          match index_of_none (SQS._result_cache (SQS.self st)) with
          | Some _ => false
          | None => (0 <? List.length (SQS._result_cache (SQS.self st)))%nat
          end)),
     {| SQS.self := s1; SQS.store := SQS.store st |}) /\
    (s1 = SQS.self st \/
     s1 = SQS.set__result_count (VInt (Z.of_nat (List.length hits)))
            (SQS.self st)).
Proof.
  intros (Hrecs & (q & Hq & Hbody & Hhit) & Hcache & Hcount).
  destruct st as [s w]. cbn [SQS.self SQS.store] in *.
  exists q. unfold SQS._cache_is_full.
  rewrite bind_gets. cbn [SQS.self].
  rewrite (bind_ok _ _ _ _ _
             (on_store_eq _ {| SQS.self := s; SQS.store := w |} _ _
                (load_ok _ _ _ Hq))).
  cbn [SQS.self SQS.store].
  destruct (Query.has_run q) eqn:Hrun; cbn [negb andb].
  2: { exists s. split; [exact Hq|]. split; [reflexivity|left; reflexivity]. }
  pose proof (has_run_hit_count _ Hrun) as Hh.
  destruct Hhit as [Hhit|Hhit]; [rewrite Hhit in Hh; discriminate|].
  assert (Hlen : forall s1 : SQS.t,
             SQS._result_count s1 = VInt (Z.of_nat (List.length hits)) ->
             bind (gets SQS.self)
               (fun s0 : SQS.t =>
                  match SQS._result_count s0 with
                  | VInt n => if (n <? 0)%Z then raise ValueError else ret n
                  | _ => raise TypeError
                  end) {| SQS.self := s1; SQS.store := w |} =
             (Ok (Z.of_nat (List.length hits)),
              {| SQS.self := s1; SQS.store := w |})).
  { intros s1 Hs1. rewrite bind_gets. cbn [SQS.self]. rewrite Hs1.
    destruct (Z.of_nat (List.length hits) <? 0)%Z eqn:E;
      [apply Z.ltb_lt in E; lia|reflexivity]. }
  assert (Hfinish : forall s1 : SQS.t,
             SQS._result_cache s1 = SQS._result_cache s ->
             (if (Z.of_nat (List.length hits) <=? 0)%Z
              then ret true
              else
                bind (gets SQS.self)
                  (fun s0 : SQS.t =>
                     match index_of_none (SQS._result_cache s0) with
                     | Some _ => ret false
                     | None => ret (0 <? List.length (SQS._result_cache s0))%nat
                     end)) {| SQS.self := s1; SQS.store := w |} =
             (Ok ((List.length hits =? 0)%nat ||
                  match index_of_none (SQS._result_cache s) with
                  | Some _ => false
                  | None => (0 <? List.length (SQS._result_cache s))%nat
                  end),
              {| SQS.self := s1; SQS.store := w |})).
  { intros s1 Hs1.
    destruct (List.length hits) as [|n] eqn:En; [reflexivity|].
    destruct (Z.of_nat (S n) <=? 0)%Z eqn:E; [apply Z.leb_le in E; lia|].
    rewrite bind_gets. cbn [SQS.self orb Nat.eqb]. rewrite Hs1.
    destruct (index_of_none (SQS._result_cache s)); reflexivity. }
  unfold SQS.__len__.
  rewrite bind_bind, bind_gets. cbn [SQS.self].
  destruct Hcount as [Hc|Hc]; rewrite Hc; cbn [is_none].
  - exists (SQS.set__result_count (VInt (Z.of_nat (List.length hits))) s).
    split; [exact Hq|]. split; [|right; reflexivity].
    assert (Hgc : Query.get_count b (SQS.query s) w =
                  (Ok (VInt (Z.of_nat (List.length hits))), w)).
    { unfold Query.get_count.
      rewrite (bind_ok _ _ _ _ _ (load_ok _ _ _ Hq)), Hhit. cbn [is_none].
      rewrite bind_ret, (bind_ok _ _ _ _ _ (load_ok _ _ _ Hq)), Hhit.
      reflexivity. }
    rewrite !bind_bind.
    rewrite (bind_ok _ _ _ _ _
               (on_store_eq _ {| SQS.self := s; SQS.store := w |} _ _ Hgc)).
    unfold SQS.update_self, modify. unfold bind at 1.
    cbn [SQS.self SQS.store].
    rewrite (bind_ok _ _ _ _ _
               (Hlen (SQS.set__result_count
                        (VInt (Z.of_nat (List.length hits))) s) eq_refl)).
    apply Hfinish. reflexivity.
  - exists s. split; [exact Hq|]. split; [|left; reflexivity].
    rewrite bind_bind, bind_ret.
    rewrite (bind_ok _ _ _ _ _ (Hlen s Hc)).
    apply Hfinish. reflexivity.
Qed.

Lemma post_process_list_count (x : value) (s : SQS.t) (l : list value) :
  SQS.post_process_list (SQS.set__result_count x s) l =
  SQS.post_process_list s l.
Proof.
  induction l as [|h l IH]; [reflexivity|].
  cbn [SQS.post_process_list]. rewrite IH. reflexivity.
Qed.

Lemma consistent_count (hits recs : list value) (body : value)
  (st : SQS.state) (s1 : SQS.t) :
  consistent hits recs body st ->
  s1 = SQS.self st \/
  s1 = SQS.set__result_count (VInt (Z.of_nat (List.length hits)))
         (SQS.self st) ->
  consistent hits recs body {| SQS.self := s1; SQS.store := SQS.store st |}.
Proof.
  intros (Hrecs & Hq & Hcache & Hcount) [-> | ->].
  - repeat split; assumption.
  - split; [|split; [exact Hq|split; [exact Hcache|right; reflexivity]]].
    cbn [SQS.self]. rewrite post_process_list_count. exact Hrecs.
Qed.

(** ** One fetch of the traversal *)

Lemma build_query_fetched (hits total fc : value) (start end_ : Z)
  (q : Query.t) :
  Query.build_query (fetched hits total fc (limited start end_ q)) =
  Query.build_query q.
Proof.
  unfold fetched. destruct (Query.mlt_query (limited start end_ q));
    reflexivity.
Qed.

Lemma hit_count_fetched (hits total fc : value) (q : Query.t) :
  Query._hit_count (fetched hits total fc q) = total.
Proof. unfold fetched. destruct (Query.mlt_query q); reflexivity. Qed.

Lemma has_run_fetched (hits : list value) (n : Z) (fc : value) (q : Query.t) :
  Query.has_run (fetched (VList hits) (VInt n) fc q) = true.
Proof. unfold fetched. destruct (Query.mlt_query q); reflexivity. Qed.

Lemma length_page (l : list value) (k : nat) (size : Z) :
  List.length (page l (Z.of_nat k) size) =
  Nat.min (Z.to_nat size) (List.length l - k).
Proof.
  unfold page. rewrite length_take, length_drop, Nat2Z.id. reflexivity.
Qed.

Lemma fill_step (b : backend) (hits recs : list value) (body : value)
  (st : SQS.state) (k : nat) (size : Z) :
  paged hits b -> (0 < size)%Z ->
  consistent hits recs body st ->
  (SQS._result_cache (SQS.self st) = [] /\ k = 0%nat) \/
  (SQS._result_cache (SQS.self st) <> [] /\
   k = first_none (SQS._result_cache (SQS.self st))) ->
  exists st2 : SQS.state,
    SQS._fill_cache b (Z.of_nat k) (Z.of_nat k + size) st =
      (Ok (k <? List.length hits)%nat, st2) /\
    consistent hits recs body st2 /\
    (exists q2 : Query.t,
        Query.queries (SQS.store st2) !! SQS.query (SQS.self st2) = Some q2 /\
        Query.has_run q2 = true) /\
    if (k <? List.length hits)%nat
    then SQS._result_cache (SQS.self st2) <> [] /\
         (k < first_none (SQS._result_cache (SQS.self st2)))%nat
    else SQS._result_cache (SQS.self st2) = SQS._result_cache (SQS.self st).
Proof.
  intros Hb Hsize Hc Hk.
  destruct Hc as (Hrecs & (q & Hq & Hbody & Hhit) & Hcache & Hcount).
  pose proof (post_process_list_length _ _ _ Hrecs) as Hn.
  pose proof (fill_cache_ok b hits recs st q body k size Hb Hq Hbody Hrecs Hsize)
    as Hfill.
  cbv zeta in Hfill.
  set (q' := fetched (VList (page hits (Z.of_nat k) size))
               (VInt (Z.of_nat (List.length hits))) (VDict [])
               (limited (Z.of_nat k) (Z.of_nat k + size) q)) in *.
  set (w' := Query.put (SQS.query (SQS.self st)) q'
               (Query.logged
                  (fetch_call (limited (Z.of_nat k) (Z.of_nat k + size) q) body)
                  (SQS.store st))) in *.
  assert (Hq' : Query.queries w' !! SQS.query (SQS.self st) = Some q')
    by (apply (lookup_put _ q); exact Hq).
  assert (Hquery : exists q2 : Query.t,
             Query.queries w' !! SQS.query (SQS.self st) = Some q2 /\
             Query.build_query q2 = Ok body /\
             (Query._hit_count q2 = VNone \/
              Query._hit_count q2 = VInt (Z.of_nat (List.length hits)))).
  { exists q'. split; [exact Hq'|]. split.
    - unfold q'. rewrite build_query_fetched. exact Hbody.
    - right. apply hit_count_fetched. }
  assert (Hrun : exists q2 : Query.t,
             Query.queries w' !! SQS.query (SQS.self st) = Some q2 /\
             Query.has_run q2 = true).
  { exists q'. split; [exact Hq'|]. apply has_run_fetched. }
  pose proof (length_page recs k size) as Hlp. rewrite Hn in Hlp.
  destruct (k <? List.length hits)%nat eqn:Ek.
  - apply Nat.ltb_lt in Ek.
    destruct (List.length (page recs (Z.of_nat k) size) =? 0)%nat eqn:E0;
      [apply Nat.eqb_eq in E0; lia|].
    eexists. split; [exact Hfill|].
    set (c0 := allocated (List.length hits) (SQS._result_cache (SQS.self st))).
    assert (Hc0 : filled_from recs c0 /\ (k <= List.length c0)%nat /\
                  Forall (fun x => is_none x = false) (take k c0)).
    { unfold c0, allocated. destruct Hk as [[He ->]|[Hne ->]].
      - rewrite He. cbn. rewrite <- Hn.
        split; [apply filled_from_placeholders|].
        split; [lia|constructor].
      - destruct Hcache as [He|Hf]; [contradiction|].
        assert (Ea : (List.length (SQS._result_cache (SQS.self st)) =? 0)%nat
                     = false).
        { apply Nat.eqb_neq. intros E. apply Hne.
          apply length_zero_iff_nil, E. }
        rewrite Ea.
        split; [exact Hf|].
        split; [apply first_none_le|apply take_first_none_filled]. }
    destruct Hc0 as (Hf0 & Hk0 & Hfilled).
    cbn [SQS.self SQS.store SQS._result_cache SQS.set__result_cache SQS.query].
    rewrite (py_slice_assign_nat _ _ _ Hk0).
    split; [|split; [exact Hrun|split]].
    + split; [|split; [exact Hquery|split; [|exact Hcount]]].
      * cbn [SQS.self]. rewrite post_process_list_cache. exact Hrecs.
      * right. cbn [SQS.self SQS._result_cache SQS.set__result_cache].
        unfold page. rewrite Nat2Z.id. apply filled_from_assign, Hf0.
    + intros E. apply (f_equal (@List.length value)) in E.
      rewrite !length_app in E. cbn in E. lia.
    + rewrite first_none_app by exact Hfilled.
      rewrite first_none_app
        by (unfold page; apply Forall_take, Forall_drop;
            eapply records_not_none, Hrecs).
      rewrite length_take. lia.
  - apply Nat.ltb_ge in Ek.
    destruct (List.length (page recs (Z.of_nat k) size) =? 0)%nat eqn:E0;
      [|apply Nat.eqb_neq in E0; lia].
    eexists. split; [exact Hfill|].
    split; [|split; [exact Hrun|reflexivity]].
    split; [exact Hrecs|]. split; [exact Hquery|]. split; assumption.
Qed.

(** ** The traversal *)

Lemma take_drop_rest (l : list value) (pos k : nat) :
  (pos <= k)%nat -> take (k - pos) (drop pos l) ++ drop k l = drop pos l.
Proof.
  intros H. replace (drop k l) with (drop (k - pos) (drop pos l)).
  - apply take_drop.
  - rewrite drop_drop. f_equal. lia.
Qed.

Lemma cached_prefix (recs cache : list value) (pos : nat) :
  filled_from recs cache ->
  (pos <= first_none cache)%nat ->
  take (first_none cache - pos) (drop pos cache) =
  take (first_none cache - pos) (drop pos recs).
Proof.
  intros Hf Hpos.
  rewrite !take_drop_commute.
  replace (pos + (first_none cache - pos))%nat with (first_none cache) by lia.
  rewrite (first_none_take _ _ Hf). reflexivity.
Qed.

Lemma manual_iter_filled (b : backend) (SIZE_PER_QUERY : Z)
  (hits recs : list value) (body : value) :
  paged hits b -> (0 < SIZE_PER_QUERY)%Z ->
  forall (fuel : nat) (st : SQS.state) (pos : nat) (cmax : Z),
    consistent hits recs body st ->
    SQS._result_cache (SQS.self st) <> [] ->
    (pos <= first_none (SQS._result_cache (SQS.self st)))%nat ->
    (List.length hits - first_none (SQS._result_cache (SQS.self st)) < fuel)%nat ->
    exists st' : SQS.state,
      SQS._manual_iter b SIZE_PER_QUERY fuel (Z.of_nat pos) cmax st =
        (drop pos recs, Failed RuntimeError, st') /\
      complete hits recs body st'.
Proof.
  intros Hb Hsize. induction fuel as [|fuel IH]; intros st pos cmax Hc Hne Hpos Hfuel;
    [lia|].
  pose proof Hc as (Hrecs & _ & Hcache & _).
  destruct Hcache as [He|Hf]; [contradiction|].
  pose proof (post_process_list_length _ _ _ Hrecs) as Hn.
  pose proof (filled_from_length _ _ Hf) as Hlen.
  set (cache := SQS._result_cache (SQS.self st)) in *.
  set (k := first_none cache) in *.
  pose proof (first_none_le cache) as Hk. fold k in Hk.
  cbn [SQS._manual_iter]. fold cache.
  assert (Hpos0 : (0 <? List.length cache)%nat = true).
  { apply Nat.ltb_lt. destruct cache; [contradiction|cbn; lia]. }
  rewrite Hpos0.
  assert (Hmax : match index_of_none cache with
                 | Some i => Z.of_nat i
                 | None => Z.of_nat (List.length cache)
                 end = Z.of_nat k).
  { unfold k, first_none. destruct (index_of_none cache); reflexivity. }
  rewrite Hmax.
  replace (Z.to_nat (Z.of_nat k - Z.of_nat pos)) with (k - pos)%nat by lia.
  rewrite yield_cached_ok by lia.
  replace (Z.max (Z.of_nat pos) (Z.of_nat k)) with (Z.of_nat k) by lia.
  pose proof (cached_prefix _ _ _ Hf Hpos) as Hys. fold k in Hys.
  rewrite Hys.
  destruct (cache_is_full_ok b _ _ _ _ Hc) as (q & s1 & Hq & Hfull & Hs1).
  rewrite Hfull.
  pose proof (consistent_count _ _ _ _ _ Hc Hs1) as Hc1.
  assert (Hcache1 : SQS._result_cache s1 = cache)
    by (destruct Hs1 as [-> | ->]; reflexivity).
  assert (Hquery1 : SQS.query s1 = SQS.query (SQS.self st))
    by (destruct Hs1 as [-> | ->]; reflexivity).
  set (st1 := {| SQS.self := s1; SQS.store := SQS.store st |}) in *.
  fold cache.
  assert (Hnz : (List.length hits =? 0)%nat = false).
  { apply Nat.eqb_neq. rewrite <- Hn, <- Hlen.
    intros E. apply Hne. apply length_zero_iff_nil, E. }
  rewrite Hnz. cbn [orb].
  destruct (Query.has_run q &&
            match index_of_none cache with
            | Some _ => false
            | None => (0 <? List.length cache)%nat
            end) eqn:Efull.
  - (* the cache is full *)
    apply andb_prop in Efull as [Hrun Hin].
    destruct (index_of_none cache) eqn:Hin'; [discriminate|].
    assert (Hkn : k = List.length cache)
      by (apply first_none_length; exact Hin').
    exists st1. split.
    + rewrite take_ge; [reflexivity|]. rewrite length_drop. lia.
    + split; [exact Hc1|]. split.
      * exists q. cbn [st1 SQS.self SQS.store]. rewrite Hquery1. auto.
      * cbn [st1 SQS.self]. rewrite Hcache1.
        apply filled_from_full; assumption.
  - (* another fetch *)
    destruct (fill_step b hits recs body st1 k SIZE_PER_QUERY Hb Hsize Hc1)
      as (st2 & Hfill & Hc2 & Hrun2 & Hpost).
    { right. cbn [st1 SQS.self]. rewrite Hcache1.
      split; [exact Hne|reflexivity]. }
    rewrite Hfill.
    destruct (k <? List.length hits)%nat eqn:Ek.
    + destruct Hpost as [Hne2 Hk2]. apply Nat.ltb_lt in Ek.
      destruct (IH st2 k (Z.of_nat k) Hc2 Hne2 ltac:(lia) ltac:(lia))
        as (st' & Hrec & Hcomplete).
      rewrite Hrec. exists st'. split; [|exact Hcomplete].
      rewrite take_drop_rest by lia. reflexivity.
    + apply Nat.ltb_ge in Ek.
      exists st2. split.
      * rewrite take_ge; [reflexivity|]. rewrite length_drop. lia.
      * split; [exact Hc2|]. split; [exact Hrun2|].
        rewrite Hpost. cbn [st1 SQS.self]. rewrite Hcache1.
        apply filled_from_full; [exact Hf|].
        apply first_none_length. fold k. lia.
Qed.

Lemma manual_iter_empty (b : backend) (SIZE_PER_QUERY : Z)
  (hits recs : list value) (body : value) (fuel : nat) (st : SQS.state) :
  paged hits b -> (0 < SIZE_PER_QUERY)%Z ->
  consistent hits recs body st ->
  SQS._result_cache (SQS.self st) = [] ->
  (List.length hits < fuel)%nat ->
  exists st' : SQS.state,
    SQS._manual_iter b SIZE_PER_QUERY fuel 0 0 st =
      (recs, Failed RuntimeError, st') /\
    complete hits recs body st'.
Proof.
  intros Hb Hsize Hc He Hfuel.
  destruct fuel as [|fuel]; [lia|].
  pose proof Hc as (Hrecs & _ & _ & _).
  pose proof (post_process_list_length _ _ _ Hrecs) as Hn.
  cbn [SQS._manual_iter]. rewrite He.
  change (0 <? List.length (@nil value))%nat with false. cbv iota.
  change (Z.to_nat (0 - 0)) with 0%nat. cbn [SQS.yield_cached].
  change (Z.max 0 0) with 0%Z.
  destruct (cache_is_full_ok b _ _ _ _ Hc) as (q & s1 & Hq & Hfull & Hs1).
  rewrite Hfull, He. cbn [index_of_none List.length Nat.ltb Nat.leb].
  rewrite orb_false_r.
  pose proof (consistent_count _ _ _ _ _ Hc Hs1) as Hc1.
  assert (Hcache1 : SQS._result_cache s1 = [])
    by (destruct Hs1 as [-> | ->]; [exact He|exact He]).
  assert (Hquery1 : SQS.query s1 = SQS.query (SQS.self st))
    by (destruct Hs1 as [-> | ->]; reflexivity).
  set (st1 := {| SQS.self := s1; SQS.store := SQS.store st |}) in *.
  destruct (Query.has_run q && (List.length hits =? 0)%nat) eqn:Efull.
  - apply andb_prop in Efull as [Hrun Hz]. apply Nat.eqb_eq in Hz.
    assert (Er : recs = []) by (apply length_zero_iff_nil; lia).
    exists st1. split; [rewrite Er; reflexivity|].
    split; [exact Hc1|]. split.
    + exists q. cbn [st1 SQS.self SQS.store]. rewrite Hquery1. auto.
    + cbn [st1 SQS.self]. rewrite Hcache1, Er. reflexivity.
  - destruct (fill_step b hits recs body st1 0 SIZE_PER_QUERY Hb Hsize Hc1)
      as (st2 & Hfill & Hc2 & Hrun2 & Hpost).
    { left. split; [exact Hcache1|reflexivity]. }
    change (Z.of_nat 0) with 0%Z in Hfill. rewrite Hfill.
    destruct (0 <? List.length hits)%nat eqn:Ek.
    + destruct Hpost as [Hne2 Hk2]. apply Nat.ltb_lt in Ek.
      destruct (manual_iter_filled b SIZE_PER_QUERY hits recs body Hb Hsize
                  fuel st2 0 0%Z Hc2 Hne2 ltac:(lia) ltac:(lia))
        as (st' & Hrec & Hcomplete).
      change (Z.of_nat 0) with 0%Z in Hrec. rewrite Hrec.
      exists st'. split; [reflexivity|exact Hcomplete].
    + apply Nat.ltb_ge in Ek.
      assert (Er : recs = []) by (apply length_zero_iff_nil; lia).
      exists st2. split; [rewrite Er; reflexivity|].
      split; [exact Hc2|]. split; [exact Hrun2|].
      rewrite Hpost. cbn [st1 SQS.self]. rewrite Hcache1, Er. reflexivity.
Qed.

Lemma iter_first (b : backend) (SIZE_PER_QUERY : Z)
  (hits recs : list value) (body : value) (fuel : nat) (st : SQS.state) :
  paged hits b -> (0 < SIZE_PER_QUERY)%Z ->
  consistent hits recs body st ->
  (List.length hits < fuel)%nat ->
  exists (o : outcome) (st' : SQS.state),
    SQS.__iter__ b SIZE_PER_QUERY fuel st = (recs, o, st') /\
    ((fst (SQS._cache_is_full b st) = Ok true /\ o = Exhausted) \/
     (fst (SQS._cache_is_full b st) = Ok false /\ o = Failed RuntimeError)) /\
    complete hits recs body st'.
Proof.
  intros Hb Hsize Hc Hfuel.
  pose proof Hc as (Hrecs & _ & Hcache & _).
  pose proof (post_process_list_length _ _ _ Hrecs) as Hn.
  unfold SQS.__iter__.
  destruct (cache_is_full_ok b _ _ _ _ Hc) as (q & s1 & Hq & Hfull & Hs1).
  rewrite Hfull. cbn [fst].
  pose proof (consistent_count _ _ _ _ _ Hc Hs1) as Hc1.
  assert (Hcache1 : SQS._result_cache s1 = SQS._result_cache (SQS.self st))
    by (destruct Hs1 as [-> | ->]; reflexivity).
  assert (Hquery1 : SQS.query s1 = SQS.query (SQS.self st))
    by (destruct Hs1 as [-> | ->]; reflexivity).
  set (st1 := {| SQS.self := s1; SQS.store := SQS.store st |}) in *.
  set (cache := SQS._result_cache (SQS.self st)) in *.
  destruct (Query.has_run q &&
            ((List.length hits =? 0)%nat ||
             match index_of_none cache with
             | Some _ => false
             | None => (0 <? List.length cache)%nat
             end)) eqn:Efull.
  - apply andb_prop in Efull as [Hrun Hfull'].
    exists Exhausted, st1. split; [|split; [left; split; reflexivity|]].
    + cbn [st1 SQS.self]. rewrite Hcache1. fold cache. f_equal. f_equal.
      destruct Hcache as [He|Hf].
      * rewrite He in *. cbn in Hfull'. rewrite orb_false_r in Hfull'.
        apply Nat.eqb_eq in Hfull'. symmetry.
        apply length_zero_iff_nil. lia.
      * apply orb_prop in Hfull' as [Hz|Hin].
        -- apply Nat.eqb_eq in Hz.
           pose proof (filled_from_length _ _ Hf) as Hl.
           assert (E1 : cache = []) by (apply length_zero_iff_nil; lia).
           assert (E2 : recs = []) by (apply length_zero_iff_nil; lia).
           rewrite E1, E2. reflexivity.
        -- destruct (index_of_none cache) eqn:E; [discriminate|].
           apply filled_from_full; assumption.
    + split; [exact Hc1|]. split.
      * exists q. cbn [st1 SQS.self SQS.store]. rewrite Hquery1. auto.
      * cbn [st1 SQS.self]. rewrite Hcache1. fold cache.
        destruct Hcache as [He|Hf].
        -- rewrite He in *. cbn in Hfull'. rewrite orb_false_r in Hfull'.
           apply Nat.eqb_eq in Hfull'. symmetry.
           apply length_zero_iff_nil. lia.
        -- apply orb_prop in Hfull' as [Hz|Hin].
           ++ apply Nat.eqb_eq in Hz.
              pose proof (filled_from_length _ _ Hf) as Hl.
              assert (E1 : cache = []) by (apply length_zero_iff_nil; lia).
              assert (E2 : recs = []) by (apply length_zero_iff_nil; lia).
              rewrite E1, E2. reflexivity.
           ++ destruct (index_of_none cache) eqn:E; [discriminate|].
              apply filled_from_full; assumption.
  - destruct cache as [|x c] eqn:Ec.
    + destruct (manual_iter_empty b SIZE_PER_QUERY hits recs body fuel st1
                  Hb Hsize Hc1) as (st' & Hrec & Hcomplete);
        [cbn [st1 SQS.self]; rewrite Hcache1; reflexivity|exact Hfuel|].
      exists (Failed RuntimeError), st'. split; [exact Hrec|].
      split; [right; split; reflexivity|exact Hcomplete].
    + destruct (manual_iter_filled b SIZE_PER_QUERY hits recs body Hb Hsize
                  fuel st1 0 0%Z Hc1) as (st' & Hrec & Hcomplete).
      * cbn [st1 SQS.self]. rewrite Hcache1. discriminate.
      * lia.
      * lia.
      * exists (Failed RuntimeError), st'. split; [exact Hrec|].
        split; [right; split; reflexivity|exact Hcomplete].
Qed.

Lemma iter_again (b : backend) (SIZE_PER_QUERY : Z)
  (hits recs : list value) (body : value) (fuel : nat) (st : SQS.state) :
  complete hits recs body st ->
  exists st' : SQS.state,
    SQS.__iter__ b SIZE_PER_QUERY fuel st = (recs, Exhausted, st') /\
    SQS.store st' = SQS.store st.
Proof.
  intros (Hc & (q & Hq & Hrun) & Hcache).
  pose proof Hc as (Hrecs & _ & _ & _).
  pose proof (post_process_list_length _ _ _ Hrecs) as Hn.
  unfold SQS.__iter__.
  destruct (cache_is_full_ok b _ _ _ _ Hc) as (q0 & s1 & Hq0 & Hfull & Hs1).
  rewrite Hq in Hq0. inversion Hq0; subst q0.
  rewrite Hfull, Hrun, Hcache. cbn [andb].
  assert (Hin : index_of_none recs = None)
    by (apply index_of_none_None; eapply records_not_none, Hrecs).
  rewrite Hin.
  assert (Hfull' : ((List.length hits =? 0)%nat ||
                    (0 <? List.length recs)%nat) = true).
  { rewrite Hn. destruct (List.length hits); reflexivity. }
  rewrite Hfull'.
  destruct Hs1 as [-> | ->];
    (eexists; split;
     [cbn [SQS.self SQS._result_cache SQS.set__result_count];
      rewrite Hcache; reflexivity
     |reflexivity]).
Qed.

Lemma paging_paged (hits : list value) : paged hits (paging hits).
Proof. intros log c o s Hw _ _. unfold paging. rewrite Hw. reflexivity. Qed.

(** C2, as the code has it.  Before a backend that holds [N] hits and
    answers each window with its page, a traversal of a queryset yields the
    [N] records of the hits, in rank order, provided the window of a fetch
    is not empty; the queryset may have part of its cache filled already.
    The iterator is exhausted after them when the cache was full before the
    traversal; when it was not, the records come from the generator
    [_manual_iter], whose [raise StopIteration] comes out as [RuntimeError]
    after the last record.  A second traversal of the same queryset, without
    a reset, yields the same [N] records again, from the cache, and ends: no
    call reaches the backend. *)
Theorem iter_yields_all_then_replays (b : backend) (SIZE_PER_QUERY : Z)
  (hits recs : list value) (body : value) (fuel : nat) (st : SQS.state) :
  paged hits b ->
  (0 < SIZE_PER_QUERY)%Z ->
  consistent hits recs body st ->
  (List.length hits < fuel)%nat ->
  exists (o : outcome) (st' st'' : SQS.state),
    SQS.__iter__ b SIZE_PER_QUERY fuel st = (recs, o, st') /\
    ((fst (SQS._cache_is_full b st) = Ok true /\ o = Exhausted) \/
     (fst (SQS._cache_is_full b st) = Ok false /\ o = Failed RuntimeError)) /\
    SQS.post_process_list (SQS.self st) hits = Ok recs /\
    List.length recs = List.length hits /\
    SQS.__iter__ b SIZE_PER_QUERY fuel st' = (recs, Exhausted, st'') /\
    Query.calls (SQS.store st'') = Query.calls (SQS.store st').
Proof.
  intros Hb Hsize Hc Hfuel.
  destruct (iter_first b SIZE_PER_QUERY hits recs body fuel st Hb Hsize Hc Hfuel)
    as (o & st' & H1 & Ho & Hcomplete).
  destruct (iter_again b SIZE_PER_QUERY hits recs body fuel st' Hcomplete)
    as (st'' & H2 & Hstore).
  exists o, st', st''.
  pose proof Hc as (Hrecs & _).
  split; [exact H1|]. split; [exact Ho|]. split; [exact Hrecs|].
  split; [eapply post_process_list_length, Hrecs|].
  split; [exact H2|]. rewrite Hstore. reflexivity.
Qed.

Lemma iter_yields_all_then_replays_witness :
  let hits := example_hits 5 in
  let recs := map (fun n : nat => VDict [("rank", VInt (Z.of_nat n));
                                         ("doc_type", VStr "item")])
                (seq 0 5) in
  let body := VDict [("query", VDict [("match_all", VDict [])])] in
  paged hits (paging hits) /\
  (0 < 2)%Z /\
  consistent hits recs body example_state /\
  (List.length hits < 6)%nat /\
  exists st' st'' : SQS.state,
    SQS.__iter__ (paging hits) 2 6 example_state =
      (recs, Failed RuntimeError, st') /\
    SQS.__iter__ (paging hits) 2 6 st' = (recs, Exhausted, st'') /\
    Query.calls (SQS.store st'') = Query.calls (SQS.store st').
Proof.
  intros hits recs body.
  assert (H1 : paged hits (paging hits)) by apply paging_paged.
  assert (H2 : (0 < 2)%Z) by lia.
  assert (H3 : consistent hits recs body example_state).
  { split; [reflexivity|]. split.
    - exists (Query.init (VStr "content") (VStr "item")).
      split; [reflexivity|]. split; [reflexivity|left; reflexivity].
    - split; left; reflexivity. }
  assert (H4 : (List.length hits < 6)%nat) by (cbn; lia).
  split; [exact H1|]. split; [exact H2|]. split; [exact H3|].
  split; [exact H4|].
  destruct (iter_yields_all_then_replays (paging hits) 2 hits recs body 6
              example_state H1 H2 H3 H4)
    as (o & st' & st'' & Ha & Ho & _ & _ & Hb & Hc).
  exists st', st''. split; [|split; [exact Hb|exact Hc]].
  destruct Ho as [[Hfull _]|[_ ->]]; [discriminate Hfull|exact Ha].
Defined.

(** C2, as it is worded, fails: after a traversal that yielded three
    records, and then raised [RuntimeError], a second traversal of the same
    queryset yields them again. *)
Lemma iter_again_yields_records :
  let b := paging (example_hits 3) in
  let first := SQS.__iter__ b 2 4 example_state in
  let second := SQS.__iter__ b 2 4 (snd first) in
  snd (fst first) = Failed RuntimeError /\
  List.length (fst (fst first)) = 3%nat /\
  fst (fst second) = fst (fst first) /\
  fst (fst second) <> [].
Proof.
  vm_compute. repeat split; discriminate.
Qed.

(** ** A subscript and the window it fetches *)

Lemma exists_none_index (l : list value) :
  existsb is_none l = true -> exists i, index_of_none l = Some i.
Proof.
  induction l as [|x l IH]; cbn; [discriminate|].
  destruct (is_none x); [eauto|]. cbn. intros H.
  destruct (IH H) as [i Hi]. rewrite Hi. cbn. eauto.
Qed.

Lemma no_none_exists (l : list value) :
  Forall (fun x => is_none x = false) l -> existsb is_none l = false.
Proof.
  induction 1 as [|x l Hx _ IH]; [reflexivity|].
  cbn. rewrite Hx, IH. reflexivity.
Qed.

Lemma exists_none_slice (l : list value) (start bound : nat) :
  existsb is_none (py_slice l (Z.of_nat start) (Z.of_nat bound)) = true ->
  (start < List.length l)%nat /\ exists i, index_of_none l = Some i.
Proof.
  rewrite py_slice_nat. intros H.
  split.
  - destruct (Nat.le_gt_cases (List.length l) start) as [Hl|Hl]; [|exact Hl].
    rewrite drop_ge, take_nil in H by lia. discriminate.
  - destruct (index_of_none l) eqn:E; [eauto|].
    apply index_of_none_None in E.
    rewrite (no_none_exists _ (Forall_take _ _ _ (Forall_drop _ _ _ E))) in H.
    discriminate.
Qed.

Lemma try_except_ok {S A : Type} (m : M S A) (h : exn -> M S A)
  (s s' : S) (a : A) :
  m s = (Ok a, s') -> try_except m h s = (Ok a, s').
Proof. intros H. unfold try_except. rewrite H. reflexivity. Qed.

Lemma slice_assigned (cache recs : list value) (start bound : nat) :
  List.length cache = List.length recs ->
  (start < List.length cache)%nat -> (start < bound)%nat ->
  let p := page recs (Z.of_nat start) (Z.of_nat bound - Z.of_nat start) in
  py_slice
    (py_slice_assign cache (Z.of_nat start)
       (Z.of_nat start + Z.of_nat (List.length p)) p)
    (Z.of_nat start) (Z.of_nat bound) = p.
Proof.
  intros Hlen Hstart Hbound p.
  assert (Hp : List.length p =
               Nat.min (bound - start) (List.length cache - start)).
  { unfold p. rewrite length_page, Hlen. f_equal. lia. }
  rewrite py_slice_assign_nat by lia.
  rewrite py_slice_nat.
  rewrite drop_app_length' by (rewrite length_take; lia).
  destruct (Nat.le_gt_cases (bound - start) (List.length cache - start))
    as [H|H].
  - rewrite take_app_length' by lia. reflexivity.
  - rewrite drop_ge by lia. rewrite app_nil_r.
    apply take_ge. lia.
Qed.

(** C1, as the code has it.  When a slice [start:bound] of a cache that is
    not empty has a placeholder in it, [__getitem__] makes one call on the
    backend, for the whole window of the slice: offset [start], size
    [bound - start], slots already filled included; it returns the records
    of that window.  When the slice has no placeholder in it, no call is
    made and the cache answers. *)
Theorem getitem_fetches_window (b : backend) (SIZE_PER_QUERY : Z)
  (hits recs : list value) (body : value) (st : SQS.state)
  (start bound : nat) :
  paged hits b ->
  consistent hits recs body st ->
  SQS._result_cache (SQS.self st) <> [] ->
  (start < bound)%nat ->
  let cache := SQS._result_cache (SQS.self st) in
  let k := KSlice (Some (Z.of_nat start)) (Some (Z.of_nat bound)) in
  (existsb is_none (py_slice cache (Z.of_nat start) (Z.of_nat bound)) = true ->
   exists (st' : SQS.state) (q : Query.t),
     Query.queries (SQS.store st) !! SQS.query (SQS.self st) = Some q /\
     SQS.__getitem__ b SIZE_PER_QUERY k st =
       (Ok (VList (page recs (Z.of_nat start)
                     (Z.of_nat bound - Z.of_nat start))), st') /\
     Query.calls (SQS.store st') =
       Query.calls (SQS.store st) ++
       [fetch_call (limited (Z.of_nat start) (Z.of_nat bound) q) body] /\
     window (fetch_call (limited (Z.of_nat start) (Z.of_nat bound) q) body) =
       Some (Z.of_nat start, (Z.of_nat bound - Z.of_nat start)%Z)) /\
  (existsb is_none (py_slice cache (Z.of_nat start) (Z.of_nat bound)) = false ->
   SQS.__getitem__ b SIZE_PER_QUERY k st = (Ok (VList (py_slice cache (Z.of_nat start) (Z.of_nat bound))), st)).
Proof.
  intros Hb Hc Hne Hlt cache k.
  assert (Hpre : forall f : unit -> M SQS.state value,
             SQS.__getitem__ b SIZE_PER_QUERY k st =
             bind
               (if existsb is_none
                     (py_slice cache (Z.of_nat start) (Z.of_nat bound))
                then bind (SQS._cache_is_full b) (fun full => ret (negb full))
                else ret false)
               (fun more : bool =>
                  bind
                    (if more
                     then try_except
                            (bind (SQS._fill_cache b (Z.of_nat start)
                                     (Z.of_nat bound))
                               (fun _ => ret tt))
                            (fun e => match e with
                                      | StopIteration => ret tt
                                      | _ => raise e
                                      end)
                     else ret tt)
                    (fun _ =>
                       bind (gets SQS.self)
                         (fun s =>
                            ret (VList (py_slice (SQS._result_cache s)
                                          (Z.of_nat start) (Z.of_nat bound))))))
               st).
  { intros _. unfold SQS.__getitem__, k. rewrite bind_ret.
    destruct (0 <=? Z.of_nat start)%Z eqn:E1; [|apply Z.leb_gt in E1; lia].
    destruct (0 <=? Z.of_nat bound)%Z eqn:E2; [|apply Z.leb_gt in E2; lia].
    cbn [andb]. rewrite bind_ret, bind_gets. fold cache.
    destruct (List.length cache <=? 0)%nat eqn:E3; [|reflexivity].
    apply Nat.leb_le in E3. exfalso. apply Hne.
    apply length_zero_iff_nil. fold cache. lia. }
  rewrite (Hpre (fun _ => ret VNone)). clear Hpre.
  split; intros Hex; rewrite Hex.
  2: { rewrite bind_ret, bind_ret, bind_gets. reflexivity. }
  destruct (exists_none_slice _ _ _ Hex) as (Hstart & i & Hi).
  pose proof Hc as (Hrecs & _ & Hcache & _).
  destruct Hcache as [He|Hf]; [contradiction|]. fold cache in Hf.
  pose proof (post_process_list_length _ _ _ Hrecs) as Hn.
  pose proof (filled_from_length _ _ Hf) as Hlen.
  destruct (cache_is_full_ok b _ _ _ _ Hc) as (q & s1 & Hq & Hfull & Hs1).
  fold cache in Hfull. rewrite Hi in Hfull.
  assert (Hnz : (List.length hits =? 0)%nat = false)
    by (apply Nat.eqb_neq; lia).
  rewrite Hnz, andb_false_r in Hfull.
  pose proof (consistent_count _ _ _ _ _ Hc Hs1) as Hc1.
  assert (Hcache1 : SQS._result_cache s1 = cache)
    by (destruct Hs1 as [-> | ->]; reflexivity).
  assert (Hquery1 : SQS.query s1 = SQS.query (SQS.self st))
    by (destruct Hs1 as [-> | ->]; reflexivity).
  set (st1 := {| SQS.self := s1; SQS.store := SQS.store st |}) in *.
  rewrite bind_bind, (bind_ok _ _ _ _ _ Hfull), bind_ret. cbn [negb].
  pose proof Hc1 as (Hrecs1 & _).
  assert (Hq1 : Query.queries (SQS.store st1) !! SQS.query (SQS.self st1) =
                Some q)
    by (cbn [st1 SQS.self SQS.store]; rewrite Hquery1; exact Hq).
  pose proof (fill_cache_ok b hits recs st1 q body start
                (Z.of_nat bound - Z.of_nat start) Hb Hq1
                ltac:(destruct Hc as (_ & (q0 & Hq0 & Hbody & _) & _);
                      rewrite Hq in Hq0; inversion Hq0; exact Hbody)
                Hrecs1 ltac:(lia)) as Hfill.
  cbv zeta in Hfill.
  replace (Z.of_nat start + (Z.of_nat bound - Z.of_nat start))%Z
    with (Z.of_nat bound) in Hfill by lia.
  set (p := page recs (Z.of_nat start) (Z.of_nat bound - Z.of_nat start)) in *.
  assert (Hp : (List.length p =? 0)%nat = false).
  { apply Nat.eqb_neq. unfold p. rewrite length_page. lia. }
  rewrite Hp in Hfill.
  rewrite (bind_ok _ _ _ _ _
             (try_except_ok _ _ _ _ _
                (eq_trans (bind_ok _ (fun _ => ret tt) _ _ _ Hfill) eq_refl))).
  rewrite bind_gets.
  cbn [SQS.self SQS._result_cache SQS.set__result_cache st1].
  rewrite Hcache1.
  assert (Ha : allocated (List.length hits) cache = cache).
  { unfold allocated.
    destruct (List.length cache =? 0)%nat eqn:E; [|reflexivity].
    apply Nat.eqb_eq in E. lia. }
  rewrite Ha.
  pose proof (slice_assigned cache recs start bound Hlen Hstart Hlt) as Hs.
  cbv zeta in Hs. fold p in Hs. rewrite Hs.
  eexists _, q. split; [exact Hq|]. split; [reflexivity|].
  split; [rewrite Hquery1; reflexivity|].
  rewrite window_fetch_call. reflexivity.
Qed.

Lemma getitem_fetches_window_witness :
  let hits := example_hits 5 in
  let recs := map (fun n : nat => VDict [("rank", VInt (Z.of_nat n));
                                         ("doc_type", VStr "item")])
                (seq 0 5) in
  let body := VDict [("query", VDict [("match_all", VDict [])])] in
  let b := paging hits in
  let st := snd (SQS.__getitem__ b 2 (KSlice (Some 0%Z) (Some 2%Z))
                   example_state) in
  paged hits b /\
  consistent hits recs body st /\
  SQS._result_cache (SQS.self st) <> [] /\
  (1 < 4)%nat /\
  existsb is_none (py_slice (SQS._result_cache (SQS.self st)) 1 4) = true /\
  exists (st' : SQS.state) (c : call),
    SQS.__getitem__ b 2 (KSlice (Some 1%Z) (Some 4%Z)) st =
      (Ok (VList (page recs 1 3)), st') /\
    Query.calls (SQS.store st') = Query.calls (SQS.store st) ++ [c] /\
    window c = Some (1%Z, 3%Z).
Proof.
  intros hits recs body b st.
  assert (H1 : paged hits b) by apply paging_paged.
  assert (H2 : consistent hits recs body st).
  { split; [vm_compute; reflexivity|]. split.
    - eexists. split; [vm_compute; reflexivity|].
      split; [reflexivity|right; reflexivity].
    - split; [|left; reflexivity].
      right. vm_compute.
      repeat (constructor; [first [left; reflexivity|right; reflexivity]|]).
      constructor. }
  assert (H3 : SQS._result_cache (SQS.self st) <> []) by (vm_compute; discriminate).
  assert (H4 : (1 < 4)%nat) by lia.
  assert (H5 : existsb is_none
                 (py_slice (SQS._result_cache (SQS.self st)) 1 4) = true)
    by (vm_compute; reflexivity).
  split; [exact H1|]. split; [exact H2|]. split; [exact H3|].
  split; [exact H4|]. split; [exact H5|].
  destruct (proj1 (getitem_fetches_window b 2 hits recs body st 1 4
                     H1 H2 H3 H4) H5)
    as (st' & q & _ & Hget & Hcalls & Hwin).
  exists st'. eexists. split; [exact Hget|]. split; [exact Hcalls|exact Hwin].
Defined.

(** C1, as it is worded, fails: with the slots [0,50) of 75 filled, the
    subscript [25:75] makes one call, and that call asks for the window of
    offset 25 and size 50, not for the window of offset 50 and size 25. *)
Lemma getitem_fetches_filled_slots :
  let b := paging (example_hits 75) in
  let st := snd (SQS.__getitem__ b 20 (KSlice (Some 0%Z) (Some 50%Z))
                   example_state) in
  let st' := snd (SQS.__getitem__ b 20 (KSlice (Some 25%Z) (Some 75%Z)) st) in
  List.length (SQS._result_cache (SQS.self st)) = 75%nat /\
  first_none (SQS._result_cache (SQS.self st)) = 50%nat /\
  exists c : call,
    Query.calls (SQS.store st') = Query.calls (SQS.store st) ++ [c] /\
    window c = Some (25%Z, 50%Z) /\
    window c <> Some (50%Z, 25%Z).
Proof.
  vm_compute. split; [reflexivity|]. split; [reflexivity|].
  eexists. split; [reflexivity|]. split; [reflexivity|discriminate].
Qed.

(** * Further properties *)

(** ** Filters, continued *)

Lemma add_filter_and_appends (kwargs : dict) (filters l0 : list value)
  (q : Query.t) :
  Query.filter_and_terms q = VDict [("must", VList l0)] ->
  Forall2 (fun kv f => renders (fst kv) (snd kv) f) kwargs filters ->
  Query.add_filter_and kwargs q =
  (Ok tt, Query.set_filter_and_terms
            (VDict [("must", VList (l0 ++ filters))]) q).
Proof.
  intros Hq H. unfold Query.add_filter_and. rewrite Hq. cbn [is_none].
  rewrite Hq, (add_filter_items_renders "must" kwargs filters l0 H).
  reflexivity.
Qed.

Lemma add_filter_and_fresh (kwargs : dict) (filters : list value) (q : Query.t) :
  Query.filter_and_terms q = VNone ->
  Forall2 (fun kv f => renders (fst kv) (snd kv) f) kwargs filters ->
  Query.add_filter_and kwargs q =
  (Ok tt, Query.set_filter_and_terms (VDict [("must", VList filters)]) q).
Proof.
  intros Hq H. unfold Query.add_filter_and. rewrite Hq.
  cbn [is_none Query.set_filter_and_terms Query.filter_and_terms].
  rewrite (add_filter_items_renders "must" kwargs filters [] H).
  reflexivity.
Qed.

Lemma add_filter_or_fresh (kwargs : dict) (filters : list value) (q : Query.t) :
  Query.filter_or_terms q = VNone ->
  Forall2 (fun kv f => renders (fst kv) (snd kv) f) kwargs filters ->
  Query.add_filter_or kwargs q =
  (Ok tt, Query.set_filter_or_terms (VDict [("should", VList filters)]) q).
Proof.
  intros Hq H. unfold Query.add_filter_or. rewrite Hq.
  cbn [is_none Query.set_filter_or_terms Query.filter_or_terms].
  rewrite (add_filter_items_renders "should" kwargs filters [] H).
  reflexivity.
Qed.

(** X1. AND criteria and OR criteria live side by side: on a new query,
    whichever of [add_filter_and] and [add_filter_or] is called first, the
    rendered filter has the AND filters under [must] and the OR filters
    under [should], in that order of keys. *)
Theorem filters_and_or_coexist (kand kor : dict) (fand forr : list value)
  (index doc_type : value) :
  Forall2 (fun kv f => renders (fst kv) (snd kv) f) kand fand ->
  Forall2 (fun kv f => renders (fst kv) (snd kv) f) kor forr ->
  let rendered_filters :=
    Ok (VDict [("query", VDict [("match_all", VDict [])]);
               ("filter",
                VDict [("bool", VDict [("must", VList fand);
                                       ("should", VList forr)])])]) in
  Query.build_query
    (snd (Query.add_filter_or kor
            (snd (Query.add_filter_and kand (Query.init index doc_type))))) =
  rendered_filters /\
  Query.build_query
    (snd (Query.add_filter_and kand
            (snd (Query.add_filter_or kor (Query.init index doc_type))))) =
  rendered_filters.
Proof.
  intros Ha Ho rendered_filters. split.
  - rewrite (add_filter_and_fresh kand fand (Query.init index doc_type)
               eq_refl Ha).
    cbn [snd].
    rewrite add_filter_or_fresh with (filters := forr)
      by (first [reflexivity|exact Ho]).
    reflexivity.
  - rewrite (add_filter_or_fresh kor forr (Query.init index doc_type)
               eq_refl Ho).
    cbn [snd].
    rewrite add_filter_and_fresh with (filters := fand)
      by (first [reflexivity|exact Ha]).
    reflexivity.
Qed.

Lemma filters_and_or_coexist_witness :
  let kand := [("price__gte", VInt 10)] in
  let kor := [("brand", VStr "acme"); ("ids", VList [VStr "1"; VStr "2"])] in
  let fand := [range_filter "price" "gte" (VInt 10)] in
  let forr := [term_filter "brand" (VStr "acme");
               ids_filter (VList [VStr "1"; VStr "2"])] in
  Forall2 (fun kv f => renders (fst kv) (snd kv) f) kand fand /\
  Forall2 (fun kv f => renders (fst kv) (snd kv) f) kor forr /\
  Query.build_query
    (snd (Query.add_filter_and kand
            (snd (Query.add_filter_or kor
                    (Query.init (VStr "content") (VStr "item")))))) =
  Ok (VDict [("query", VDict [("match_all", VDict [])]);
             ("filter",
              VDict [("bool", VDict [("must", VList fand);
                                     ("should", VList forr)])])]).
Proof.
  intros kand kor fand forr.
  assert (Ha : Forall2 (fun kv f => renders (fst kv) (snd kv) f) kand fand).
  { constructor; [|constructor].
    exact (renders_range "price" "gte" (VInt 10) eq_refl eq_refl). }
  assert (Ho : Forall2 (fun kv f => renders (fst kv) (snd kv) f) kor forr).
  { constructor; [|constructor; [|constructor]].
    - apply (renders_term "brand" (VStr "acme") eq_refl);
        [discriminate|reflexivity].
    - exact (renders_ids (VList [VStr "1"; VStr "2"])). }
  split; [exact Ha|]. split; [exact Ho|].
  exact (proj2 (filters_and_or_coexist kand kor fand forr
                  (VStr "content") (VStr "item") Ha Ho)).
Defined.

(** X2. Filters pile up: a second [add_filter_and] appends its filters to
    those of the first, in the order of the calls. *)
Theorem add_filter_and_accumulates (k1 k2 : dict) (f1 f2 : list value)
  (q : Query.t) :
  Query.filter_and_terms q = VNone ->
  Forall2 (fun kv f => renders (fst kv) (snd kv) f) k1 f1 ->
  Forall2 (fun kv f => renders (fst kv) (snd kv) f) k2 f2 ->
  Query.add_filter_and k2 (snd (Query.add_filter_and k1 q)) =
  (Ok tt, Query.set_filter_and_terms (VDict [("must", VList (f1 ++ f2))]) q).
Proof.
  intros Hq H1 H2.
  rewrite (add_filter_and_fresh k1 f1 q Hq H1). cbn [snd].
  rewrite add_filter_and_appends with (filters := f2) (l0 := f1)
    by (first [reflexivity|exact H2]).
  reflexivity.
Qed.

Lemma add_filter_and_accumulates_witness :
  let q := Query.init (VStr "content") (VStr "item") in
  let k1 := [("price__gte", VInt 10)] in
  let k2 := [("price__lt", VInt 20)] in
  let f1 := [range_filter "price" "gte" (VInt 10)] in
  let f2 := [range_filter "price" "lt" (VInt 20)] in
  Query.filter_and_terms q = VNone /\
  Forall2 (fun kv f => renders (fst kv) (snd kv) f) k1 f1 /\
  Forall2 (fun kv f => renders (fst kv) (snd kv) f) k2 f2 /\
  Query.filter_and_terms (snd (Query.add_filter_and k2
                                 (snd (Query.add_filter_and k1 q)))) =
  VDict [("must", VList (f1 ++ f2))].
Proof.
  intros q k1 k2 f1 f2.
  assert (H1 : Forall2 (fun kv f => renders (fst kv) (snd kv) f) k1 f1).
  { constructor; [|constructor].
    exact (renders_range "price" "gte" (VInt 10) eq_refl eq_refl). }
  assert (H2 : Forall2 (fun kv f => renders (fst kv) (snd kv) f) k2 f2).
  { constructor; [|constructor].
    exact (renders_range "price" "lt" (VInt 20) eq_refl eq_refl). }
  split; [reflexivity|]. split; [exact H1|]. split; [exact H2|].
  rewrite (add_filter_and_accumulates k1 k2 f1 f2 q eq_refl H1 H2).
  reflexivity.
Defined.

(** X3. An operator that is none of [gt], [gte], [lt], [lte] and [in] is
    dropped without a word: the criterion is rendered as if the key were the
    field alone, a terms filter for a list and a term filter otherwise. *)
Theorem filter_query_unknown_operator (field op : string) (val : value) :
  plain_field field = true -> plain_field op = true ->
  Query.is_range_operator op = false -> op <> "in" ->
  Query.filter_query (field ++ "__" ++ op)%string val =
  Ok (if is_list val then terms_filter field val else term_filter field val).
Proof.
  intros Hf Ho Hr Hin. unfold Query.filter_query.
  rewrite (operator_key_not_ids _ _ Hf), (split_key_operator _ _ Hf Ho).
  cbn [rbind]. rewrite Hr. unfold Query.filter_type.
  apply String.eqb_neq in Hin. rewrite Hin. cbn [orb].
  destruct (is_list val); reflexivity.
Qed.

Lemma filter_query_unknown_operator_witness :
  plain_field "title" = true /\ plain_field "contains" = true /\
  Query.is_range_operator "contains" = false /\ "contains" <> "in" /\
  Query.filter_query "title__contains" (VStr "boot") =
  Ok (term_filter "title" (VStr "boot")).
Proof.
  assert (H : "contains" <> "in") by discriminate.
  repeat (split; [first [reflexivity|exact H]|]).
  exact (filter_query_unknown_operator "title" "contains" (VStr "boot")
           eq_refl eq_refl eq_refl H).
Defined.

Lemma split_key_too_many (a b c : string) :
  plain_field a = true -> plain_field b = true -> plain_field c = true ->
  Query.split_key (a ++ "__" ++ b ++ "__" ++ c)%string = Raise ValueError.
Proof.
  intros Ha Hb Hc. unfold Query.split_key.
  rewrite (split_dunder_plain _ _ Ha), (split_dunder_plain _ _ Hb),
    (split_dunder_field _ Hc).
  reflexivity.
Qed.

(** X4. A key with two separators cannot be unpacked into a field and an
    operator: [add_filter_and] raises [ValueError].  The criteria that came
    before it in the same call have been appended already, and stay. *)
Theorem add_filter_and_two_separators (a b c : string) (val : value)
  (good rest : dict) (filters : list value) (q : Query.t) :
  plain_field a = true -> plain_field b = true -> plain_field c = true ->
  Query.filter_and_terms q = VNone ->
  Forall2 (fun kv f => renders (fst kv) (snd kv) f) good filters ->
  Query.add_filter_and
    (good ++ ((a ++ "__" ++ b ++ "__" ++ c)%string, val) :: rest) q =
  (Raise ValueError,
   Query.set_filter_and_terms (VDict [("must", VList filters)]) q).
Proof.
  intros Ha Hb Hc Hq Hgood.
  assert (Hbad : Query.filter_query (a ++ "__" ++ b ++ "__" ++ c)%string val =
                 Raise ValueError).
  { unfold Query.filter_query.
    rewrite (operator_key_not_ids _ _ Ha), (split_key_too_many _ _ _ Ha Hb Hc).
    reflexivity. }
  assert (Hitems : forall l0,
             Query.add_filter_items "must"
               (good ++ ((a ++ "__" ++ b ++ "__" ++ c)%string, val) :: rest)
               (VDict [("must", VList l0)]) =
             (Raise ValueError, VDict [("must", VList (l0 ++ filters))])).
  { induction Hgood as [|[key v] f good filters Hr _ IH]; intros l0.
    - cbn [app Query.add_filter_items]. rewrite Hbad, app_nil_r. reflexivity.
    - cbn [app Query.add_filter_items]. cbn [fst snd] in Hr.
      rewrite (filter_query_renders _ _ _ Hr).
      cbn [rbind py_getitem py_append py_setitem Dict.lookup Dict.set].
      change (String.eqb "must" "must") with true. cbv iota.
      cbn [rbind py_append].
      rewrite IH, <- app_assoc. reflexivity. }
  unfold Query.add_filter_and. rewrite Hq.
  cbn [is_none Query.set_filter_and_terms Query.filter_and_terms].
  rewrite Hitems. reflexivity.
Qed.

Lemma add_filter_and_two_separators_witness :
  let q := Query.init (VStr "content") (VStr "item") in
  plain_field "author" = true /\ plain_field "name" = true /\
  plain_field "gte" = true /\
  Query.filter_and_terms q = VNone /\
  Query.add_filter_and
    [("price__gte", VInt 10); ("author__name__gte", VStr "m");
     ("brand", VStr "acme")] q =
  (Raise ValueError,
   Query.set_filter_and_terms
     (VDict [("must", VList [range_filter "price" "gte" (VInt 10)])]) q).
Proof.
  intros q.
  repeat (split; [reflexivity|]).
  apply (add_filter_and_two_separators "author" "name" "gte" (VStr "m")
           [("price__gte", VInt 10)] [("brand", VStr "acme")]
           [range_filter "price" "gte" (VInt 10)] q
           eq_refl eq_refl eq_refl eq_refl).
  constructor; [|constructor].
  exact (renders_range "price" "gte" (VInt 10) eq_refl eq_refl).
Defined.

(** ** Sort *)

Lemma sort_item_renders (field : string) (r : value) :
  sort_renders field r -> Query.sort_item (VStr field) = Ok r.
Proof.
  intros [f|f Hf]; cbn; [reflexivity|].
  destruct f as [|c f']; [reflexivity|].
  destruct (Ascii.eqb_spec c "-"%char) as [->|Hc].
  - exfalso. apply (Hf f'). reflexivity.
  - destruct c as [[] [] [] [] [] [] [] []]; try reflexivity.
    exfalso. apply Hc. reflexivity.
Qed.

Lemma sort_items_renders (fields : list string) (rendered_ : list value) :
  Forall2 sort_renders fields rendered_ ->
  Query.sort_items (map VStr fields) = Ok rendered_.
Proof.
  induction 1 as [|f r fields rendered_ Hr _ IH]; [reflexivity|].
  cbn [map Query.sort_items]. rewrite (sort_item_renders _ _ Hr), IH.
  reflexivity.
Qed.

(** X5. [add_sort] renders the fields in the order of the arguments, a
    field with a leading [-] as [{field: "desc"}] and another one as it is,
    and puts the list in the place of the sort the query had: a new query
    renders it under [sort]. *)
Theorem add_sort_renders (fields : list string) (rendered_ : list value) :
  Forall2 sort_renders fields rendered_ ->
  (forall q : Query.t,
      Query.add_sort (map VStr fields) q =
      (Ok tt, Query.set_sort (VList rendered_) q)) /\
  (forall (index doc_type : value) (earlier : list value),
      Query.build_query
        (snd (Query.add_sort (map VStr fields)
                (Query.set_sort (VList earlier) (Query.init index doc_type)))) =
      Ok (VDict [("query", VDict [("match_all", VDict [])]);
                 ("sort", VList rendered_)])).
Proof.
  intros H.
  assert (Hq : forall q : Query.t,
             Query.add_sort (map VStr fields) q =
             (Ok tt, Query.set_sort (VList rendered_) q)).
  { intros q. unfold Query.add_sort. rewrite (sort_items_renders _ _ H).
    reflexivity. }
  split; [exact Hq|]. intros index doc_type earlier. rewrite Hq. reflexivity.
Qed.

Lemma add_sort_renders_witness :
  let fields := ["-price"; "title"] in
  let rendered_ := [VDict [("price", VStr "desc")]; VStr "title"] in
  Forall2 sort_renders fields rendered_ /\
  Query.build_query
    (snd (Query.add_sort (map VStr fields)
            (Query.set_sort (VList [VStr "rank"])
               (Query.init (VStr "content") (VStr "item"))))) =
  Ok (VDict [("query", VDict [("match_all", VDict [])]);
             ("sort", VList rendered_)]).
Proof.
  intros fields rendered_.
  assert (H : Forall2 sort_renders fields rendered_).
  { constructor; [apply sort_renders_desc|].
    constructor; [|constructor].
    apply sort_renders_asc. intros rest. discriminate. }
  split; [exact H|].
  exact (proj2 (add_sort_renders fields rendered_ H)
           (VStr "content") (VStr "item") [VStr "rank"]).
Defined.

(** X6. A field of [sort] that is not a string makes [add_sort] raise
    [AttributeError], and then the query is as it was: the fields before it
    are not kept. *)
Theorem add_sort_not_a_string (args : list value) (q : Query.t) :
  Exists (fun x => forall s, x <> VStr s) args ->
  Query.add_sort args q = (Raise AttributeError, q).
Proof.
  intros H. unfold Query.add_sort.
  assert (E : Query.sort_items args = Raise AttributeError).
  { induction H as [x args Hx|x args _ IH].
    - cbn. destruct x; try reflexivity. exfalso. apply (Hx s). reflexivity.
    - cbn. destruct (Query.sort_item x) as [r|e] eqn:Ex.
      + cbn. rewrite IH. reflexivity.
      + destruct x; try discriminate; cbn in Ex |- *;
          try (inversion Ex; reflexivity).
        destruct s as [|c s]; [discriminate|].
        destruct c as [[] [] [] [] [] [] [] []]; discriminate. }
  rewrite E. reflexivity.
Qed.

Lemma add_sort_not_a_string_witness :
  let q := Query.init (VStr "content") (VStr "item") in
  Exists (fun x => forall s, x <> VStr s) [VStr "-price"; VInt 3] /\
  Query.add_sort [VStr "-price"; VInt 3] q = (Raise AttributeError, q).
Proof.
  intros q.
  assert (H : Exists (fun x => forall s, x <> VStr s) [VStr "-price"; VInt 3]).
  { apply Exists_cons_tl, Exists_cons_hd. intros s. discriminate. }
  split; [exact H|]. exact (add_sort_not_a_string _ q H).
Defined.

(** ** Raw params *)

Lemma dict_lookup_update_out (k : string) (p d : dict) :
  Dict.lookup k p = None ->
  Dict.lookup k (Dict.update d p) = Dict.lookup k d.
Proof.
  unfold Dict.update. revert d.
  induction p as [|[k0 v0] p IH]; intros d Hk; [reflexivity|].
  cbn in Hk |- *. destruct (String.eqb k k0) eqn:E; [discriminate|].
  rewrite (IH _ Hk). apply dict_lookup_set_ne.
  apply String.eqb_neq, E.
Qed.

Lemma dict_lookup_none_keys (k : string) (p : dict) :
  k ∉ map fst p -> Dict.lookup k p = None.
Proof.
  induction p as [|[k0 v0] p IH]; intros Hk; [reflexivity|].
  cbn in Hk |- *. apply not_elem_of_cons in Hk as [Hne Hk].
  apply String.eqb_neq in Hne. rewrite Hne. apply IH, Hk.
Qed.

Lemma dict_lookup_update_in (k : string) (v : value) (p d : dict) :
  NoDup (map fst p) ->
  Dict.lookup k p = Some v ->
  Dict.lookup k (Dict.update d p) = Some v.
Proof.
  unfold Dict.update. revert d.
  induction p as [|[k0 v0] p IH]; intros d Hnd Hk; [discriminate|].
  cbn in Hnd, Hk |- *. apply NoDup_cons in Hnd as [Hk0 Hnd].
  destruct (String.eqb k k0) eqn:E.
  - apply String.eqb_eq in E. subst k0. inversion Hk; subst v0.
    pose proof (dict_lookup_update_out k p (Dict.set k v d)
                  (dict_lookup_none_keys _ _ Hk0)) as H.
    unfold Dict.update in H. rewrite H. apply dict_lookup_set_eq.
  - apply IH; assumption.
Qed.

Lemma build_query_raw_params (q : Query.t) :
  Query.raw_query q = VNone ->
  Query.build_query q =
  rbind (Query.build_query (Query.set_raw_params VNone q))
    (fun query => if negb (is_none (Query.raw_params q))
                  then py_update query (Query.raw_params q)
                  else Ok query).
Proof.
  intros Hraw. unfold Query.build_query.
  cbn [Query.raw_query Query.set_raw_params Query.function_score
       Query.search_terms Query.filter_and_terms Query.filter_or_terms
       Query.facets Query.sort Query.raw_params is_none negb].
  rewrite Hraw. cbn [is_none negb].
  repeat match goal with
         | |- context [rbind ?m _] =>
             lazymatch m with
             | rbind _ _ => fail
             | Ok _ => fail
             | Raise _ => fail
             | _ => idtac
             end;
             destruct m; cbn [rbind]
         end;
    reflexivity.
Qed.

(** X7. Raw params are merged last.  With no raw query, the rendered query
    is the one rendered without the raw params, updated with them: each key
    of the raw params has their value in the output, whatever was rendered
    under it ([query], [filter], [facets], [sort] included), and each other
    key is rendered as without them. *)
Theorem build_query_raw_params_last (q : Query.t) (p d : dict) :
  Query.raw_query q = VNone ->
  Query.raw_params q = VDict p ->
  NoDup (map fst p) ->
  Query.build_query (Query.set_raw_params VNone q) = Ok (VDict d) ->
  exists out : dict,
    Query.build_query q = Ok (VDict out) /\
    (forall k v, Dict.lookup k p = Some v -> Dict.lookup k out = Some v) /\
    (forall k, Dict.lookup k p = None -> Dict.lookup k out = Dict.lookup k d).
Proof.
  intros Hraw Hp Hnd Hbase. exists (Dict.update d p).
  split; [|split].
  - rewrite (build_query_raw_params q Hraw), Hbase, Hp. reflexivity.
  - intros k v Hk. apply dict_lookup_update_in; assumption.
  - intros k Hk. apply dict_lookup_update_out, Hk.
Qed.

Lemma build_query_raw_params_last_witness :
  let p := [("sort", VList [VStr "title"]); ("min_score", VInt 2)] in
  let q := Query.add_raw_params (VDict p)
             (snd (Query.add_sort [VStr "-price"]
                     (Query.init (VStr "content") (VStr "item")))) in
  let d := [("query", VDict [("match_all", VDict [])]);
            ("sort", VList [VDict [("price", VStr "desc")]])] in
  Query.raw_query q = VNone /\
  Query.raw_params q = VDict p /\
  NoDup (map fst p) /\
  Query.build_query (Query.set_raw_params VNone q) = Ok (VDict d) /\
  exists out : dict,
    Query.build_query q = Ok (VDict out) /\
    Dict.lookup "sort" out = Some (VList [VStr "title"]) /\
    Dict.lookup "min_score" out = Some (VInt 2) /\
    Dict.lookup "query" out = Some (VDict [("match_all", VDict [])]).
Proof.
  intros p q d.
  assert (Hnd : NoDup (map fst p)).
  { apply (bool_decide_unpack _). reflexivity. }
  split; [reflexivity|]. split; [reflexivity|]. split; [exact Hnd|].
  split; [reflexivity|].
  destruct (build_query_raw_params_last q p d eq_refl eq_refl Hnd eq_refl)
    as (out & Hout & Hin & Hnot).
  exists out. split; [exact Hout|].
  split; [apply Hin; reflexivity|]. split; [apply Hin; reflexivity|].
  rewrite Hnot; reflexivity.
Defined.

(** ** What running a query leaves alone *)

Lemma preserves_ret {S A : Type} (P : S -> Prop) (a : A) :
  preserves P (ret a).
Proof. intros s H. exact H. Qed.

Lemma preserves_raise {S A : Type} (P : S -> Prop) (e : exn) :
  preserves P (@raise S A e).
Proof. intros s H. exact H. Qed.

Lemma preserves_lift {S A : Type} (P : S -> Prop) (r : result A) :
  preserves P (lift r).
Proof. intros s H. exact H. Qed.

Lemma preserves_gets {S A : Type} (P : S -> Prop) (f : S -> A) :
  preserves P (gets f).
Proof. intros s H. exact H. Qed.

Lemma preserves_bind {S A B : Type} (P : S -> Prop) (m : M S A)
  (f : A -> M S B) :
  preserves P m -> (forall a, preserves P (f a)) -> preserves P (bind m f).
Proof.
  intros Hm Hf s H. specialize (Hm s H). unfold bind.
  destruct (m s) as [[a|e] s']; cbn [snd] in *; [apply Hf, Hm|exact Hm].
Qed.

Lemma preserves_try_except {S A : Type} (P : S -> Prop) (m : M S A)
  (h : exn -> M S A) :
  preserves P m -> (forall e, preserves P (h e)) ->
  preserves P (try_except m h).
Proof.
  intros Hm Hh s H. specialize (Hm s H). unfold try_except.
  destruct (m s) as [[a|e] s']; cbn [snd] in *; [exact Hm|apply Hh, Hm].
Qed.

Lemma preserves_load (l l' : Query.loc) (r : result value) :
  preserves (renders_as l r) (Query.load l').
Proof.
  intros w H. unfold Query.load.
  destruct (Query.queries w !! l'); exact H.
Qed.

Lemma renders_as_put (l l' : Query.loc) (r : result value) (w : Query.world)
  (q q' : Query.t) :
  Query.queries w !! l' = Some q ->
  Query.build_query q' = Query.build_query q ->
  renders_as l r w -> renders_as l r (Query.put l' q' w).
Proof.
  intros Hq Hb (q0 & Hq0 & Hr).
  destruct (Nat.eq_dec l l') as [->|Hne].
  - exists q'. split; [apply (lookup_put _ q); exact Hq|].
    rewrite Hb. rewrite Hq in Hq0. inversion Hq0. exact Hr.
  - exists q0. split; [|exact Hr]. unfold Query.put. cbn.
    rewrite list_lookup_insert_ne by congruence. exact Hq0.
Qed.

Lemma preserves_method (l l' : Query.loc) (r : result value)
  (f : Query.t -> Query.t) :
  (forall q, Query.build_query (f q) = Query.build_query q) ->
  preserves (renders_as l r) (Query.method f l').
Proof.
  intros Hf w H. unfold Query.method, bind, Query.load.
  destruct (Query.queries w !! l') as [q|] eqn:Hq; [|exact H].
  cbn. apply (renders_as_put _ _ _ _ q); [exact Hq|apply Hf|exact H].
Qed.

Lemma preserves_method_r {A : Type} (l l' : Query.loc) (r : result value)
  (f : Query.t -> result A * Query.t) :
  (forall q, Query.build_query (snd (f q)) = Query.build_query q) ->
  preserves (renders_as l r) (Query.method_r f l').
Proof.
  intros Hf w H. unfold Query.method_r, bind, Query.load.
  destruct (Query.queries w !! l') as [q|] eqn:Hq; [|exact H].
  specialize (Hf q). destruct (f q) as [x q']. cbn [snd] in Hf.
  unfold Query.save, modify, lift.
  destruct x; cbn; apply (renders_as_put _ _ _ _ q); assumption.
Qed.

Lemma preserves_backend_call (b : backend) (l : Query.loc) (r : result value)
  (c : call) :
  preserves (renders_as l r) (Query.backend_call b c).
Proof. intros w H. exact H. Qed.

Ltac keeps :=
  repeat first
    [ apply preserves_ret | apply preserves_raise | apply preserves_lift
    | apply preserves_gets | apply preserves_load
    | apply preserves_backend_call
    | apply preserves_method; intros ?; reflexivity
    | apply preserves_bind; [|intros ?]
    | apply preserves_try_except; [|intros ?]
    | match goal with
      | |- preserves _ (if ?c then _ else _) => destruct c
      | |- preserves _ (match ?x with _ => _ end) => destruct x
      end ].

Lemma preserves_keep_results (l l' : Query.loc) (r : result value)
  (results : value) :
  preserves (renders_as l r) (Query.keep_results l' results).
Proof. unfold Query.keep_results. keeps. Qed.

Lemma preserves_run (b : backend) (l l' : Query.loc) (r : result value) :
  preserves (renders_as l r) (Query.run b l').
Proof.
  unfold Query.run. keeps.
Qed.

Lemma preserves_run_mlt (b : backend) (l l' : Query.loc) (r : result value) :
  preserves (renders_as l r) (Query.run_mlt b l').
Proof.
  unfold Query.run_mlt. keeps.
Qed.

Lemma preserves_get_results (b : backend) (l l' : Query.loc)
  (r : result value) :
  preserves (renders_as l r) (Query.get_results b l').
Proof.
  unfold Query.get_results. keeps.
Qed.

Lemma preserves_get_count (b : backend) (l l' : Query.loc)
  (r : result value) :
  preserves (renders_as l r) (Query.get_count b l').
Proof.
  unfold Query.get_count. keeps.
Qed.

Lemma preserves_on_store {A : Type} (l : Query.loc) (r : result value)
  (m : M Query.world A) :
  preserves (renders_as l r) m -> preserves (shows l r) (SQS.on_store m).
Proof.
  intros Hm st [Hl H]. specialize (Hm _ H). unfold SQS.on_store.
  destruct (m (SQS.store st)) as [x w]. split; [exact Hl|exact Hm].
Qed.

Lemma preserves_update_self (l : Query.loc) (r : result value)
  (f : SQS.t -> SQS.t) :
  (forall s, SQS.query (f s) = SQS.query s) ->
  preserves (shows l r) (SQS.update_self f).
Proof.
  intros Hf st [Hl H]. split; [cbn; rewrite Hf; exact Hl|exact H].
Qed.

Ltac keeps_sqs :=
  repeat first
    [ apply preserves_ret | apply preserves_raise | apply preserves_lift
    | apply preserves_gets
    | apply preserves_update_self; intros ?; reflexivity
    | apply preserves_on_store
    | apply preserves_load | apply preserves_get_count
    | apply preserves_get_results
    | apply preserves_run
    | apply preserves_method; intros ?; reflexivity
    | apply preserves_method_r; intros ?; reflexivity
    | apply preserves_bind; [|intros ?]
    | apply preserves_try_except; [|intros ?]
    | match goal with
      | |- preserves _ (if ?c then _ else _) => destruct c
      | |- preserves _ (match ?x with _ => _ end) => destruct x
      end ].

Lemma preserves_len (b : backend) (l : Query.loc) (r : result value) :
  preserves (shows l r) (SQS.__len__ b).
Proof. unfold SQS.__len__. keeps_sqs. Qed.

Lemma preserves_cache_is_full (b : backend) (l : Query.loc)
  (r : result value) :
  preserves (shows l r) (SQS._cache_is_full b).
Proof.
  unfold SQS._cache_is_full. keeps_sqs.
Qed.

Lemma preserves_fill_cache (b : backend) (l : Query.loc) (r : result value)
  (start end_ : Z) :
  preserves (shows l r) (SQS._fill_cache b start end_).
Proof. unfold SQS._fill_cache. keeps_sqs. Qed.

Lemma preserves_getitem (b : backend) (SIZE_PER_QUERY : Z) (l : Query.loc)
  (r : result value) (k : key) :
  preserves (shows l r) (SQS.__getitem__ b SIZE_PER_QUERY k).
Proof.
  unfold SQS.__getitem__. cbv zeta.
  keeps_sqs.
Qed.

Lemma shows_manual_iter (b : backend) (SIZE_PER_QUERY : Z) (l : Query.loc)
  (r : result value) (fuel : nat) :
  forall (pos cmax : Z) (st : SQS.state),
    shows l r st ->
    shows l r (snd (SQS._manual_iter b SIZE_PER_QUERY fuel pos cmax st)).
Proof.
  induction fuel as [|fuel IH]; intros pos cmax st H; [exact H|].
  cbn [SQS._manual_iter].
  destruct (SQS.yield_cached _ _ _) as [ys [e|]]; [exact H|].
  pose proof (preserves_cache_is_full b l r st H) as H1.
  destruct (SQS._cache_is_full b st) as [[[]|e] st1]; cbn [snd] in *;
    try exact H1.
  match goal with
  | |- context [SQS._fill_cache b ?x ?y st1] =>
      pose proof (preserves_fill_cache b l r x y st1 H1) as H2;
      destruct (SQS._fill_cache b x y st1) as [[[]|e] st2]
  end; cbn [snd] in *; try exact H2.
  match goal with
  | |- context [SQS._manual_iter b SIZE_PER_QUERY fuel ?x ?y st2] =>
      specialize (IH x y st2 H2);
      destruct (SQS._manual_iter b SIZE_PER_QUERY fuel x y st2)
        as [[zs o] st3]
  end.
  exact IH.
Qed.

Lemma shows_iter (b : backend) (SIZE_PER_QUERY : Z) (l : Query.loc)
  (r : result value) (fuel : nat) (st : SQS.state) :
  shows l r st ->
  shows l r (snd (SQS.__iter__ b SIZE_PER_QUERY fuel st)).
Proof.
  intros H. unfold SQS.__iter__.
  pose proof (preserves_cache_is_full b l r st H) as H1.
  destruct (SQS._cache_is_full b st) as [[[]|e] st1]; cbn [snd] in *;
    try exact H1.
  apply shows_manual_iter, H1.
Qed.

Lemma shows_rendered (l : Query.loc) (r : result value) (st : SQS.state) :
  shows l r st -> rendered (SQS.self st) (SQS.store st) = r.
Proof.
  intros [Hl (q & Hq & Hr)]. rewrite <- Hr.
  apply rendered_eq. rewrite Hl. exact Hq.
Qed.

Lemma preserves_sqs_get_suggestions (b : backend) (l : Query.loc)
  (r : result value) :
  preserves (shows l r) (SQS.get_suggestions b).
Proof.
  unfold SQS.get_suggestions, Query.get_suggestions. keeps_sqs; keeps.
Qed.

Lemma preserves_facet_counts (b : backend) (l : Query.loc)
  (r : result value) :
  preserves (shows l r) (SQS.facet_counts b).
Proof.
  unfold SQS.facet_counts, Query.get_facet_counts. keeps_sqs; keeps.
Qed.

(** X8. Reading results never changes the query that is shown.  After a
    subscript, [len], a traversal, [get_suggestions] or [facet_counts],
    whether it returned or raised and whatever the backend answered, the
    queryset references the same query and [show_query] returns what it
    returned before. *)
Theorem reads_keep_rendering (b : backend) (SIZE_PER_QUERY : Z) (k : key)
  (fuel : nat) (st : SQS.state) (q : Query.t) :
  Query.queries (SQS.store st) !! SQS.query (SQS.self st) = Some q ->
  let same (st' : SQS.state) :=
    SQS.query (SQS.self st') = SQS.query (SQS.self st) /\
    rendered (SQS.self st') (SQS.store st') =
    rendered (SQS.self st) (SQS.store st) in
  same (snd (SQS.__getitem__ b SIZE_PER_QUERY k st)) /\
  same (snd (SQS.__len__ b st)) /\
  same (snd (SQS.__iter__ b SIZE_PER_QUERY fuel st)) /\
  same (snd (SQS.get_suggestions b st)) /\
  same (snd (SQS.facet_counts b st)).
Proof.
  intros Hq same.
  assert (H : shows (SQS.query (SQS.self st)) (Query.build_query q) st).
  { split; [reflexivity|]. exists q. auto. }
  assert (Hsame : forall st',
             shows (SQS.query (SQS.self st)) (Query.build_query q) st' ->
             same st').
  { intros st' H'. split; [apply H'|].
    rewrite (shows_rendered _ _ _ H'), (shows_rendered _ _ _ H).
    reflexivity. }
  split; [apply Hsame, preserves_getitem, H|].
  split; [apply Hsame, preserves_len, H|].
  split; [apply Hsame, shows_iter, H|].
  split; [apply Hsame, preserves_sqs_get_suggestions, H|].
  apply Hsame, preserves_facet_counts, H.
Qed.

Lemma reads_keep_rendering_witness :
  let b := paging (example_hits 3) in
  let st := example_state in
  Query.queries (SQS.store st) !! SQS.query (SQS.self st) =
    Some (Query.init (VStr "content") (VStr "item")) /\
  rendered (SQS.self (snd (SQS.__iter__ b 2 4 st)))
    (SQS.store (snd (SQS.__iter__ b 2 4 st))) =
  Ok (VDict [("query", VDict [("match_all", VDict [])])]).
Proof.
  intros b st. split; [reflexivity|].
  destruct (reads_keep_rendering b 2 (KInt 0) 4 st _ eq_refl)
    as (_ & _ & [_ H] & _).
  rewrite H. reflexivity.
Defined.

(** ** Facets *)

Lemma facet_filter_item_renders (key : string) (val f : value)
  (facet : dict) :
  facet_renders key val f ->
  Query.add_facet_filter_item key val (VDict facet) =
  match Dict.lookup "facet_filter" facet with
  | Some ff =>
      let* l := py_getitem ff "and" in
      let* l' := py_append l f in
      let* ff' := py_setitem ff "and" l' in
      Ok (VDict (Dict.set "facet_filter" ff' facet))
  | None =>
      Ok (VDict (Dict.set "facet_filter" (VDict [("and", VList [f])])
                   (Dict.set "facet_filter" (VDict [("and", VList [])]) facet)))
  end.
Proof.
  intros H. unfold Query.add_facet_filter_item.
  assert (Hs : exists field operator,
             Query.split_key key = Ok (field, operator) /\
             VDict [(Query.filter_type operator val, VDict [(field, val)])] = f).
  { destruct H as [field v Hf|field v Hf|field op v Hf Ho Hin].
    - exists field, None. split; [apply split_key_field, Hf|].
      unfold Query.filter_type. cbn [orb]. destruct (is_list v); reflexivity.
    - exists field, (Some "in"). split; [|reflexivity].
      change (field ++ "__in")%string with (field ++ "__" ++ "in")%string.
      apply split_key_operator; [exact Hf|reflexivity].
    - exists field, (Some op). split; [apply split_key_operator; assumption|].
      unfold Query.filter_type. apply String.eqb_neq in Hin. rewrite Hin.
      cbn [orb]. destruct (is_list v); reflexivity. }
  destruct Hs as (field & operator & Hsplit & Hf). rewrite Hsplit.
  cbn [rbind py_setdefault]. rewrite Hf.
  destruct (Dict.lookup "facet_filter" facet) as [ff|]; [reflexivity|].
  cbn [rbind py_getitem Dict.lookup]. cbn.
  reflexivity.
Qed.

Lemma facet_filter_items_append (items : dict) (filters l0 : list value)
  (terms : value) :
  Forall2 (fun kv f => facet_renders (fst kv) (snd kv) f) items filters ->
  Query.add_facet_filter_items items
    (VDict [("terms", terms);
            ("facet_filter", VDict [("and", VList l0)])]) =
  (Ok tt, VDict [("terms", terms);
                 ("facet_filter", VDict [("and", VList (l0 ++ filters))])]).
Proof.
  intros H. revert l0.
  induction H as [|[key val] f items filters Hr _ IH]; intros l0.
  - cbn. rewrite app_nil_r. reflexivity.
  - cbn [Query.add_facet_filter_items]. cbn [fst snd] in Hr.
    rewrite (facet_filter_item_renders _ _ _ _ Hr). cbn.
    rewrite IH, <- app_assoc. reflexivity.
Qed.

Lemma facet_filter_items_first (items : dict) (filters : list value)
  (terms : dict) :
  Forall2 (fun kv f => facet_renders (fst kv) (snd kv) f) items filters ->
  Query.add_facet_filter_items items (VDict [("terms", VDict terms)]) =
  (Ok tt, terms_facet terms filters).
Proof.
  intros H. destruct H as [|[key val] f items filters Hr H]; [reflexivity|].
  cbn [Query.add_facet_filter_items]. cbn [fst snd] in Hr.
  rewrite (facet_filter_item_renders _ _ _ _ Hr). cbn.
  rewrite (facet_filter_items_append _ _ [f] _ H). reflexivity.
Qed.

Lemma dict_set_set (k : string) (v v' : value) (d : dict) :
  Dict.set k v' (Dict.set k v d) = Dict.set k v' d.
Proof.
  induction d as [|[k0 v0] d IH]; cbn.
  - rewrite String.eqb_refl. reflexivity.
  - destruct (String.eqb k k0) eqn:E; cbn.
    + rewrite String.eqb_refl. reflexivity.
    + rewrite E, IH. reflexivity.
Qed.

Lemma add_term_facet_sets (field : string) (kwargs : dict) (others : dict)
  (q : Query.t) :
  facets_of (Query.facets q) others ->
  Query.add_term_facet field kwargs q =
  (Ok tt,
   Query.set_facets
     (VDict (Dict.set field
               (terms_facet (Dict.update [("field", VStr field)] kwargs) [])
               others))
     q).
Proof.
  intros [[Hq ->]|Hq]; unfold Query.add_term_facet; rewrite Hq; reflexivity.
Qed.

Lemma add_term_facet_filter_new (field : string) (filter_query : dict)
  (filters : list value) (others : dict) (q : Query.t) :
  without_facet field (Query.facets q) others ->
  Forall2 (fun kv f => facet_renders (fst kv) (snd kv) f) filter_query filters ->
  Query.add_term_facet_filter field filter_query q =
  (Ok tt,
   Query.set_facets
     (VDict (Dict.set field (terms_facet [("field", VStr field)] filters)
               others))
     q).
Proof.
  intros [Hof Hfield] H.
  assert (Hfirst :
    (if is_none (Query.facets q)
     then Query.add_term_facet field [] q
     else match py_get (Query.facets q) field with
          | Ok v => if negb (truthy v) then Query.add_term_facet field [] q
                    else (Ok tt, q)
          | Raise e => (Raise e, q)
          end) =
    (Ok tt,
     Query.set_facets
       (VDict (Dict.set field (VDict [("terms", VDict [("field", VStr field)])])
                 others))
       q)).
  { pose proof (add_term_facet_sets field [] others q Hof) as Hadd.
    destruct Hof as [[Hq ->]|Hq]; rewrite Hq in *; cbn [is_none];
      [exact Hadd|].
    unfold py_get, py_get_default.
    destruct (Dict.lookup field others) as [v|];
      [rewrite Hfield|]; exact Hadd. }
  unfold Query.add_term_facet_filter. rewrite Hfirst.
  cbn [Query.facets Query.set_facets py_getitem].
  rewrite dict_lookup_set_eq.
  rewrite (facet_filter_items_first _ _ _ H).
  cbn [py_setitem]. rewrite dict_set_set. reflexivity.
Qed.

(** X9. A facet filter on a field that has no facet yet makes the terms
    facet first, whether the query has no facets at all or has the facets of
    other fields, which stay as they are.  Its criteria are rendered in
    order under [facet_filter.and]: a terms filter for the operator [in] or
    a list, a term filter for anything else.  A range operator is not a
    range here: [price__gte] gives a term filter on [price]. *)
Theorem add_term_facet_filter_renders (field : string) (filter_query : dict)
  (filters : list value) (others : dict) (q : Query.t) :
  without_facet field (Query.facets q) others ->
  Forall2 (fun kv f => facet_renders (fst kv) (snd kv) f) filter_query filters ->
  Query.add_term_facet_filter field filter_query q =
  (Ok tt,
   Query.set_facets
     (VDict (Dict.set field (terms_facet [("field", VStr field)] filters)
               others))
     q) /\
  Dict.lookup field
    (Dict.set field (terms_facet [("field", VStr field)] filters) others) =
    Some (terms_facet [("field", VStr field)] filters) /\
  forall other : string,
    other <> field ->
    Dict.lookup other
      (Dict.set field (terms_facet [("field", VStr field)] filters) others) =
    Dict.lookup other others.
Proof.
  intros Hw H. split; [|split].
  - destruct Hw as [Hof Hfield].
    assert (Hfirst :
      (if is_none (Query.facets q)
       then Query.add_term_facet field [] q
       else match py_get (Query.facets q) field with
            | Ok v => if negb (truthy v) then Query.add_term_facet field [] q
                      else (Ok tt, q)
            | Raise e => (Raise e, q)
            end) =
      (Ok tt,
       Query.set_facets
         (VDict (Dict.set field
                   (VDict [("terms", VDict [("field", VStr field)])]) others))
         q)).
    { pose proof (add_term_facet_sets field [] others q Hof) as Hadd.
      destruct Hof as [[Hq ->]|Hq]; rewrite Hq in *; cbn [is_none];
        [exact Hadd|].
      unfold py_get, py_get_default.
      destruct (Dict.lookup field others) as [v|];
        [rewrite Hfield|]; exact Hadd. }
    unfold Query.add_term_facet_filter. rewrite Hfirst.
    cbn [Query.facets Query.set_facets py_getitem].
    rewrite dict_lookup_set_eq.
    rewrite (facet_filter_items_first _ _ _ H).
    cbn [py_setitem]. rewrite dict_set_set. reflexivity.
  - apply dict_lookup_set_eq.
  - intros other Hne. apply dict_lookup_set_ne, Hne.
Qed.

Lemma add_term_facet_filter_renders_witness :
  let q := snd (Query.add_term_facet "brand" [("size", VInt 5)]
                  (Query.init (VStr "content") (VStr "item"))) in
  let others := [("brand",
                  VDict [("terms",
                          VDict [("field", VStr "brand"); ("size", VInt 5)])])] in
  let filter_query := [("price__gte", VInt 10);
                       ("brand__in", VList [VStr "a"; VStr "b"])] in
  let filters := [term_filter "price" (VInt 10);
                  terms_filter "brand" (VList [VStr "a"; VStr "b"])] in
  without_facet "category" (Query.facets q) others /\
  Forall2 (fun kv f => facet_renders (fst kv) (snd kv) f) filter_query filters /\
  Query.build_query (snd (Query.add_term_facet_filter "category" filter_query q)) =
  Ok (VDict [("query", VDict [("match_all", VDict [])]);
             ("facets",
              VDict [("brand",
                      VDict [("terms",
                              VDict [("field", VStr "brand");
                                     ("size", VInt 5)])]);
                     ("category",
                      VDict [("terms", VDict [("field", VStr "category")]);
                             ("facet_filter",
                              VDict [("and", VList filters)])])])]).
Proof.
  intros q others filter_query filters.
  assert (Hw : without_facet "category" (Query.facets q) others)
    by (split; [right; reflexivity|exact I]).
  assert (H : Forall2 (fun kv f => facet_renders (fst kv) (snd kv) f)
                filter_query filters).
  { constructor; [|constructor; [|constructor]].
    - apply (facet_renders_operator "price" "gte" (VInt 10) eq_refl eq_refl).
      discriminate.
    - exact (facet_renders_in "brand" (VList [VStr "a"; VStr "b"]) eq_refl). }
  split; [exact Hw|]. split; [exact H|].
  destruct (add_term_facet_filter_renders "category" filter_query filters
              others q Hw H) as [Hrun _].
  rewrite Hrun. reflexivity.
Defined.

(** X10. [add_term_facet] on a field that has a facet puts a new facet in
    its place: the filters that [add_term_facet_filter] gave to the earlier
    facet are gone, the facets of the other fields stay. *)
Theorem add_term_facet_drops_filter (field : string) (kwargs : dict)
  (facets : dict) (q : Query.t) :
  Query.facets q = VDict facets ->
  exists facets' : dict,
    Query.add_term_facet field kwargs q =
      (Ok tt, Query.set_facets (VDict facets') q) /\
    Dict.lookup field facets' =
      Some (terms_facet (Dict.update [("field", VStr field)] kwargs) []) /\
    forall other, other <> field ->
                  Dict.lookup other facets' = Dict.lookup other facets.
Proof.
  intros Hq. eexists. split; [|split].
  - unfold Query.add_term_facet. rewrite Hq. cbn [is_none py_update].
    reflexivity.
  - unfold Dict.update at 1. cbn [fold_left fst snd].
    apply dict_lookup_set_eq.
  - intros other Hne. unfold Dict.update at 1. cbn [fold_left fst snd].
    apply dict_lookup_set_ne, Hne.
Qed.

Lemma add_term_facet_drops_filter_witness :
  let q := snd (Query.add_term_facet_filter "category"
                  [("brand", VStr "acme")]
                  (Query.init (VStr "content") (VStr "item"))) in
  Query.facets q =
    VDict [("category",
            VDict [("terms", VDict [("field", VStr "category")]);
                   ("facet_filter",
                    VDict [("and", VList [term_filter "brand" (VStr "acme")])])])] /\
  exists facets' : dict,
    Query.facets (snd (Query.add_term_facet "category" [("size", VInt 5)] q)) =
      VDict facets' /\
    Dict.lookup "category" facets' =
      Some (VDict [("terms", VDict [("field", VStr "category");
                                    ("size", VInt 5)])]).
Proof.
  intros q. split; [reflexivity|].
  destruct (add_term_facet_drops_filter "category" [("size", VInt 5)] _ q
              eq_refl) as (facets' & Hadd & Hfield & _).
  exists facets'. rewrite Hadd. split; [reflexivity|exact Hfield].
Defined.

(** ** Facet counts and suggestions *)

Lemma dict_set_fresh (k : string) (v : value) (d : dict) :
  k ∉ map fst d -> Dict.set k v d = d ++ [(k, v)].
Proof.
  induction d as [|[k0 v0] d IH]; intros Hk; [reflexivity|].
  cbn in Hk |- *. apply not_elem_of_cons in Hk as [Hne Hk].
  apply String.eqb_neq in Hne. rewrite Hne, (IH Hk). reflexivity.
Qed.

Lemma facet_terms_tuples (buckets tuples : list value) :
  Forall2 bucket_tuple buckets tuples ->
  Query.facet_terms buckets = Ok tuples.
Proof.
  induction 1 as [|b t buckets tuples (d & term & count & -> & Ht & Hc & ->) _ IH];
    [reflexivity|].
  cbn [Query.facet_terms py_getitem]. rewrite Ht, Hc. cbn [rbind].
  rewrite IH. reflexivity.
Qed.

Lemma process_facet_items_tuples (items counts acc : dict) :
  NoDup (map fst acc ++ map fst items) ->
  Forall2 (fun kv out => fst out = fst kv /\
                         exists tuples, snd out = VList tuples /\
                                        facet_tuples (snd kv) tuples)
    items counts ->
  Query.process_facet_items items acc = Ok (acc ++ counts).
Proof.
  intros Hnd H. revert acc Hnd.
  induction H as [|[field details] [field' out] items counts
                    [Hf (tuples & Hout & (d & buckets & Hd & Hterms & Hb))] _ IH];
    intros acc Hnd.
  - cbn. rewrite app_nil_r. reflexivity.
  - cbn [fst snd] in *. subst field' out details.
    cbn [Query.process_facet_items py_get py_get_default]. rewrite Hterms.
    cbn [rbind py_iter]. rewrite (facet_terms_tuples _ _ Hb). cbn [rbind].
    cbn [map fst] in Hnd.
    rewrite dict_set_fresh.
    + rewrite IH.
      * rewrite <- app_assoc. reflexivity.
      * rewrite map_app. cbn [map fst]. rewrite <- app_assoc. exact Hnd.
    + apply NoDup_app in Hnd as (_ & Hdisj & _).
      intros Hin. apply (Hdisj _ Hin). left.
Qed.

(** X11. [process_facets] turns the answer for each facet into the list of
    the pairs (term, count) of its buckets, in the order of the backend, and
    keeps the facets under their names and in their order. *)
Theorem process_facets_tuples (facet_result counts : dict) :
  NoDup (map fst facet_result) ->
  Forall2 (fun kv out => fst out = fst kv /\
                         exists tuples, snd out = VList tuples /\
                                        facet_tuples (snd kv) tuples)
    facet_result counts ->
  Query.process_facets (VDict facet_result) = Ok (VDict counts).
Proof.
  intros Hnd H. unfold Query.process_facets. cbn [py_items rbind].
  rewrite (process_facet_items_tuples facet_result counts [] Hnd H).
  reflexivity.
Qed.

Lemma process_facets_tuples_witness :
  let buckets := VList [VDict [("term", VStr "red"); ("count", VInt 3)];
                        VDict [("term", VStr "blue"); ("count", VInt 1)]] in
  let facet_result := [("colour", VDict [("_type", VStr "terms");
                                          ("terms", buckets)])] in
  let counts := [("colour", VList [VTuple [VStr "red"; VInt 3];
                                   VTuple [VStr "blue"; VInt 1]])] in
  NoDup (map fst facet_result) /\
  Query.process_facets (VDict facet_result) = Ok (VDict counts).
Proof.
  intros buckets facet_result counts.
  assert (Hnd : NoDup (map fst facet_result))
    by (apply (bool_decide_unpack _); reflexivity).
  split; [exact Hnd|].
  apply (process_facets_tuples facet_result counts Hnd).
  constructor; [|constructor].
  split; [reflexivity|]. eexists. split; [reflexivity|].
  eexists _, _. split; [reflexivity|]. split; [reflexivity|].
  constructor; [|constructor; [|constructor]];
    eexists _, _, _; repeat split; reflexivity.
Defined.

(** X12. A facet whose answer has no [terms] (a facet of another kind, for
    one) stops [process_facets] with [TypeError]: the loop goes over
    [facet_details.get('terms')], which is [None]. *)
Theorem process_facets_without_terms (good rest counts : dict)
  (field : string) (details : dict) :
  Forall2 (fun kv out => fst out = fst kv /\
                         exists tuples, snd out = VList tuples /\
                                        facet_tuples (snd kv) tuples)
    good counts ->
  Dict.lookup "terms" details = None ->
  Query.process_facets (VDict (good ++ (field, VDict details) :: rest)) =
  Raise TypeError.
Proof.
  intros H Hterms. unfold Query.process_facets. cbn [py_items rbind].
  assert (E : forall acc,
             Query.process_facet_items
               (good ++ (field, VDict details) :: rest) acc = Raise TypeError).
  { induction H as [|[f dt] [f' out] good counts
                      [Hf (tuples & Hout & (d & buckets & Hd & Ht & Hb))] _ IH];
      intros acc.
    - cbn [app Query.process_facet_items py_get py_get_default].
      rewrite Hterms. reflexivity.
    - cbn [fst snd] in *. subst dt.
      cbn [app Query.process_facet_items py_get py_get_default]. rewrite Ht.
      cbn [rbind py_iter]. rewrite (facet_terms_tuples _ _ Hb). cbn [rbind].
      apply IH. }
  rewrite E. reflexivity.
Qed.

Lemma process_facets_without_terms_witness :
  Dict.lookup "terms" [("_type", VStr "statistical"); ("count", VInt 7)] = None /\
  Query.process_facets
    (VDict [("price", VDict [("_type", VStr "statistical");
                             ("count", VInt 7)])]) = Raise TypeError.
Proof.
  split; [reflexivity|].
  apply (process_facets_without_terms [] [] [] "price"
           [("_type", VStr "statistical"); ("count", VInt 7)]);
    [constructor|reflexivity].
Defined.

Lemma suggestion_terms_suggests (terms : list value) (outs acc : dict) :
  NoDup (map fst acc ++ map fst outs) ->
  Forall2 (fun t out => suggests t (fst out) (snd out)) terms outs ->
  Query.suggestion_terms terms acc = Ok (acc ++ outs).
Proof.
  intros Hnd H. revert acc Hnd.
  induction H as [|t [text sugg] terms outs
                    (d & options & -> & Htext & Hopt & Hs) _ IH];
    intros acc Hnd.
  - cbn. rewrite app_nil_r. reflexivity.
  - cbn [fst snd] in *.
    cbn [Query.suggestion_terms py_getitem]. rewrite Hopt, Htext.
    cbn [rbind].
    assert (Hv : (if truthy options
                  then let* o := py_subscript options (VInt 0) in
                       py_getitem o "text"
                  else Ok VNone) = Ok sugg).
    { destruct Hs as [[Ht ->]|(o & rest & -> & Ho)].
      - rewrite Ht. reflexivity.
      - cbn. exact Ho. }
    rewrite Hv. cbn [rbind].
    cbn [map fst] in Hnd.
    rewrite dict_set_fresh.
    + rewrite IH.
      * rewrite <- app_assoc. reflexivity.
      * rewrite map_app. cbn [map fst]. rewrite <- app_assoc. exact Hnd.
    + apply NoDup_app in Hnd as (_ & Hdisj & _).
      intros Hin. apply (Hdisj _ Hin). left.
Qed.

(** X13. [process_suggestions] reads the terms under the field of the
    suggestion and maps the text of each term to the text of its first
    option, or to [None] when it has no option. *)
Theorem process_suggestions_suggests (q : Query.t) (field : string)
  (suggestion_result : dict) (terms : list value) (outs : dict) :
  Dict.lookup "suggest_field" (Query.params q) = Some (VStr field) ->
  Dict.lookup field suggestion_result = Some (VList terms) ->
  NoDup (map fst outs) ->
  Forall2 (fun t out => suggests t (fst out) (snd out)) terms outs ->
  Query.process_suggestions q (VDict suggestion_result) = Ok (VDict outs).
Proof.
  intros Hf Hr Hnd H. unfold Query.process_suggestions.
  cbn [is_none py_getitem]. rewrite Hf. cbn [rbind py_subscript py_getitem].
  rewrite Hr. cbn [rbind py_iter].
  rewrite (suggestion_terms_suggests terms outs [] Hnd H). reflexivity.
Qed.

Lemma process_suggestions_suggests_witness :
  let q := Query.add_suggestion (VStr "shoos bleu") (VStr "title")
             (VStr "missing") (VInt 1)
             (Query.init (VStr "content") (VStr "item")) in
  let terms := [VDict [("text", VStr "shoos");
                       ("options", VList [VDict [("text", VStr "shoes");
                                                 ("score", VInt 1)]])];
                VDict [("text", VStr "bleu"); ("options", VList [])]] in
  let outs := [("shoos", VStr "shoes"); ("bleu", VNone)] in
  Dict.lookup "suggest_field" (Query.params q) = Some (VStr "title") /\
  NoDup (map fst outs) /\
  Query.process_suggestions q (VDict [("title", VList terms)]) =
  Ok (VDict outs).
Proof.
  intros q terms outs.
  assert (Hnd : NoDup (map fst outs))
    by (apply (bool_decide_unpack _); reflexivity).
  split; [reflexivity|]. split; [exact Hnd|].
  apply (process_suggestions_suggests q "title" [("title", VList terms)]
           terms outs eq_refl eq_refl Hnd).
  constructor; [|constructor; [|constructor]].
  - eexists _, _. split; [reflexivity|]. split; [reflexivity|].
    split; [reflexivity|]. right. eexists _, _. split; reflexivity.
  - eexists _, _. split; [reflexivity|]. split; [reflexivity|].
    split; [reflexivity|]. left. split; reflexivity.
Defined.

(** ** An answer with suggestions that were not asked for *)

Lemma run_raises_suggest (b : backend) (l : Query.loc) (q : Query.t)
  (w : Query.world) (body r hits total fc s : value) :
  Query.queries w !! l = Some q ->
  Query.build_query q = Ok body ->
  b (Query.calls w) (search_call q body) = Ok r ->
  answer r hits total fc ->
  py_get_default r "suggest" VNone = Ok s ->
  is_none s = false ->
  Dict.lookup "suggest_field" (Query.params q) = None ->
  Query.run b l w =
  (Raise (KeyError (VStr "suggest_field")),
   Query.put l
     (Query.set__facet_counts fc
        (Query.set__hit_count total
           (Query.set__results hits
              (Query.set_params
                 (Dict.set "size" (VInt (Query.size q))
                    (Dict.set "from_" (VInt (Query.offset q))
                       (Query.params q))) q))))
     (Query.logged (search_call q body) w)).
Proof.
  intros Hq Hbody Hb Hr Hs Hnone Hfield. unfold Query.run.
  rewrite (bind_ok _ _ _ _ _ (load_ok _ _ _ Hq)), Hbody, bind_lift_Ok.
  rewrite (bind_ok _ _ _ _ _ (method_ok _ _ _ _ Hq)).
  match goal with
  | |- context [Query.put l ?x w] =>
      pose proof (lookup_put l q x w Hq) as Hq1
  end.
  rewrite (bind_ok _ _ _ _ _ (method_ok _ _ _ _ Hq1)), put_put.
  match goal with
  | |- context [Query.put l ?x w] =>
      pose proof (lookup_put l q x w Hq) as Hq2
  end.
  rewrite (bind_ok _ _ _ _ _ (load_ok _ _ _ Hq2)).
  unfold bind at 1, Query.backend_call.
  cbn [Query.calls Query.put Query.index Query.doc_type Query.params
       Query.set_params Query.offset Query.size].
  fold (search_call q body). rewrite Hb.
  match goal with
  | |- Query.keep_results l r ?w' = _ =>
      assert (Hq3 : Query.queries w' !! l = Some
                (Query.set_params
                   (Dict.set "size" (VInt (Query.size q))
                      (Dict.set "from_" (VInt (Query.offset q))
                         (Query.params q))) q))
        by exact Hq2
  end.
  rewrite (keep_results_ok _ _ _ _ _ _ _ Hq3 Hr), Hs.
  cbn [rbind]. unfold Query.process_suggestions. rewrite Hnone.
  cbn [py_getitem Query.params Query.set_params].
  rewrite !dict_lookup_set_ne by discriminate. rewrite Hfield.
  cbn [rbind]. rewrite put_logged, put_put. reflexivity.
Qed.

(** X14. When the answer of the backend has a [suggest] section and the
    query has no suggestion field, [get_results] raises [KeyError] on
    [suggest_field], after the call on the backend and after the hits and
    their total have been kept: a second [get_results] makes no call and
    returns the hits of the answer. *)
Theorem get_results_unasked_suggest (b : backend) (l : Query.loc)
  (q : Query.t) (w : Query.world) (body r hits total fc s : value) :
  Query.queries w !! l = Some q ->
  Query._results q = VNone ->
  Query.mlt_query q = false ->
  Query.build_query q = Ok body ->
  b (Query.calls w) (search_call q body) = Ok r ->
  answer r hits total fc ->
  py_get_default r "suggest" VNone = Ok s ->
  is_none s = false ->
  is_none hits = false ->
  Dict.lookup "suggest_field" (Query.params q) = None ->
  exists w1 : Query.world,
    Query.get_results b l w = (Raise (KeyError (VStr "suggest_field")), w1) /\
    Query.calls w1 = Query.calls w ++ [search_call q body] /\
    Query.get_results b l w1 = (Ok hits, w1).
Proof.
  intros Hq Hres Hmlt Hbody Hb Hr Hs Hnone Hhits Hfield.
  eexists. split; [|split].
  - unfold Query.get_results.
    rewrite (bind_ok _ _ _ _ _ (load_ok _ _ _ Hq)), Hres, Hmlt.
    cbn [is_none].
    apply bind_raise.
    exact (run_raises_suggest b l q w body r hits total fc s
             Hq Hbody Hb Hr Hs Hnone Hfield).
  - reflexivity.
  - unfold Query.get_results.
    match goal with
    | |- context [Query.put l ?x (Query.logged ?c w)] =>
        pose proof (lookup_put l q x (Query.logged c w) Hq) as Hq1
    end.
    rewrite (bind_ok _ _ _ _ _ (load_ok _ _ _ Hq1)).
    cbn [Query._results Query.set__facet_counts Query.set__hit_count
         Query.set__results].
    rewrite Hhits, bind_ret, (bind_ok _ _ _ _ _ (load_ok _ _ _ Hq1)).
    reflexivity.
Qed.

Lemma get_results_unasked_suggest_witness :
  let q := Query.init (VStr "content") (VStr "item") in
  let w := {| Query.queries := [q]; Query.calls := [] |} in
  let hits := VList [example_hit 0] in
  let r := VDict [("hits", VDict [("hits", hits); ("total", VInt 1)]);
                  ("suggest", VDict [("title", VList [])])] in
  let b : backend := fun _ _ => Ok r in
  exists w1 : Query.world,
    Query.get_results b 0%nat w =
      (Raise (KeyError (VStr "suggest_field")), w1) /\
    List.length (Query.calls w1) = 1%nat /\
    Query.get_results b 0%nat w1 = (Ok hits, w1).
Proof.
  intros q w hits r b.
  destruct (get_results_unasked_suggest b 0%nat q w
              (VDict [("query", VDict [("match_all", VDict [])])])
              r hits (VInt 1) (VDict []) (VDict [("title", VList [])])
              eq_refl eq_refl eq_refl eq_refl eq_refl)
    as (w1 & H1 & H2 & H3); try reflexivity.
  - eexists. repeat split; reflexivity.
  - exists w1. split; [exact H1|]. split; [rewrite H2; reflexivity|exact H3].
Defined.

(** ** One run serves the later reads *)

Lemma process_facets_not_none (f fc : value) :
  Query.process_facets f = Ok fc -> is_none fc = false.
Proof.
  unfold Query.process_facets.
  destruct (py_items f) as [items|]; cbn [rbind]; [|discriminate].
  destruct (Query.process_facet_items items []); cbn [rbind]; [|discriminate].
  intros E. inversion E. reflexivity.
Qed.

Lemma answer_facets_not_none (r hits total fc : value) :
  answer r hits total fc -> is_none fc = false.
Proof.
  intros (h & _ & _ & _ & Hfc).
  destruct (py_get_default r "facets" (VDict [])) as [f|]; cbn [rbind] in Hfc;
    [|discriminate].
  eapply process_facets_not_none, Hfc.
Qed.

(** X15. [get_facet_counts] runs the query when no facet counts are kept,
    and always as a plain search, in similarity mode too ([run], not
    [run_mlt]).  Once an answer has been kept, facet counts are never
    [None] again, so the next [get_facet_counts] makes no call. *)
Theorem get_facet_counts_once (b : backend) (l : Query.loc) (q : Query.t)
  (w : Query.world) (body r hits total fc : value) :
  Query.queries w !! l = Some q ->
  Query._facet_counts q = VNone ->
  Query.build_query q = Ok body ->
  b (Query.calls w) (search_call q body) = Ok r ->
  answer r hits total fc ->
  py_get_default r "suggest" VNone = Ok VNone ->
  exists w1 : Query.world,
    Query.get_facet_counts b l w = (Ok fc, w1) /\
    Query.calls w1 = Query.calls w ++ [search_call q body] /\
    Query.get_facet_counts b l w1 = (Ok fc, w1).
Proof.
  intros Hq Hnone Hbody Hb Hr Hs.
  pose proof (run_ok b l q w body r hits total fc Hq Hbody Hb Hr Hs) as Hrun.
  set (w1 := Query.put l (ran hits total fc VNone q)
               (Query.logged (search_call q body) w)) in *.
  assert (Hq1 : Query.queries w1 !! l = Some (ran hits total fc VNone q))
    by (apply (lookup_put l q); exact Hq).
  exists w1. split; [|split; [reflexivity|]].
  - unfold Query.get_facet_counts.
    rewrite (bind_ok _ _ _ _ _ (load_ok _ _ _ Hq)), Hnone. cbn [is_none].
    rewrite (bind_ok _ _ _ _ _ Hrun), (bind_ok _ _ _ _ _ (load_ok _ _ _ Hq1)).
    reflexivity.
  - unfold Query.get_facet_counts.
    rewrite (bind_ok _ _ _ _ _ (load_ok _ _ _ Hq1)).
    cbn [Query._facet_counts ran Query.set__suggestions
         Query.set__facet_counts].
    rewrite (answer_facets_not_none _ _ _ _ Hr), bind_ret.
    rewrite (bind_ok _ _ _ _ _ (load_ok _ _ _ Hq1)). reflexivity.
Qed.

Lemma get_facet_counts_once_witness :
  let q := Query.mlt (VStr "42") (VList [VStr "title"]) []
             (Query.init (VStr "content") (VStr "item")) in
  let w := {| Query.queries := [q]; Query.calls := [] |} in
  let b := paging (example_hits 3) in
  exists (w1 : Query.world) (c : call),
    Query.mlt_query q = true /\
    Query.get_facet_counts b 0%nat w = (Ok (VDict []), w1) /\
    Query.calls w1 = [c] /\
    (exists index doc_type body params, c = BSearch index doc_type body params) /\
    Query.get_facet_counts b 0%nat w1 = (Ok (VDict []), w1).
Proof.
  intros q w b.
  destruct (get_facet_counts_once b 0%nat q w
              (VDict [("query", VDict [("match_all", VDict [])])])
              (answer_page (example_hits 3) 0 20)
              (VList (page (example_hits 3) 0 20)) (VInt 3) (VDict [])
              eq_refl eq_refl eq_refl eq_refl
              (answer_page_answer (example_hits 3) 0 20) eq_refl)
    as (w1 & H1 & H2 & H3).
  exists w1. eexists. split; [reflexivity|]. split; [exact H1|].
  split; [exact H2|]. split; [|exact H3].
  unfold search_call. eauto.
Defined.

(** X16. One run serves the hits and their total: after [get_results] has
    run the query, a second [get_results] and [get_count] return what was
    kept and make no call on the backend. *)
Theorem get_results_once (b : backend) (l : Query.loc) (q : Query.t)
  (w : Query.world) (body r hits total fc : value) :
  Query.queries w !! l = Some q ->
  Query._results q = VNone ->
  Query.build_query q = Ok body ->
  b (Query.calls w) (fetch_call q body) = Ok r ->
  answer r hits total fc ->
  py_get_default r "suggest" VNone = Ok VNone ->
  is_none hits = false ->
  is_none total = false ->
  exists w1 : Query.world,
    Query.get_results b l w = (Ok hits, w1) /\
    Query.calls w1 = Query.calls w ++ [fetch_call q body] /\
    Query.get_results b l w1 = (Ok hits, w1) /\
    Query.get_count b l w1 = (Ok total, w1).
Proof.
  intros Hq Hnone Hbody Hb Hr Hs Hhits Htotal.
  pose proof (get_results_ok b l q w body r hits total fc
                Hq Hnone Hbody Hb Hr Hs) as Hget.
  set (w1 := Query.put l (fetched hits total fc q)
               (Query.logged (fetch_call q body) w)) in *.
  assert (Hq1 : Query.queries w1 !! l = Some (fetched hits total fc q))
    by (apply (lookup_put l q); exact Hq).
  assert (Hres : Query._results (fetched hits total fc q) = hits)
    by (unfold fetched; destruct (Query.mlt_query q); reflexivity).
  exists w1. split; [exact Hget|]. split; [reflexivity|]. split.
  - unfold Query.get_results.
    rewrite (bind_ok _ _ _ _ _ (load_ok _ _ _ Hq1)), Hres, Hhits, bind_ret.
    rewrite (bind_ok _ _ _ _ _ (load_ok _ _ _ Hq1)), Hres. reflexivity.
  - unfold Query.get_count.
    rewrite (bind_ok _ _ _ _ _ (load_ok _ _ _ Hq1)), hit_count_fetched,
      Htotal, bind_ret.
    rewrite (bind_ok _ _ _ _ _ (load_ok _ _ _ Hq1)), hit_count_fetched.
    reflexivity.
Qed.

Lemma get_results_once_witness :
  let q := Query.init (VStr "content") (VStr "item") in
  let w := {| Query.queries := [q]; Query.calls := [] |} in
  let b := paging (example_hits 3) in
  let hits := VList (page (example_hits 3) 0 20) in
  exists w1 : Query.world,
    Query.get_results b 0%nat w = (Ok hits, w1) /\
    List.length (Query.calls w1) = 1%nat /\
    Query.get_results b 0%nat w1 = (Ok hits, w1) /\
    Query.get_count b 0%nat w1 = (Ok (VInt 3), w1).
Proof.
  intros q w b hits.
  destruct (get_results_once b 0%nat q w
              (VDict [("query", VDict [("match_all", VDict [])])])
              (answer_page (example_hits 3) 0 20) hits (VInt 3) (VDict [])
              eq_refl eq_refl eq_refl eq_refl
              (answer_page_answer (example_hits 3) 0 20) eq_refl
              eq_refl eq_refl)
    as (w1 & H1 & H2 & H3 & H4).
  exists w1. split; [exact H1|]. split; [rewrite H2; reflexivity|].
  split; [exact H3|exact H4].
Defined.

(** ** The cache test makes no call *)

(** X17. [_cache_is_full] never runs the query: [len(self)] is only asked
    for when the query has run, and then the total is already kept.  For
    every queryset, store and backend, the store after [_cache_is_full], the
    list of backend calls with it, is the store before, and so is the
    cache. *)
Theorem cache_is_full_makes_no_call (b : backend) (st : SQS.state) :
  SQS.store (snd (SQS._cache_is_full b st)) = SQS.store st /\
  SQS._result_cache (SQS.self (snd (SQS._cache_is_full b st))) =
  SQS._result_cache (SQS.self st).
Proof.
  enough (H : exists (x : result bool) (s1 : SQS.t),
             SQS._cache_is_full b st =
             (x, {| SQS.self := s1; SQS.store := SQS.store st |}) /\
             SQS._result_cache s1 = SQS._result_cache (SQS.self st)).
  { destruct H as (x & s1 & H & Hc). rewrite H. split; [reflexivity|exact Hc]. }
  destruct st as [s w]. cbn [SQS.self SQS.store].
  unfold SQS._cache_is_full. rewrite bind_gets. cbn [SQS.self].
  unfold bind at 1, SQS.on_store at 1, Query.load at 1. cbn [SQS.store].
  destruct (Query.queries w !! SQS.query s) as [q|] eqn:Hq;
    [|eexists _, _; split; reflexivity].
  cbn [SQS.self SQS.store].
  destruct (Query.has_run q) eqn:Hrun; cbn [negb];
    [|eexists _, _; split; reflexivity].
  pose proof (has_run_hit_count _ Hrun) as Hh.
  assert (Hgc : Query.get_count b (SQS.query s) w = (Ok (Query._hit_count q), w)).
  { unfold Query.get_count.
    rewrite (bind_ok _ _ _ _ _ (load_ok _ _ _ Hq)), Hh, bind_ret.
    rewrite (bind_ok _ _ _ _ _ (load_ok _ _ _ Hq)). reflexivity. }
  assert (Hlen : exists (x : result Z) (s1 : SQS.t),
             SQS.__len__ b {| SQS.self := s; SQS.store := w |} =
             (x, {| SQS.self := s1; SQS.store := w |}) /\
             SQS._result_cache s1 = SQS._result_cache s).
  { unfold SQS.__len__. rewrite bind_gets. cbn [SQS.self].
    destruct (is_none (SQS._result_count s)).
    - rewrite bind_bind.
      rewrite (bind_ok _ _ _ _ _
                 (on_store_eq _ {| SQS.self := s; SQS.store := w |} _ _ Hgc)).
      unfold SQS.update_self, modify. unfold bind at 1.
      cbn [SQS.self SQS.store]. rewrite bind_gets. cbn [SQS.self].
      cbn [SQS._result_count SQS.set__result_count].
      destruct (Query._hit_count q) as [| |n| | | | |];
        try (eexists _, _; split; reflexivity).
      destruct (n <? 0)%Z; eexists _, _; split; reflexivity.
    - rewrite bind_ret, bind_gets. cbn [SQS.self].
      destruct (SQS._result_count s) as [| |n| | | | |];
        try (eexists _, _; split; reflexivity).
      destruct (n <? 0)%Z; eexists _, _; split; reflexivity. }
  destruct Hlen as (x & s1 & Hlen & Hcache).
  unfold bind. rewrite Hlen.
  destruct x as [n|e]; [|eexists _, _; split; [reflexivity|exact Hcache]].
  destruct (n <=? 0)%Z; [eexists _, _; split; [reflexivity|exact Hcache]|].
  unfold gets, ret. cbn [SQS.self].
  destruct (index_of_none (SQS._result_cache s1));
    (eexists _, _; split; [reflexivity|exact Hcache]).
Qed.

(** ** The cache only grows *)

Lemma filled_from_lookup (recs cache : list value) (i : nat) (x : value) :
  filled_from recs cache -> cache !! i = Some x -> is_none x = false ->
  recs !! i = Some x.
Proof.
  intros H. revert i. induction H as [|y r cache recs Hy _ IH]; intros i Hi Hx.
  - discriminate.
  - destruct i as [|i]; cbn in Hi |- *.
    + inversion Hi; subst y. destruct Hy as [->| ->]; [discriminate|reflexivity].
    + apply IH; assumption.
Qed.

Lemma assign_keeps_records (recs cache : list value) (k n : nat) :
  filled_from recs cache ->
  keeps_records cache
    (take k cache ++ take n (drop k recs) ++
     drop (k + List.length (take n (drop k recs))) cache).
Proof.
  intros Hf i x Hi Hx.
  pose proof (filled_from_lookup _ _ _ _ Hf Hi Hx) as Hr.
  pose proof (filled_from_length _ _ Hf) as Hlen.
  pose proof (lookup_lt_Some _ _ _ Hi) as Hlt.
  set (p := take n (drop k recs)).
  destruct (Nat.lt_ge_cases i k) as [Hik|Hik].
  - rewrite lookup_app_l by (rewrite length_take; lia).
    rewrite lookup_take_lt by lia. exact Hi.
  - rewrite lookup_app_r by (rewrite length_take; lia).
    rewrite length_take, Nat.min_l by lia.
    destruct (Nat.lt_ge_cases (i - k) (List.length p)) as [Hp|Hp].
    + rewrite lookup_app_l by exact Hp.
      unfold p in *. rewrite lookup_take_lt
        by (rewrite length_take in Hp; lia).
      rewrite lookup_drop. replace (k + (i - k))%nat with i by lia. exact Hr.
    + rewrite lookup_app_r by exact Hp.
      rewrite lookup_drop.
      replace (k + List.length p + (i - k - List.length p))%nat with i by lia.
      exact Hi.
Qed.

Lemma keeps_records_refl (cache : list value) : keeps_records cache cache.
Proof. intros i x H _. exact H. Qed.


Lemma preserves_cache_is_full_grown (b : backend) (hits recs : list value)
  (body : value) (c0 : list value) :
  preserves (grown hits recs body c0) (SQS._cache_is_full b).
Proof.
  intros st [Hc Hk].
  destruct (cache_is_full_ok b _ _ _ _ Hc) as (q & s1 & Hq & Hfull & Hs1).
  rewrite Hfull. cbn [snd]. split.
  - apply (consistent_count _ _ _ _ _ Hc Hs1).
  - cbn [SQS.self]. destruct Hs1 as [-> | ->]; exact Hk.
Qed.

Lemma preserves_fill_cache_grown (b : backend) (hits recs : list value)
  (body : value) (c0 : list value) (start bound : Z) :
  paged hits b -> (0 <= start)%Z -> (start < bound)%Z ->
  preserves (grown hits recs body c0) (SQS._fill_cache b start bound).
Proof.
  intros Hb Hstart Hbound st [Hc Hk].
  destruct Hc as (Hrecs & (q & Hq & Hbody & Hhit) & Hcache & Hcount).
  pose proof (post_process_list_length _ _ _ Hrecs) as Hn.
  pose proof (fill_cache_ok b hits recs st q body (Z.to_nat start)
                (bound - start) Hb Hq Hbody Hrecs ltac:(lia)) as Hfill.
  cbv zeta in Hfill. rewrite Z2Nat.id in Hfill by lia.
  replace (start + (bound - start))%Z with bound in Hfill by lia.
  set (q' := fetched (VList (page hits start (bound - start)))
               (VInt (Z.of_nat (List.length hits))) (VDict [])
               (limited start bound q)) in *.
  set (w' := Query.put (SQS.query (SQS.self st)) q'
               (Query.logged (fetch_call (limited start bound q) body)
                  (SQS.store st))) in *.
  assert (Hquery : exists q2 : Query.t,
             Query.queries w' !! SQS.query (SQS.self st) = Some q2 /\
             Query.build_query q2 = Ok body /\
             (Query._hit_count q2 = VNone \/
              Query._hit_count q2 = VInt (Z.of_nat (List.length hits)))).
  { exists q'. split; [apply (lookup_put _ q); exact Hq|]. split.
    - unfold q'. rewrite build_query_fetched. exact Hbody.
    - right. apply hit_count_fetched. }
  rewrite Hfill.
  set (p := page recs start (bound - start)) in *.
  destruct (List.length p =? 0)%nat eqn:E0; cbn [snd].
  - split; [|exact Hk].
    split; [exact Hrecs|]. split; [exact Hquery|]. split; assumption.
  - apply Nat.eqb_neq in E0.
    assert (Hp : List.length p =
                 Nat.min (Z.to_nat (bound - start))
                   (List.length hits - Z.to_nat start)).
    { unfold p, page. rewrite length_take, length_drop, Hn. reflexivity. }
    set (c := allocated (List.length hits) (SQS._result_cache (SQS.self st))).
    assert (Hc : filled_from recs c /\
                 keeps_records (SQS._result_cache (SQS.self st)) c).
    { unfold c, allocated.
      destruct (List.length (SQS._result_cache (SQS.self st)) =? 0)%nat eqn:El.
      - apply Nat.eqb_eq, length_zero_iff_nil in El. rewrite El.
        rewrite <- Hn. split; [apply filled_from_placeholders|].
        intros i x Hi. discriminate.
      - destruct Hcache as [He|Hf]; [rewrite He in El; discriminate|].
        split; [exact Hf|apply keeps_records_refl]. }
    destruct Hc as [Hf Hkc].
    pose proof (filled_from_length _ _ Hf) as Hlc.
    rewrite <- (Z2Nat.id start) at 1 2 by lia.
    rewrite py_slice_assign_nat by lia.
    assert (Hpn : p = take (Z.to_nat (bound - start))
                        (drop (Z.to_nat start) recs)) by reflexivity.
    split.
    + split; [|split; [exact Hquery|split; [|exact Hcount]]].
      * cbn [SQS.self]. rewrite post_process_list_cache. exact Hrecs.
      * right. cbn [SQS.self SQS._result_cache SQS.set__result_cache].
        rewrite Hpn. apply filled_from_assign, Hf.
    + cbn [SQS.self SQS._result_cache SQS.set__result_cache].
      intros i x Hi Hx.
      pose proof (Hk i x Hi Hx) as Hi1.
      pose proof (Hkc i x Hi1 Hx) as Hi2.
      rewrite Hpn. apply (assign_keeps_records recs c _ _ Hf i x Hi2 Hx).
Qed.

(** X18. The cache only grows.  On a queryset whose cache agrees with the
    paged answers of the backend, a subscript with a non-empty window that
    starts at 0 or later, whether it returns or raises, leaves a queryset
    whose cache still agrees with them, and every record the cache held is
    still at its index. *)
Theorem getitem_keeps_records (b : backend) (SIZE_PER_QUERY : Z)
  (hits recs : list value) (body : value) (k : key) (start bound : Z)
  (st : SQS.state) :
  paged hits b ->
  consistent hits recs body st ->
  key_bounds SIZE_PER_QUERY k = Some (start, bound) ->
  (0 <= start)%Z -> (start < bound)%Z ->
  grown hits recs body (SQS._result_cache (SQS.self st))
    (snd (SQS.__getitem__ b SIZE_PER_QUERY k st)).
Proof.
  intros Hb Hc Hk Hstart Hbound.
  assert (Hpre : preserves
                   (grown hits recs body (SQS._result_cache (SQS.self st)))
                   (SQS.__getitem__ b SIZE_PER_QUERY k)).
  { unfold SQS.__getitem__. cbv zeta.
    destruct k as [i|[s|] [e|]|v]; cbn in Hk; inversion Hk; subst;
      repeat first
        [ apply preserves_ret | apply preserves_raise | apply preserves_lift
        | apply preserves_gets
        | apply preserves_cache_is_full_grown
        | apply preserves_fill_cache_grown; [exact Hb|lia|lia]
        | apply preserves_bind; [|intros ?]
        | apply preserves_try_except; [|intros ?]
        | match goal with
          | |- preserves _ (if ?c then _ else _) => destruct c
          | |- preserves _ (match ?x with _ => _ end) => destruct x
          end ]. }
  apply Hpre. split; [exact Hc|apply keeps_records_refl].
Qed.

Lemma getitem_keeps_records_witness :
  let hits := example_hits 5 in
  let recs := map (fun n : nat => VDict [("rank", VInt (Z.of_nat n));
                                         ("doc_type", VStr "item")])
                (seq 0 5) in
  let body := VDict [("query", VDict [("match_all", VDict [])])] in
  let b := paging hits in
  let st := snd (SQS.__getitem__ b 2 (KSlice (Some 0%Z) (Some 2%Z))
                   example_state) in
  paged hits b /\
  consistent hits recs body st /\
  key_bounds 2 (KSlice (Some 1%Z) (Some 4%Z)) = Some (1%Z, 4%Z) /\
  grown hits recs body (SQS._result_cache (SQS.self st))
    (snd (SQS.__getitem__ b 2 (KSlice (Some 1%Z) (Some 4%Z)) st)).
Proof.
  intros hits recs body b st.
  assert (H1 : paged hits b) by apply paging_paged.
  assert (H2 : consistent hits recs body st).
  { split; [vm_compute; reflexivity|]. split.
    - eexists. split; [vm_compute; reflexivity|].
      split; [reflexivity|right; reflexivity].
    - split; [|left; reflexivity].
      right. vm_compute.
      repeat (constructor; [first [left; reflexivity|right; reflexivity]|]).
      constructor. }
  split; [exact H1|]. split; [exact H2|]. split; [reflexivity|].
  apply (getitem_keeps_records b 2 hits recs body
           (KSlice (Some 1%Z) (Some 4%Z)) 1 4 st H1 H2 eq_refl); lia.
Defined.

(** ** An integer subscript *)

Lemma page_one (recs : list value) (i : nat) :
  page recs (Z.of_nat i) 1 =
  match recs !! i with Some r => [r] | None => [] end.
Proof.
  unfold page. rewrite Nat2Z.id. change (Z.to_nat 1) with 1%nat.
  revert i. induction recs as [|r recs IH]; intros i.
  - destruct i; reflexivity.
  - destruct i as [|i]; [reflexivity|]. cbn [drop]. apply IH.
Qed.

Lemma allocated_filled (hits recs cache : list value) :
  List.length recs = List.length hits ->
  cache = [] \/ filled_from recs cache ->
  filled_from recs (allocated (List.length hits) cache).
Proof.
  intros Hn Hcache. unfold allocated.
  destruct (List.length cache =? 0)%nat eqn:E.
  - rewrite <- Hn. apply filled_from_placeholders.
  - destruct Hcache as [-> | Hf]; [discriminate|exact Hf].
Qed.

Lemma index_after_fetch (b : backend) (hits recs : list value) (body : value)
  (i : nat) (st : SQS.state) :
  paged hits b ->
  consistent hits recs body st ->
  fst (bind
         (try_except
            (bind (SQS._fill_cache b (Z.of_nat i) (Z.of_nat i + 1))
               (fun _ => ret tt))
            (fun e => match e with
                      | StopIteration => ret tt
                      | _ => raise e
                      end))
         (fun _ =>
            bind (gets SQS.self)
              (fun s => lift (list_index (SQS._result_cache s) (Z.of_nat i))))
         st) =
  match recs !! i with Some r => Ok r | None => Raise IndexError end.
Proof.
  intros Hb (Hrecs & (q & Hq & Hbody & _) & Hcache & _).
  pose proof (post_process_list_length _ _ _ Hrecs) as Hn.
  pose proof (fill_cache_ok b hits recs st q body i 1 Hb Hq Hbody Hrecs
                ltac:(lia)) as Hfill.
  cbv zeta in Hfill. rewrite page_one in Hfill.
  destruct (recs !! i) as [r|] eqn:Hi; cbn [List.length Nat.eqb] in Hfill.
  - rewrite (bind_ok _ _ _ _ _
               (try_except_ok _ _ _ _ _
                  (eq_trans (bind_ok _ (fun _ => ret tt) _ _ _ Hfill) eq_refl))).
    rewrite bind_gets.
    cbn [SQS.self SQS._result_cache SQS.set__result_cache].
    pose proof (allocated_filled hits recs _ Hn Hcache) as Hf.
    pose proof (filled_from_length _ _ Hf) as Hl.
    apply lookup_lt_Some in Hi.
    change (Z.of_nat 1) with (Z.of_nat (List.length [r])).
    rewrite py_slice_assign_nat by lia.
    unfold lift. cbn [fst].
    apply list_index_lookup.
    rewrite lookup_app_r by (rewrite length_take; lia).
    rewrite length_take, Nat.min_l by lia.
    rewrite Nat.sub_diag. reflexivity.
  - rewrite (bind_ok _ _ _ _ _
               (try_except_ok _ _ _ _ _
                  (eq_trans (bind_ok _ (fun _ => ret tt) _ _ _ Hfill) eq_refl))).
    rewrite bind_gets. cbn [SQS.self]. unfold lift. cbn [fst].
    apply lookup_ge_None in Hi.
    unfold list_index.
    destruct (Z.of_nat i <? 0)%Z eqn:E; [apply Z.ltb_lt in E; lia|].
    rewrite E, Nat2Z.id.
    destruct (SQS._result_cache (SQS.self st) !! i) as [x|] eqn:Hx;
      [|reflexivity].
    apply lookup_lt_Some in Hx.
    destruct Hcache as [He|Hf]; [rewrite He in Hx; cbn in Hx; lia|].
    apply filled_from_length in Hf. lia.
Qed.

(** X19. An integer subscript gives the record of that rank.  On a queryset
    that agrees with the paged answers of the backend, whatever part of the
    results it has cached, [sqs[i]] returns the record made of the hit of
    rank [i], and raises [IndexError] when the backend holds no more than
    [i] hits. *)
Theorem getitem_int_record (b : backend) (SIZE_PER_QUERY : Z)
  (hits recs : list value) (body : value) (i : nat) (st : SQS.state) :
  paged hits b ->
  consistent hits recs body st ->
  fst (SQS.__getitem__ b SIZE_PER_QUERY (KInt (Z.of_nat i)) st) =
  match recs !! i with Some r => Ok r | None => Raise IndexError end.
Proof.
  intros Hb Hc.
  unfold SQS.__getitem__. cbv zeta. rewrite bind_ret.
  destruct (0 <=? Z.of_nat i)%Z eqn:E1; [|apply Z.leb_gt in E1; lia].
  rewrite bind_ret, bind_gets.
  destruct (List.length (SQS._result_cache (SQS.self st)) <=? 0)%nat eqn:E3.
  { rewrite bind_ret. apply (index_after_fetch b hits recs body i st Hb Hc). }
  apply Nat.leb_gt in E3.
  pose proof Hc as (Hrecs & _ & Hcache & _).
  destruct Hcache as [He|Hf]; [rewrite He in E3; cbn in E3; lia|].
  pose proof (filled_from_length _ _ Hf) as Hlen.
  replace (Z.of_nat i + 1)%Z with (Z.of_nat (i + 1)) by lia.
  destruct (existsb is_none
              (py_slice (SQS._result_cache (SQS.self st)) (Z.of_nat i)
                 (Z.of_nat (i + 1)))) eqn:Hex.
  - destruct (exists_none_slice _ _ _ Hex) as (Hstart & j & Hj).
    destruct (cache_is_full_ok b _ _ _ _ Hc) as (q & s1 & Hq & Hfull & Hs1).
    rewrite Hj in Hfull.
    pose proof (post_process_list_length _ _ _ Hrecs) as Hn.
    assert (Hnz : (List.length hits =? 0)%nat = false)
      by (apply Nat.eqb_neq; lia).
    rewrite Hnz, andb_false_r in Hfull.
    rewrite bind_bind, (bind_ok _ _ _ _ _ Hfull), bind_ret. cbn [negb].
    replace (Z.of_nat (i + 1)) with (Z.of_nat i + 1)%Z by lia.
    apply (index_after_fetch b hits recs body i _ Hb).
    apply (consistent_count _ _ _ _ _ Hc Hs1).
  - rewrite bind_ret, bind_ret, bind_gets. unfold lift. cbn [fst].
    rewrite py_slice_nat in Hex.
    replace (i + 1 - i)%nat with 1%nat in Hex by lia.
    destruct (recs !! i) as [r|] eqn:Hi.
    + apply list_index_lookup.
      destruct (Forall2_lookup_r _ _ _ _ _ Hf Hi) as (x & Hx & Hxr).
      rewrite Hx. f_equal.
      destruct Hxr as [-> | ->]; [|reflexivity].
      exfalso.
      rewrite <- (take_drop_middle _ _ _ Hx) in Hex.
      rewrite drop_app_length' in Hex
        by (rewrite length_take; apply lookup_lt_Some in Hx; lia).
      discriminate Hex.
    + apply lookup_ge_None in Hi. unfold list_index.
      destruct (Z.of_nat i <? 0)%Z eqn:E; [apply Z.ltb_lt in E; lia|].
      rewrite E, Nat2Z.id.
      rewrite (proj2 (lookup_ge_None _ _)) by lia. reflexivity.
Qed.

Lemma getitem_int_record_witness :
  let hits := example_hits 5 in
  let recs := map (fun n : nat => VDict [("rank", VInt (Z.of_nat n));
                                         ("doc_type", VStr "item")])
                (seq 0 5) in
  let body := VDict [("query", VDict [("match_all", VDict [])])] in
  let b := paging hits in
  let st := snd (SQS.__getitem__ b 2 (KSlice (Some 0%Z) (Some 2%Z))
                   example_state) in
  paged hits b /\
  consistent hits recs body st /\
  fst (SQS.__getitem__ b 2 (KInt 3) st) =
    Ok (VDict [("rank", VInt 3); ("doc_type", VStr "item")]) /\
  fst (SQS.__getitem__ b 2 (KInt 5) st) = Raise IndexError.
Proof.
  intros hits recs body b st.
  assert (H1 : paged hits b) by apply paging_paged.
  assert (H2 : consistent hits recs body st).
  { split; [vm_compute; reflexivity|]. split.
    - eexists. split; [vm_compute; reflexivity|].
      split; [reflexivity|right; reflexivity].
    - split; [|left; reflexivity].
      right. vm_compute.
      repeat (constructor; [first [left; reflexivity|right; reflexivity]|]).
      constructor. }
  split; [exact H1|]. split; [exact H2|]. split.
  - exact (getitem_int_record b 2 hits recs body 3 st H1 H2).
  - exact (getitem_int_record b 2 hits recs body 5 st H1 H2).
Defined.

(** ** The attributes of a search result *)

Lemma search_result_lookup (items acc : dict) (k : string) :
  Dict.lookup k
    (fold_left
       (fun d kv => if Dict.mem (fst kv) d then d
                    else Dict.set (fst kv) (snd kv) d)
       items acc) =
  match Dict.lookup k acc with
  | Some v => Some v
  | None => Dict.lookup k items
  end.
Proof.
  revert acc. induction items as [|[k' v'] items IH]; intros acc.
  - cbn. destruct (Dict.lookup k acc); reflexivity.
  - cbn [fold_left fst snd]. rewrite IH. unfold Dict.mem.
    cbn [Dict.lookup].
    destruct (String.eqb k k') eqn:E.
    + apply String.eqb_eq in E. subst k'.
      destruct (Dict.lookup k acc) as [v|] eqn:Hk; [rewrite Hk; reflexivity|].
      rewrite dict_lookup_set_eq. reflexivity.
    + apply String.eqb_neq in E.
      destruct (Dict.lookup k' acc) as [v|] eqn:Hk'; [reflexivity|].
      rewrite dict_lookup_set_ne by congruence. reflexivity.
Qed.

(** X20. The four attributes of a search result win over the body.
    [SearchResult(index_name, doc_type, pk, score, body)] on a dictionary
    [body] has these four attributes as they were passed, also when the body
    has a key of the same name, whose value is dropped; every other key of
    the body becomes an attribute with its value. *)
Theorem SearchResult_attributes (index_name doc_type pk score : value)
  (body : dict) :
  exists attrs : dict,
    SearchResult index_name doc_type pk score (VDict body) =
      Ok (VObj "SearchResult" attrs) /\
    Dict.lookup "index_name" attrs = Some index_name /\
    Dict.lookup "doc_type" attrs = Some doc_type /\
    Dict.lookup "pk" attrs = Some pk /\
    Dict.lookup "score" attrs = Some score /\
    forall k : string,
      k <> "index_name" -> k <> "doc_type" -> k <> "pk" -> k <> "score" ->
      Dict.lookup k attrs = Dict.lookup k body.
Proof.
  eexists. split; [reflexivity|].
  repeat split; try (rewrite search_result_lookup; reflexivity).
  intros k H1 H2 H3 H4. rewrite search_result_lookup.
  cbn [Dict.lookup].
  apply String.eqb_neq in H1, H2, H3, H4. rewrite H1, H2, H3, H4.
  reflexivity.
Qed.

(** ** The record made of a hit *)

(** X21. Without [process_results], the record of a hit is a dictionary
    made of its [fields] when there are some and of its [_source] otherwise,
    in which [doc_type] is the [_type] of the hit, also when the document has
    a field named [doc_type]; the other keys are those of the document. *)
Theorem post_process_result_plain (self : SQS.t) (hit d : dict) (ty : value) :
  SQS.process_results self = false ->
  Dict.lookup "_type" hit = Some ty ->
  payload hit = VDict d ->
  exists r : dict,
    SQS.post_process_result self (VDict hit) = Ok (VDict r) /\
    Dict.lookup "doc_type" r = Some ty /\
    forall k : string, k <> "doc_type" -> Dict.lookup k r = Dict.lookup k d.
Proof.
  intros Hp Hty Hd. exists (Dict.set "doc_type" ty d). split.
  - unfold SQS.post_process_result, payload in *. rewrite Hp.
    unfold py_get, py_get_default, py_getitem. cbn [rbind].
    rewrite Hty.
    destruct (truthy match Dict.lookup "fields" hit with
                     | Some f => f
                     | None => VNone
                     end); rewrite Hd; reflexivity.
  - split; [apply dict_lookup_set_eq|].
    intros k Hk. apply dict_lookup_set_ne, Hk.
Qed.

Lemma post_process_result_plain_witness :
  let self := SQS.mk (VStr "content") (VStr "item") false 0%nat [] VNone in
  let hit := [("_type", VStr "item"); ("_id", VInt 7); ("_score", VInt 1);
              ("fields", VDict []);
              ("_source", VDict [("doc_type", VStr "draft");
                                 ("title", VStr "shoes")])] in
  SQS.process_results self = false /\
  Dict.lookup "_type" hit = Some (VStr "item") /\
  payload hit = VDict [("doc_type", VStr "draft"); ("title", VStr "shoes")] /\
  exists r : dict,
    SQS.post_process_result self (VDict hit) = Ok (VDict r) /\
    Dict.lookup "doc_type" r = Some (VStr "item") /\
    Dict.lookup "title" r = Some (VStr "shoes").
Proof.
  intros self hit.
  split; [reflexivity|]. split; [reflexivity|]. split; [reflexivity|].
  destruct (post_process_result_plain self hit
              [("doc_type", VStr "draft"); ("title", VStr "shoes")]
              (VStr "item") eq_refl eq_refl eq_refl) as (r & Hr & Hty & Hk).
  exists r. split; [exact Hr|]. split; [exact Hty|].
  rewrite Hk by discriminate. reflexivity.
Defined.

(** X22. A hit with neither [fields] nor [_source] has no record.  When a
    hit has [_type], [_id] and [_score] and no [fields] or an empty one, and
    no [_source], [post_process_results] raises [AttributeError], with or
    without [process_results], and the records of the hits before it are
    lost with it. *)
Theorem post_process_results_no_payload (self : SQS.t) (before after : list value)
  (recs : list value) (hit : dict) (ty id score : value) :
  SQS.post_process_list self before = Ok recs ->
  Dict.lookup "_type" hit = Some ty ->
  Dict.lookup "_id" hit = Some id ->
  Dict.lookup "_score" hit = Some score ->
  payload hit = VNone ->
  SQS.post_process_results self (VList (before ++ VDict hit :: after)) =
    Raise AttributeError.
Proof.
  intros Hb Hty Hid Hsc Hp.
  assert (H1 : SQS.post_process_result self (VDict hit) = Raise AttributeError).
  { unfold SQS.post_process_result, payload in *.
    unfold py_get, py_get_default, py_getitem. cbn [rbind].
    rewrite Hty, Hid, Hsc.
    destruct (truthy match Dict.lookup "fields" hit with
                     | Some f => f
                     | None => VNone
                     end);
      rewrite Hp; destruct (SQS.process_results self); reflexivity. }
  unfold SQS.post_process_results. cbn [py_iter rbind].
  revert recs Hb. induction before as [|x before IH]; intros recs Hb.
  - cbn [app SQS.post_process_list]. rewrite H1. reflexivity.
  - cbn [app SQS.post_process_list] in *.
    destruct (SQS.post_process_result self x) as [r|e]; [|discriminate].
    cbn [rbind] in *.
    destruct (SQS.post_process_list self before) as [rs|e]; [|discriminate].
    rewrite (IH rs eq_refl). reflexivity.
Qed.

Lemma post_process_results_no_payload_witness :
  let self := SQS.mk (VStr "content") (VStr "item") true 0%nat [] VNone in
  let hit := [("_type", VStr "item"); ("_id", VInt 7); ("_score", VInt 1);
              ("fields", VDict [])] in
  SQS.post_process_list self [example_hit 0] =
    Ok [VObj "SearchResult"
          [("index_name", VStr "content"); ("doc_type", VStr "item");
           ("pk", VInt 0); ("score", VInt 1); ("rank", VInt 0)]] /\
  payload hit = VNone /\
  SQS.post_process_results self (VList ([example_hit 0] ++ VDict hit :: [])) =
    Raise AttributeError.
Proof.
  intros self hit.
  split; [reflexivity|]. split; [reflexivity|].
  apply (post_process_results_no_payload self [example_hit 0] []
           [VObj "SearchResult"
              [("index_name", VStr "content"); ("doc_type", VStr "item");
               ("pk", VInt 0); ("score", VInt 1); ("rank", VInt 0)]]
           hit (VStr "item") (VInt 7) (VInt 1));
    reflexivity.
Defined.

(** ** The count that a queryset remembers *)

Lemma len_remembers (b : backend) (st st1 : SQS.state) (n : Z) :
  SQS.__len__ b st = (Ok n, st1) ->
  SQS._result_count (SQS.self st1) = VInt n /\ (0 <= n)%Z.
Proof.
  unfold SQS.__len__. rewrite bind_gets.
  destruct (is_none (SQS._result_count (SQS.self st))) eqn:E.
  - rewrite bind_bind. unfold bind at 1. unfold SQS.on_store.
    destruct (Query.get_count b (SQS.query (SQS.self st)) (SQS.store st))
      as [[c|e] w]; [|discriminate].
    unfold bind, SQS.update_self, modify, gets.
    cbn [SQS.self SQS._result_count SQS.set__result_count].
    destruct c as [| |z| | | | |]; try discriminate.
    destruct (z <? 0)%Z eqn:Ez; [discriminate|].
    intros H. inversion H. subst. cbn. apply Z.ltb_ge in Ez. split;
      [reflexivity|exact Ez].
  - rewrite bind_ret, bind_gets.
    destruct (SQS._result_count (SQS.self st)) as [| |z| | | | |] eqn:Hc;
      try discriminate.
    destruct (z <? 0)%Z eqn:Ez; [discriminate|].
    intros H. inversion H. subst. apply Z.ltb_ge in Ez. split;
      [exact Hc|exact Ez].
Qed.

Lemma reset_self (st : SQS.state) :
  SQS.self (snd (SQS.reset st)) = SQS.self st.
Proof.
  unfold SQS.reset. rewrite bind_gets. unfold SQS.on_store.
  destruct (Query.method Query._reset (SQS.query (SQS.self st)) (SQS.store st)).
  reflexivity.
Qed.

(** X23. The count outlives [reset].  Once [len] has returned [n], a
    [reset] does not make the queryset forget it: [count] then returns [n]
    again and makes no call to the backend, so that the count is the one of
    the query as it ran before. *)
Theorem count_after_reset (b : backend) (st st1 : SQS.state) (n : Z) :
  SQS.__len__ b st = (Ok n, st1) ->
  SQS.count b (snd (SQS.reset st1)) = (Ok n, snd (SQS.reset st1)).
Proof.
  intros H. destruct (len_remembers b st st1 n H) as [Hc Hn].
  unfold SQS.count, SQS.__len__.
  rewrite bind_gets, reset_self, Hc. cbn [is_none].
  rewrite bind_ret, bind_gets, reset_self, Hc.
  destruct (n <? 0)%Z eqn:E; [apply Z.ltb_lt in E; lia|reflexivity].
Qed.

Lemma count_after_reset_witness :
  let b := paging (example_hits 5) in
  let st1 := snd (SQS.__len__ b example_state) in
  SQS.__len__ b example_state = (Ok 5%Z, st1) /\
  SQS.count b (snd (SQS.reset st1)) = (Ok 5%Z, snd (SQS.reset st1)) /\
  Query.calls (SQS.store (snd (SQS.count b (snd (SQS.reset st1))))) =
  Query.calls (SQS.store st1).
Proof.
  intros b st1.
  assert (H : SQS.__len__ b example_state = (Ok 5%Z, st1)) by reflexivity.
  split; [exact H|].
  pose proof (count_after_reset b example_state st1 5 H) as H1.
  split; [exact H1|]. rewrite H1. reflexivity.
Defined.

(** ** Querysets on different queries *)

(** X24. Chaining is lazy and touches one query only.  A chaining method
    called on a queryset, whether it returns or raises, makes no call to the
    backend and leaves every queryset that references another query showing
    the query it showed. *)
Theorem chain_leaves_other_queries (DEFAULT_FILTER : string) (op : chain)
  (s s' : SQS.t) (w : Query.world) (q q' : Query.t) :
  Query.queries w !! SQS.query s = Some q ->
  Query.queries w !! SQS.query s' = Some q' ->
  SQS.query s' <> SQS.query s ->
  let st := snd (chain_call DEFAULT_FILTER op
                   {| SQS.self := s; SQS.store := w |}) in
  Query.calls (SQS.store st) = Query.calls w /\
  Query.queries (SQS.store st) !! SQS.query s' = Some q' /\
  rendered s' (SQS.store st) = rendered s' w.
Proof.
  intros Hq Hq' Hne st. subst st.
  rewrite (chain_call_eq DEFAULT_FILTER op s w q Hq). cbn [snd SQS.store].
  assert (H : Query.queries
                (Query.put (SQS.query s)
                   (snd (chain_query DEFAULT_FILTER op q)) w)
                !! SQS.query s' = Some q').
  { unfold Query.put. cbn [Query.queries].
    rewrite list_lookup_insert_ne by congruence. exact Hq'. }
  split; [reflexivity|]. split; [exact H|].
  rewrite (rendered_eq _ _ _ H), (rendered_eq _ _ _ Hq'). reflexivity.
Qed.

Lemma chain_leaves_other_queries_witness :
  let w := SQS.store example_state in
  let s' := SQS.self example_state in
  let s := fst (SQS.init (VStr "content") (VStr "spread") None true w) in
  let w1 := snd (SQS.init (VStr "content") (VStr "spread") None true w) in
  exists (s2 : SQS.t) (q q' : Query.t),
    s = Ok s2 /\
    Query.queries w1 !! SQS.query s2 = Some q /\
    Query.queries w1 !! SQS.query s' = Some q' /\
    SQS.query s' <> SQS.query s2 /\
    let st := snd (chain_call "AND" (FilterAnd [("brand", VStr "acme")])
                     {| SQS.self := s2; SQS.store := w1 |}) in
    rendered s2 (SQS.store st) <> rendered s2 w1 /\
    rendered s' (SQS.store st) = rendered s' w1.
Proof.
  intros w s' s w1.
  eexists _, _, _. split; [reflexivity|].
  split; [reflexivity|]. split; [reflexivity|].
  split; [discriminate|].
  split; [discriminate|].
  eapply (chain_leaves_other_queries "AND" (FilterAnd [("brand", VStr "acme")]));
    [reflexivity|reflexivity|discriminate].
Defined.

(** ** Completion *)

(** X25. [autocomplete] asks the backend every time.  When the backend
    answers the completion call, [n] calls of [autocomplete] in a row return
    [n] answers and add [n] times the same call to those made on the
    backend; the queryset and the queries stay as they were, so that none of
    the answers is remembered. *)
Theorem autocomplete_every_time (b : backend)
  (querystring autocomplete_field size : value) (n : nat) (st : SQS.state) :
  (forall log : list call,
      exists r : value,
        b log (suggest_call querystring autocomplete_field size) = Ok r) ->
  exists (answers : list value) (st' : SQS.state),
    times n (autocomplete b querystring autocomplete_field size) st =
      (Ok answers, st') /\
    List.length answers = n /\
    Query.calls (SQS.store st') =
      Query.calls (SQS.store st) ++
      repeat (suggest_call querystring autocomplete_field size) n /\
    SQS.self st' = SQS.self st /\
    Query.queries (SQS.store st') = Query.queries (SQS.store st).
Proof.
  intros Hb. revert st. induction n as [|n IH]; intros st.
  - exists [], st. split; [reflexivity|]. split; [reflexivity|].
    split; [cbn; rewrite app_nil_r; reflexivity|]. split; reflexivity.
  - destruct (Hb (Query.calls (SQS.store st))) as [r Hr].
    assert (H1 : autocomplete b querystring autocomplete_field size st =
                 (Ok r,
                  {| SQS.self := SQS.self st;
                     SQS.store :=
                       Query.logged
                         (suggest_call querystring autocomplete_field size)
                         (SQS.store st) |})).
    { unfold autocomplete. apply on_store_eq.
      unfold Query.backend_call. fold (suggest_call querystring autocomplete_field size).
      rewrite Hr. reflexivity. }
    destruct (IH {| SQS.self := SQS.self st;
                    SQS.store :=
                      Query.logged
                        (suggest_call querystring autocomplete_field size)
                        (SQS.store st) |})
      as (answers & st' & Hrun & Hlen & Hcalls & Hself & Hq).
    exists (r :: answers), st'.
    cbn [times]. rewrite (bind_ok _ _ _ _ _ H1), (bind_ok _ _ _ _ _ Hrun).
    split; [reflexivity|]. split; [cbn; rewrite Hlen; reflexivity|].
    split; [|split; [exact Hself|exact Hq]].
    rewrite Hcalls. cbn [SQS.store Query.logged Query.calls repeat].
    rewrite <- app_assoc. reflexivity.
Qed.

Lemma autocomplete_every_time_witness :
  let b : backend :=
    fun log c => match c with
                 | BSuggest _ => Ok (VInt (Z.of_nat (List.length log)))
                 | _ => Raise (BackendError "not a completion")
                 end in
  (forall log : list call,
      exists r : value,
        b log (suggest_call (VStr "sho") (VStr "title_suggest") (VInt 10)) =
          Ok r) /\
  exists (answers : list value) (st' : SQS.state),
    times 3 (autocomplete b (VStr "sho") (VStr "title_suggest") (VInt 10))
      example_state = (Ok answers, st') /\
    List.length answers = 3%nat /\
    Query.calls (SQS.store st') =
      Query.calls (SQS.store example_state) ++
      repeat (suggest_call (VStr "sho") (VStr "title_suggest") (VInt 10)) 3.
Proof.
  intros b.
  assert (H : forall log : list call,
             exists r : value,
               b log (suggest_call (VStr "sho") (VStr "title_suggest")
                        (VInt 10)) = Ok r)
    by (intros log; eexists; reflexivity).
  split; [exact H|].
  destruct (autocomplete_every_time b (VStr "sho") (VStr "title_suggest")
              (VInt 10) 3 example_state H)
    as (answers & st' & Hrun & Hlen & Hcalls & _).
  exists answers, st'. split; [exact Hrun|]. split; [exact Hlen|exact Hcalls].
Defined.

(** ** Updating the index *)

Lemma bind_ext {S A B : Type} (m : M S A) (f g : A -> M S B) (s : S) :
  (forall (a : A) (s' : S), f a s' = g a s') -> bind m f s = bind m g s.
Proof.
  intros H. unfold bind. destruct (m s) as [[a|e] s']; [apply H|reflexivity].
Qed.

Section UpdateIndex.

Variable b : backend.
Variable get_search_dict : value -> result value.
Variable index : update_index.index_class.
Variable remove : bool.

Lemma update_items_app (sqs : SQS.t) (l1 l2 : list value) (w : Query.world) :
  update_index.update_items b get_search_dict index remove sqs (l1 ++ l2) w =
  bind (update_index.update_items b get_search_dict index remove sqs l1)
    (fun _ => update_index.update_items b get_search_dict index remove sqs l2)
    w.
Proof.
  revert w. induction l1 as [|x l1 IH]; intros w; [reflexivity|].
  cbn [app update_index.update_items].
  rewrite (bind_bind _ _ _ w). apply bind_ext. intros a w1.
  rewrite (bind_bind _ _ _ w1). apply bind_ext. intros _ w2.
  apply IH.
Qed.

Lemma update_items_sends (sqs : SQS.t) (items : list value) :
  indexes b ->
  SQS.index_name sqs = update_index.index_name index ->
  Forall (readable get_search_dict index) items ->
  forall w : Query.world,
    update_index.update_items b get_search_dict index remove sqs items w =
    (Ok tt,
     {| Query.queries := Query.queries w;
        Query.calls :=
          Query.calls w ++
          flat_map (item_calls get_search_dict index (SQS.doc_type sqs) remove)
            items |}).
Proof.
  intros Hb Hname Hitems. induction Hitems as [|x items Hx _ IH]; intros w.
  - cbn. rewrite app_nil_r. destruct w; reflexivity.
  - destruct Hx as ((a & Ha) & (pk & Hpk) & (doc & Hdoc)).
    cbn [update_index.update_items flat_map]. unfold item_calls at 1.
    rewrite Ha, Hpk, Hdoc, bind_lift_Ok.
    destruct (truthy a).
    + rewrite bind_bind, bind_lift_Ok, bind_bind, bind_lift_Ok, bind_bind.
      destruct (Hb (Query.calls w) (SQS.index_name sqs) (SQS.doc_type sqs)
                  doc pk) as [r Hr].
      assert (H1 : update_index.on_sqs sqs (SQS.index b pk doc) w =
                   (Ok r, Query.logged
                            (BIndex (SQS.index_name sqs) (SQS.doc_type sqs)
                               doc pk) w)).
      { unfold update_index.on_sqs, SQS.index. rewrite bind_gets.
        cbn [SQS.self]. unfold SQS.on_store, Query.backend_call.
        cbn [SQS.store]. rewrite Hr. reflexivity. }
      rewrite (bind_ok _ _ _ _ _ H1), bind_ret, IH.
      cbn [Query.logged Query.queries Query.calls].
      rewrite Hname, <- app_assoc. reflexivity.
    + destruct remove.
      * rewrite bind_bind, bind_lift_Ok, bind_bind.
        assert (H1 : exists r,
                   update_index.on_sqs sqs (SQS.remove b pk) w =
                   (Ok r, Query.logged
                            (BDelete (SQS.index_name sqs) (SQS.doc_type sqs)
                               pk) w)).
        { unfold update_index.on_sqs, SQS.remove. rewrite bind_gets.
          cbn [SQS.self]. unfold try_except, SQS.on_store, Query.backend_call.
          cbn [SQS.store].
          destruct (b (Query.calls w)
                      (BDelete (SQS.index_name sqs) (SQS.doc_type sqs) pk));
            eexists; reflexivity. }
        destruct H1 as [r H1].
        rewrite (bind_ok _ _ _ _ _ H1), bind_ret, IH.
        cbn [Query.logged Query.queries Query.calls].
        rewrite Hname, <- app_assoc. reflexivity.
      * rewrite bind_ret, IH. reflexivity.
Qed.

End UpdateIndex.

Lemma do_update_calls (b : backend) (get_search_dict : value -> result value)
  (index : update_index.index_class) (doctype : value) (qs : list value)
  (start end_ : Z) (remove : bool) (w : Query.world) :
  indexes b ->
  Forall (readable get_search_dict index) (py_slice qs start end_) ->
  exists w' : Query.world,
    update_index.do_update b get_search_dict index doctype qs start end_
      remove w = (Ok tt, w') /\
    Query.calls w' =
      Query.calls w ++
      flat_map (item_calls get_search_dict index doctype remove)
        (py_slice qs start end_).
Proof.
  intros Hb Hitems. unfold update_index.do_update. cbv zeta.
  unfold SQS.init. rewrite bind_bind. unfold Query.new at 1.
  unfold bind at 1. rewrite bind_ret.
  rewrite (update_items_sends b get_search_dict index remove
             (SQS.mk (update_index.index_name index) doctype true
                (List.length (Query.queries w)) [] VNone)
             _ Hb eq_refl Hitems).
  eexists. split; reflexivity.
Qed.

(** X26. What [do_update] sends.  Before a backend that stores what it is
    sent, and on items that can be read, [do_update] returns after sending,
    for the items of its window in their order, the document of each active
    item, the removal of each other item when [remove] is set, and nothing
    else; what the backend answers to a removal, an error too, changes
    nothing to it. *)
Theorem do_update_sends (b : backend) (get_search_dict : value -> result value)
  (index : update_index.index_class) (doctype : value) (qs : list value)
  (start end_ : Z) (remove : bool) (w : Query.world) :
  indexes b ->
  Forall (readable get_search_dict index) (py_slice qs start end_) ->
  exists w' : Query.world,
    update_index.do_update b get_search_dict index doctype qs start end_
      remove w = (Ok tt, w') /\
    Query.calls w' =
      Query.calls w ++
      flat_map (item_calls get_search_dict index doctype remove)
        (py_slice qs start end_).
Proof.
  intros Hb Hitems. unfold update_index.do_update. cbv zeta.
  unfold SQS.init. rewrite bind_bind. unfold Query.new at 1.
  unfold bind at 1. rewrite bind_ret.
  rewrite (update_items_sends b get_search_dict index remove
             (SQS.mk (update_index.index_name index) doctype true
                (List.length (Query.queries w)) [] VNone)
             _ Hb eq_refl Hitems).
  eexists. split; reflexivity.
Qed.

Lemma do_update_sends_witness :
  let b : backend :=
    fun _ c => match c with
               | BIndex _ _ _ _ => Ok (VBool true)
               | _ => Raise (BackendError "not found")
               end in
  let get_search_dict : value -> result value :=
    fun item => let* title := py_getattr item "title" in
                Ok (VDict [("title", title)]) in
  let index := {| update_index.index_name := VStr "content";
                  update_index.active_field := "published" |} in
  let item (n : Z) (published : bool) :=
    VObj "Item" [("pk", VInt n); ("published", VBool published);
                 ("title", VStr "shoes")] in
  let qs := [item 1 true; item 2 false; item 3 true; item 4 true] in
  let w := {| Query.queries := []; Query.calls := [] |} in
  indexes b /\
  Forall (readable get_search_dict index) (py_slice qs 1 3) /\
  exists w' : Query.world,
    update_index.do_update b get_search_dict index (VStr "item") qs 1 3
      true w = (Ok tt, w') /\
    Query.calls w' =
      [BDelete (VStr "content") (VStr "item") (VInt 2);
       BIndex (VStr "content") (VStr "item")
         (VDict [("title", VStr "shoes")]) (VInt 3)].
Proof.
  intros b get_search_dict index item qs w.
  assert (H1 : indexes b) by (intros log i d body id; eexists; reflexivity).
  assert (H2 : Forall (readable get_search_dict index) (py_slice qs 1 3)).
  { repeat constructor; eexists; reflexivity. }
  split; [exact H1|]. split; [exact H2|].
  exact (do_update_sends b get_search_dict index (VStr "item") qs 1 3 true w
           H1 H2).
Defined.

Lemma batch_slices (qs : list value) (a n : nat) :
  (0 < n)%nat ->
  py_slice qs (Z.of_nat a)
    (Z.min (Z.of_nat a + Z.of_nat n) (Z.of_nat (List.length qs))) ++
  drop (a + n) qs = drop a qs.
Proof.
  intros Hn.
  destruct (Z.min_spec (Z.of_nat a + Z.of_nat n) (Z.of_nat (List.length qs)))
    as [[Hlt ->]|[Hge ->]].
  - replace (Z.of_nat a + Z.of_nat n)%Z with (Z.of_nat (a + n)) by lia.
    rewrite py_slice_nat.
    replace (a + n - a)%nat with n by lia.
    rewrite <- (drop_drop qs n a). apply take_drop.
  - rewrite py_slice_nat.
    rewrite (drop_ge qs (a + n)) by lia.
    rewrite app_nil_r. apply take_ge. rewrite length_drop. lia.
Qed.

Lemma update_batches_sends (b : backend)
  (get_search_dict : value -> result value)
  (index : update_index.index_class) (doctype : value) (qs : list value)
  (n : nat) (remove : bool) :
  indexes b ->
  Forall (readable get_search_dict index) qs ->
  (0 < n)%nat ->
  forall (m j : nat) (w : Query.world),
    (List.length qs <= (j + m) * n)%nat ->
    exists w' : Query.world,
      update_index.update_batches b get_search_dict index doctype qs
        (Z.of_nat (List.length qs)) (Z.of_nat n) remove
        (map (fun i : nat => (0 + Z.of_nat i * Z.of_nat n)%Z) (seq j m)) w =
        (Ok tt, w') /\
      Query.calls w' =
        Query.calls w ++
        flat_map (item_calls get_search_dict index doctype remove)
          (drop (j * n) qs).
Proof.
  intros Hb Hqs Hn. induction m as [|m IH]; intros j w Hcover.
  - exists w. split; [reflexivity|].
    rewrite drop_ge by lia. cbn. rewrite app_nil_r. reflexivity.
  - cbn [seq map update_index.update_batches].
    replace (0 + Z.of_nat j * Z.of_nat n)%Z with (Z.of_nat (j * n)) by lia.
    assert (Hslice : Forall (readable get_search_dict index)
                       (py_slice qs (Z.of_nat (j * n))
                          (Z.min (Z.of_nat (j * n) + Z.of_nat n)
                             (Z.of_nat (List.length qs))))).
    { unfold py_slice. apply Forall_take, Forall_drop, Hqs. }
    destruct (do_update_calls b get_search_dict index doctype qs _ _ remove w
                Hb Hslice) as (w1 & Hrun & Hcalls).
    rewrite (bind_ok _ _ _ _ _ Hrun).
    destruct (IH (S j) w1 ltac:(lia)) as (w2 & Hrest & Hcalls2).
    exists w2. split; [exact Hrest|].
    rewrite Hcalls2, Hcalls, <- app_assoc, <- flat_map_app.
    replace (S j * n)%nat with (j * n + n)%nat by lia.
    rewrite batch_slices by exact Hn. reflexivity.
Qed.

(** X27. Batches change nothing to what is sent.  With a batch size of 1
    or more, before a backend that stores what it is sent and on items that
    can be read, the update of a doc type returns after sending, for the
    items of the whole queryset in their order, the document of each active
    item and the removal of each other item when [remove] is set: each item
    is in one batch and one only. *)
Theorem update_doctype_sends_all (b : backend)
  (get_search_dict : value -> result value)
  (index : update_index.index_class) (doctype : value) (qs : list value)
  (batch_size : Z) (remove : bool) (w : Query.world) :
  indexes b ->
  Forall (readable get_search_dict index) qs ->
  (0 < batch_size)%Z ->
  exists w' : Query.world,
    update_index.update_doctype b get_search_dict index doctype qs batch_size
      remove w = (Ok tt, w') /\
    Query.calls w' =
      Query.calls w ++
      flat_map (item_calls get_search_dict index doctype remove) qs.
Proof.
  intros Hb Hqs Hsize.
  unfold update_index.update_doctype, py_range3. cbv zeta.
  destruct (batch_size =? 0)%Z eqn:E0; [apply Z.eqb_eq in E0; lia|].
  destruct (0 <? batch_size)%Z eqn:E1; [|apply Z.ltb_ge in E1; lia].
  rewrite bind_lift_Ok.
  set (total := Z.of_nat (List.length qs)).
  set (m := Z.to_nat ((total - 0 + batch_size - 1) / batch_size)).
  assert (Hm : (total <= Z.of_nat m * batch_size)%Z).
  { unfold m. rewrite Z2Nat.id by (apply Z.div_pos; lia).
    pose proof (Z.mul_succ_div_gt (total - 0 + batch_size - 1) batch_size
                  Hsize). lia. }
  rewrite <- (Z2Nat.id batch_size) by lia.
  rewrite <- (Z2Nat.id batch_size) in Hm by lia.
  destruct (update_batches_sends b get_search_dict index doctype qs
              (Z.to_nat batch_size) remove Hb Hqs ltac:(lia) m 0%nat w
              ltac:(unfold total in Hm; lia))
    as (w' & Hrun & Hcalls).
  exists w'. split; [exact Hrun|exact Hcalls].
Qed.

Lemma update_doctype_sends_all_witness :
  let b : backend :=
    fun _ c => match c with
               | BIndex _ _ _ _ => Ok (VBool true)
               | _ => Raise (BackendError "not found")
               end in
  let get_search_dict : value -> result value :=
    fun item => let* title := py_getattr item "title" in
                Ok (VDict [("title", title)]) in
  let index := {| update_index.index_name := VStr "content";
                  update_index.active_field := "published" |} in
  let item (n : Z) (published : bool) :=
    VObj "Item" [("pk", VInt n); ("published", VBool published);
                 ("title", VStr "shoes")] in
  let qs := [item 1 true; item 2 false; item 3 true] in
  let w := {| Query.queries := []; Query.calls := [] |} in
  indexes b /\
  Forall (readable get_search_dict index) qs /\
  exists w' : Query.world,
    update_index.update_doctype b get_search_dict index (VStr "item") qs 2
      true w = (Ok tt, w') /\
    Query.calls w' =
      [BIndex (VStr "content") (VStr "item")
         (VDict [("title", VStr "shoes")]) (VInt 1);
       BDelete (VStr "content") (VStr "item") (VInt 2);
       BIndex (VStr "content") (VStr "item")
         (VDict [("title", VStr "shoes")]) (VInt 3)].
Proof.
  intros b get_search_dict index item qs w.
  assert (H1 : indexes b) by (intros log i d body id; eexists; reflexivity).
  assert (H2 : Forall (readable get_search_dict index) qs).
  { repeat constructor; eexists; reflexivity. }
  split; [exact H1|]. split; [exact H2|].
  exact (update_doctype_sends_all b get_search_dict index (VStr "item") qs 2
           true w H1 H2 ltac:(lia)).
Defined.

(** X28. A batch size that is not positive updates nothing.  With a batch
    size of 0 the update of a doc type raises [ValueError]; with a negative
    one it returns as if it had worked; in both cases nothing is sent to the
    backend, whatever the queryset holds. *)
Theorem update_doctype_no_batch (b : backend)
  (get_search_dict : value -> result value)
  (index : update_index.index_class) (doctype : value) (qs : list value)
  (batch_size : Z) (remove : bool) (w : Query.world) :
  (batch_size <= 0)%Z ->
  update_index.update_doctype b get_search_dict index doctype qs batch_size
    remove w =
  (if (batch_size =? 0)%Z then Raise ValueError else Ok tt, w).
Proof.
  intros Hsize. unfold update_index.update_doctype, py_range3. cbv zeta.
  destruct (batch_size =? 0)%Z eqn:E0; [reflexivity|].
  apply Z.eqb_neq in E0.
  destruct (0 <? batch_size)%Z eqn:E1; [apply Z.ltb_lt in E1; lia|].
  rewrite bind_lift_Ok.
  assert (Hn : ((0 - Z.of_nat (List.length qs) - batch_size - 1) /
                (- batch_size) <= 0)%Z).
  { apply Z.lt_succ_r. apply Z.div_lt_upper_bound; lia. }
  replace (Z.to_nat ((0 - Z.of_nat (List.length qs) - batch_size - 1) /
                     - batch_size)) with 0%nat by lia.
  reflexivity.
Qed.

Lemma update_doctype_no_batch_witness :
  let b : backend := fun _ _ => Ok (VBool true) in
  let get_search_dict : value -> result value :=
    fun item => Ok (VDict []) in
  let index := {| update_index.index_name := VStr "content";
                  update_index.active_field := "published" |} in
  let qs := [VObj "Item" [("pk", VInt 1); ("published", VBool true)]] in
  let w := {| Query.queries := []; Query.calls := [] |} in
  update_index.update_doctype b get_search_dict index (VStr "item") qs (-10)
    true w = (Ok tt, w) /\
  update_index.update_doctype b get_search_dict index (VStr "item") qs 0
    true w = (Raise ValueError, w).
Proof.
  intros b get_search_dict index qs w. split.
  - exact (update_doctype_no_batch b get_search_dict index (VStr "item") qs
             (-10) true w ltac:(lia)).
  - exact (update_doctype_no_batch b get_search_dict index (VStr "item") qs
             0 true w ltac:(lia)).
Defined.

(** X29. An error on a document stops the update.  When the backend
    raises on the document of an active item, the loop of [do_update]
    raises the same exception and sends nothing for the items after it;
    what was sent for the items before it stays sent. *)
Theorem update_items_stops (b : backend)
  (get_search_dict : value -> result value)
  (index : update_index.index_class) (remove : bool) (sqs : SQS.t)
  (before after : list value) (item active pk doc : value) (e : exn)
  (w w1 : Query.world) :
  update_index.update_items b get_search_dict index remove sqs before w =
    (Ok tt, w1) ->
  py_getattr item (update_index.active_field index) = Ok active ->
  truthy active = true ->
  py_getattr item "pk" = Ok pk ->
  get_search_dict item = Ok doc ->
  b (Query.calls w1)
    (BIndex (SQS.index_name sqs) (SQS.doc_type sqs) doc pk) = Raise e ->
  update_index.update_items b get_search_dict index remove sqs
    (before ++ item :: after) w =
  (Raise e,
   Query.logged (BIndex (SQS.index_name sqs) (SQS.doc_type sqs) doc pk) w1).
Proof.
  intros Hbefore Ha Ht Hpk Hdoc Hb.
  rewrite update_items_app, (bind_ok _ _ _ _ _ Hbefore).
  cbn [update_index.update_items].
  rewrite Ha, bind_lift_Ok, Ht, Hpk, Hdoc.
  rewrite bind_bind, bind_lift_Ok, bind_bind, bind_lift_Ok, bind_bind.
  apply bind_raise.
  unfold update_index.on_sqs, SQS.index. rewrite bind_gets.
  cbn [SQS.self]. unfold SQS.on_store, Query.backend_call.
  cbn [SQS.store]. rewrite Hb. reflexivity.
Qed.

Lemma update_items_stops_witness :
  let b : backend :=
    fun log c => match c with
                 | BIndex _ _ _ (VInt 2) => Raise (BackendError "rejected")
                 | _ => Ok (VBool true)
                 end in
  let get_search_dict : value -> result value :=
    fun item => Ok (VDict []) in
  let index := {| update_index.index_name := VStr "content";
                  update_index.active_field := "published" |} in
  let item (n : Z) :=
    VObj "Item" [("pk", VInt n); ("published", VBool true)] in
  let sqs := SQS.mk (VStr "content") (VStr "item") true 0%nat [] VNone in
  let w := {| Query.queries := [Query.init (VStr "content") (VStr "item")];
              Query.calls := [] |} in
  exists w1 : Query.world,
    update_index.update_items b get_search_dict index true sqs [item 1] w =
      (Ok tt, w1) /\
    update_index.update_items b get_search_dict index true sqs
      ([item 1] ++ item 2 :: [item 3]) w =
    (Raise (BackendError "rejected"),
     Query.logged (BIndex (VStr "content") (VStr "item") (VDict []) (VInt 2))
       w1).
Proof.
  intros b get_search_dict index item sqs w.
  eexists. split; [reflexivity|].
  apply (update_items_stops b get_search_dict index true sqs [item 1]
           [item 3] (item 2) (VBool true) (VInt 2) (VDict [])
           (BackendError "rejected") w);
    reflexivity.
Defined.

(** ** A slice of the results *)

Lemma filled_slice (recs cache : list value) (start bound : nat) :
  filled_from recs cache ->
  existsb is_none (py_slice cache (Z.of_nat start) (Z.of_nat bound)) = false ->
  py_slice cache (Z.of_nat start) (Z.of_nat bound) =
  page recs (Z.of_nat start) (Z.of_nat bound - Z.of_nat start).
Proof.
  intros Hf. rewrite py_slice_nat. unfold page.
  rewrite Nat2Z.id.
  replace (Z.to_nat (Z.of_nat bound - Z.of_nat start)) with (bound - start)%nat
    by lia.
  assert (H : Forall2 (fun x r => x = VNone \/ x = r)
                (take (bound - start) (drop start cache))
                (take (bound - start) (drop start recs)))
    by (apply Forall2_take, Forall2_drop, Hf).
  induction H as [|x r xs rs Hx _ IH]; intros Hex; [reflexivity|].
  cbn [existsb] in Hex. apply orb_false_iff in Hex. destruct Hex as [Hn Hex].
  rewrite (IH Hex). destruct Hx as [-> | ->]; [discriminate|reflexivity].
Qed.

Lemma slice_after_fetch (b : backend) (hits recs : list value) (body : value)
  (start bound : nat) (st : SQS.state) :
  paged hits b ->
  consistent hits recs body st ->
  (start < bound)%nat ->
  fst (bind
         (try_except
            (bind (SQS._fill_cache b (Z.of_nat start) (Z.of_nat bound))
               (fun _ => ret tt))
            (fun e => match e with
                      | StopIteration => ret tt
                      | _ => raise e
                      end))
         (fun _ =>
            bind (gets SQS.self)
              (fun s => ret (VList (py_slice (SQS._result_cache s)
                                      (Z.of_nat start) (Z.of_nat bound)))))
         st) =
  Ok (VList (page recs (Z.of_nat start) (Z.of_nat bound - Z.of_nat start))).
Proof.
  intros Hb (Hrecs & (q & Hq & Hbody & _) & Hcache & _) Hlt.
  pose proof (post_process_list_length _ _ _ Hrecs) as Hn.
  pose proof (fill_cache_ok b hits recs st q body start
                (Z.of_nat bound - Z.of_nat start) Hb Hq Hbody Hrecs
                ltac:(lia)) as Hfill.
  cbv zeta in Hfill.
  replace (Z.of_nat start + (Z.of_nat bound - Z.of_nat start))%Z
    with (Z.of_nat bound) in Hfill by lia.
  set (p := page recs (Z.of_nat start) (Z.of_nat bound - Z.of_nat start)) in *.
  assert (Hp : List.length p =
               Nat.min (Z.to_nat (Z.of_nat bound - Z.of_nat start))
                 (List.length recs - start))
    by apply length_page.
  destruct (List.length p =? 0)%nat eqn:E0.
  - apply Nat.eqb_eq in E0.
    rewrite (bind_ok _ _ _ _ _
               (try_except_ok _ _ _ _ _
                  (eq_trans (bind_ok _ (fun _ => ret tt) _ _ _ Hfill) eq_refl))).
    rewrite bind_gets. cbn [SQS.self ret fst].
    rewrite (nil_length_inv _ E0), py_slice_nat.
    rewrite drop_ge; [rewrite take_nil; reflexivity|].
    destruct Hcache as [-> | Hf]; [cbn; lia|].
    apply filled_from_length in Hf. lia.
  - apply Nat.eqb_neq in E0.
    rewrite (bind_ok _ _ _ _ _
               (try_except_ok _ _ _ _ _
                  (eq_trans (bind_ok _ (fun _ => ret tt) _ _ _ Hfill) eq_refl))).
    rewrite bind_gets.
    cbn [SQS.self SQS._result_cache SQS.set__result_cache ret fst].
    pose proof (allocated_filled hits recs _ Hn Hcache) as Hf.
    pose proof (filled_from_length _ _ Hf) as Hl.
    pose proof (slice_assigned _ recs start bound Hl ltac:(lia) Hlt) as Hs.
    cbv zeta in Hs. fold p in Hs. rewrite Hs. reflexivity.
Qed.

(** X30. A slice gives the records of its window.  On a queryset that
    agrees with the paged answers of the backend, whatever part of the
    results it has cached, a slice whose window is not empty returns the
    records of the ranks of the window that the backend holds; a slice
    without a stop has a window of [SIZE_PER_QUERY] ranks and does not go to
    the end of the results. *)
Theorem getitem_slice_records (b : backend) (SIZE_PER_QUERY : Z)
  (hits recs : list value) (body : value) (from to : option Z)
  (start bound : nat) (st : SQS.state) :
  paged hits b ->
  consistent hits recs body st ->
  key_bounds SIZE_PER_QUERY (KSlice from to) =
    Some (Z.of_nat start, Z.of_nat bound) ->
  (start < bound)%nat ->
  fst (SQS.__getitem__ b SIZE_PER_QUERY (KSlice from to) st) =
  Ok (VList (page recs (Z.of_nat start) (Z.of_nat bound - Z.of_nat start))).
Proof.
  intros Hb Hc Hk Hlt.
  assert (Hpre :
    SQS.__getitem__ b SIZE_PER_QUERY (KSlice from to) st =
    bind (gets SQS.self)
      (fun s =>
         bind
           (if (List.length (SQS._result_cache s) <=? 0)%nat then ret true
            else if existsb is_none
                      (py_slice (SQS._result_cache s) (Z.of_nat start)
                         (Z.of_nat bound))
                 then bind (SQS._cache_is_full b) (fun full => ret (negb full))
                 else ret false)
           (fun more : bool =>
              bind
                (if more
                 then try_except
                        (bind (SQS._fill_cache b (Z.of_nat start)
                                 (Z.of_nat bound))
                           (fun _ => ret tt))
                        (fun e => match e with
                                  | StopIteration => ret tt
                                  | _ => raise e
                                  end)
                 else ret tt)
                (fun _ =>
                   bind (gets SQS.self)
                     (fun s =>
                        ret (VList (py_slice (SQS._result_cache s)
                                      (Z.of_nat start) (Z.of_nat bound)))))))
      st).
  { unfold SQS.__getitem__. cbv zeta. rewrite bind_ret.
    destruct from as [s|], to as [e|]; cbn in Hk; inversion Hk; subst;
      repeat match goal with
             | |- context [(0 <=? Z.of_nat ?n)%Z] =>
                 replace (0 <=? Z.of_nat n)%Z with true
                   by (symmetry; apply Z.leb_le; lia)
             end;
      cbn [andb]; rewrite bind_ret;
      repeat match goal with
             | H : _ = Z.of_nat _ |- _ => rewrite H
             end;
      reflexivity. }
  rewrite Hpre. clear Hpre. rewrite bind_gets.
  destruct (List.length (SQS._result_cache (SQS.self st)) <=? 0)%nat eqn:E3.
  { rewrite bind_ret.
    apply (slice_after_fetch b hits recs body start bound st Hb Hc Hlt). }
  apply Nat.leb_gt in E3.
  pose proof Hc as (Hrecs & _ & Hcache & _).
  destruct Hcache as [He|Hf]; [rewrite He in E3; cbn in E3; lia|].
  destruct (existsb is_none
              (py_slice (SQS._result_cache (SQS.self st)) (Z.of_nat start)
                 (Z.of_nat bound))) eqn:Hex.
  - destruct (exists_none_slice _ _ _ Hex) as (Hstart & j & Hj).
    destruct (cache_is_full_ok b _ _ _ _ Hc) as (q & s1 & Hq & Hfull & Hs1).
    rewrite Hj in Hfull.
    pose proof (post_process_list_length _ _ _ Hrecs) as Hn.
    pose proof (filled_from_length _ _ Hf) as Hlen.
    assert (Hnz : (List.length hits =? 0)%nat = false)
      by (apply Nat.eqb_neq; lia).
    rewrite Hnz, andb_false_r in Hfull.
    rewrite bind_bind, (bind_ok _ _ _ _ _ Hfull), bind_ret. cbn [negb].
    apply (slice_after_fetch b hits recs body start bound _ Hb); [|exact Hlt].
    apply (consistent_count _ _ _ _ _ Hc Hs1).
  - rewrite bind_ret, bind_ret, bind_gets. cbn [ret fst].
    rewrite (filled_slice recs _ start bound Hf Hex). reflexivity.
Qed.

Lemma getitem_slice_records_witness :
  let hits := example_hits 5 in
  let recs := map (fun n : nat => VDict [("rank", VInt (Z.of_nat n));
                                         ("doc_type", VStr "item")])
                (seq 0 5) in
  let body := VDict [("query", VDict [("match_all", VDict [])])] in
  let b := paging hits in
  let st := snd (SQS.__getitem__ b 2 (KSlice (Some 0%Z) (Some 2%Z))
                   example_state) in
  paged hits b /\
  consistent hits recs body st /\
  key_bounds 2 (KSlice (Some 1%Z) None) = Some (1%Z, 3%Z) /\
  fst (SQS.__getitem__ b 2 (KSlice (Some 1%Z) None) st) =
    Ok (VList [VDict [("rank", VInt 1); ("doc_type", VStr "item")];
               VDict [("rank", VInt 2); ("doc_type", VStr "item")]]).
Proof.
  intros hits recs body b st.
  assert (H1 : paged hits b) by apply paging_paged.
  assert (H2 : consistent hits recs body st).
  { split; [vm_compute; reflexivity|]. split.
    - eexists. split; [vm_compute; reflexivity|].
      split; [reflexivity|right; reflexivity].
    - split; [|left; reflexivity].
      right. vm_compute.
      repeat (constructor; [first [left; reflexivity|right; reflexivity]|]).
      constructor. }
  split; [exact H1|]. split; [exact H2|]. split; [reflexivity|].
  exact (getitem_slice_records b 2 hits recs body (Some 1%Z) None 1 3 st
           H1 H2 eq_refl ltac:(lia)).
Defined.

(** ** What chaining does to the shared query *)

Lemma add_filter_and_under (kwargs : dict) (filters old : list value)
  (q : Query.t) :
  filters_under "must" (Query.filter_and_terms q) old ->
  Forall2 (fun kv f => renders (fst kv) (snd kv) f) kwargs filters ->
  Query.add_filter_and kwargs q =
  (Ok tt,
   Query.set_filter_and_terms (VDict [("must", VList (old ++ filters))]) q).
Proof.
  intros [[Hq ->]|Hq] H.
  - apply add_filter_and_fresh; assumption.
  - apply add_filter_and_appends; assumption.
Qed.

Lemma add_filter_or_under (kwargs : dict) (filters old : list value)
  (q : Query.t) :
  filters_under "should" (Query.filter_or_terms q) old ->
  Forall2 (fun kv f => renders (fst kv) (snd kv) f) kwargs filters ->
  Query.add_filter_or kwargs q =
  (Ok tt,
   Query.set_filter_or_terms (VDict [("should", VList (old ++ filters))]) q).
Proof.
  intros [[Hq ->]|Hq] H.
  - apply add_filter_or_fresh; assumption.
  - unfold Query.add_filter_or. rewrite Hq. cbn [is_none].
    rewrite Hq, (add_filter_items_renders "should" kwargs filters old H).
    reflexivity.
Qed.

Lemma facet_filter_items_more (items : dict) (filters old : list value)
  (terms : dict) :
  Forall2 (fun kv f => facet_renders (fst kv) (snd kv) f) items filters ->
  Query.add_facet_filter_items items (terms_facet terms old) =
  (Ok tt, terms_facet terms (old ++ filters)).
Proof.
  intros H. destruct old as [|x old].
  - apply facet_filter_items_first, H.
  - unfold terms_facet at 1.
    rewrite (facet_filter_items_append _ _ (x :: old) _ H). reflexivity.
Qed.

Lemma add_term_facet_filter_more (field : string) (filter_query : dict)
  (filters old : list value) (terms others : dict) (q : Query.t) :
  Query.facets q = VDict others ->
  Dict.lookup field others = Some (terms_facet terms old) ->
  Forall2 (fun kv f => facet_renders (fst kv) (snd kv) f) filter_query filters ->
  Query.add_term_facet_filter field filter_query q =
  (Ok tt,
   Query.set_facets
     (VDict (Dict.set field (terms_facet terms (old ++ filters)) others)) q).
Proof.
  intros Hq Hfield H. unfold Query.add_term_facet_filter.
  rewrite Hq. cbn [is_none py_get py_get_default]. rewrite Hfield.
  assert (Ht : truthy (terms_facet terms old) = true)
    by (destruct old; reflexivity).
  rewrite Ht. cbn [negb]. rewrite Hq. cbn [py_getitem]. rewrite Hfield.
  rewrite (facet_filter_items_more _ _ _ _ H).
  reflexivity.
Qed.

Lemma mutates_chain_query (DEFAULT_FILTER : string) (op : chain)
  (q q' : Query.t) :
  mutates DEFAULT_FILTER op q q' ->
  chain_query DEFAULT_FILTER op q = (Ok tt, q').
Proof.
  intros H. destruct H; cbn [chain_query].
  - unfold Query.add_search_query.
    destruct (is_none search_fields); reflexivity.
  - subst DEFAULT_FILTER. cbn. apply add_filter_and_under; assumption.
  - match goal with
    | Hne : DEFAULT_FILTER <> "AND" |- _ =>
        apply String.eqb_neq in Hne; rewrite Hne
    end.
    apply add_filter_or_under; assumption.
  - apply add_filter_and_under; assumption.
  - apply add_filter_or_under; assumption.
  - reflexivity.
  - unfold Query.add_sort.
    match goal with
    | Hs : Forall2 sort_renders _ _ |- _ =>
        rewrite (sort_items_renders _ _ Hs)
    end.
    reflexivity.
  - reflexivity.
  - reflexivity.
  - reflexivity.
  - apply add_term_facet_sets; assumption.
  - apply add_term_facet_filter_new; assumption.
  - eapply add_term_facet_filter_more; eassumption.
  - reflexivity.
  - reflexivity.
Qed.

(** C7. Each of the thirteen chaining methods, called with arguments that
    it does not raise on, returns a queryset made anew by [_clone], with an
    empty cache, whose [query] is the reference held by the receiver, and
    changes the query at that reference as [mutates] tells for the method:
    the receiver and the clone render the changed query.  A later chaining
    call on the receiver changes the same query again, and the first clone
    renders what the second call made of it. *)
Theorem chain_shares_query (DEFAULT_FILTER : string) (op : chain)
  (s : SQS.t) (w : Query.world) (q q' : Query.t) :
  Query.queries w !! SQS.query s = Some q ->
  mutates DEFAULT_FILTER op q q' ->
  let w' := Query.put (SQS.query s) q' w in
  chain_call DEFAULT_FILTER op {| SQS.self := s; SQS.store := w |} =
    (Ok (clone_of s), {| SQS.self := s; SQS.store := w' |}) /\
  SQS.query (clone_of s) = SQS.query s /\
  SQS._result_cache (clone_of s) = [] /\
  Query.queries w' !! SQS.query s = Some q' /\
  Query.queries w' !! SQS.query (clone_of s) = Some q' /\
  rendered s w' = Query.build_query q' /\
  rendered (clone_of s) w' = rendered s w' /\
  forall (op2 : chain) (q'' : Query.t),
    mutates DEFAULT_FILTER op2 q' q'' ->
    let w'' := Query.put (SQS.query s) q'' w in
    chain_call DEFAULT_FILTER op2 {| SQS.self := s; SQS.store := w' |} =
      (Ok (clone_of s), {| SQS.self := s; SQS.store := w'' |}) /\
    Query.queries w'' !! SQS.query (clone_of s) = Some q'' /\
    rendered (clone_of s) w'' = Query.build_query q'' /\
    rendered s w'' = Query.build_query q''.
Proof.
  intros Hq Hm w'.
  pose proof (mutates_chain_query _ _ _ _ Hm) as Hop.
  assert (Hq' : Query.queries w' !! SQS.query s = Some q')
    by (apply (lookup_put _ q); exact Hq).
  split; [|split; [reflexivity|split; [reflexivity|split; [exact Hq'|
          split; [exact Hq'|split; [|split]]]]]].
  - rewrite (chain_call_eq _ _ _ _ _ Hq), Hop. reflexivity.
  - apply rendered_eq, Hq'.
  - rewrite (rendered_eq s w' q' Hq'). apply rendered_eq, Hq'.
  - intros op2 q'' Hm2 w''.
    pose proof (mutates_chain_query _ _ _ _ Hm2) as Hop2.
    assert (Hq'' : Query.queries w'' !! SQS.query s = Some q'')
      by (apply (lookup_put _ q); exact Hq).
    split; [|split; [exact Hq''|split]].
    + rewrite (chain_call_eq _ _ _ _ _ Hq'), Hop2.
      unfold w'. rewrite put_put. reflexivity.
    + apply rendered_eq, Hq''.
    + apply rendered_eq, Hq''.
Qed.

Lemma chain_shares_query_witness :
  let q := Query.init (VStr "content") (VStr "item") in
  let r := SQS.mk (VStr "content") (VStr "item") true 0%nat [] VNone in
  let w := {| Query.queries := [q]; Query.calls := [] |} in
  let op := Search (VStr "shoes") VNone in
  let op2 := FilterAnd [("price__gte", VInt 10)] in
  let q' := Query.set_search_terms
              (VDict [("match", VDict [("_all", VStr "shoes")])]) q in
  let q'' := Query.set_filter_and_terms
               (VDict [("must", VList [range_filter "price" "gte" (VInt 10)])])
               q' in
  mutates "AND" op q q' /\
  mutates "AND" op2 q' q'' /\
  exists (s s2 : SQS.t) (st1 st2 : SQS.state),
    chain_call "AND" op {| SQS.self := r; SQS.store := w |} = (Ok s, st1) /\
    chain_call "AND" op2 st1 = (Ok s2, st2) /\
    SQS.query s = SQS.query r /\
    rendered r (SQS.store st1) = rendered s (SQS.store st1) /\
    rendered r w <> rendered r (SQS.store st1) /\
    rendered s (SQS.store st2) =
    Ok (VDict [("query", VDict [("match", VDict [("_all", VStr "shoes")])]);
               ("filter",
                VDict [("bool",
                        VDict [("must",
                                VList [range_filter "price" "gte" (VInt 10)])])])]).
Proof.
  intros q r w op op2 q' q''.
  assert (Hm1 : mutates "AND" op q q')
    by exact (mutates_search "AND" (VStr "shoes") VNone q).
  assert (Hm2 : mutates "AND" op2 q' q'').
  { apply (mutates_filter_and "AND" [("price__gte", VInt 10)]
             [range_filter "price" "gte" (VInt 10)] [] q').
    - left. split; reflexivity.
    - constructor; [|constructor].
      exact (renders_range "price" "gte" (VInt 10) eq_refl eq_refl). }
  split; [exact Hm1|]. split; [exact Hm2|].
  destruct (chain_shares_query "AND" op r w q q' eq_refl Hm1)
    as (H1 & H2 & _ & _ & _ & _ & H3 & H4).
  destruct (H4 op2 q'' Hm2) as (H5 & _ & H6 & _).
  eexists _, _, _, _.
  split; [exact H1|]. split; [exact H5|]. split; [exact H2|].
  split; [symmetry; exact H3|]. split; [discriminate|]. exact H6.
Defined.
